(** * zozo-player: the adaptive playback control loop

    A shallow embedding of the four React hooks that make up the player's
    control loop, and the properties of them that the specification states:

    - [ABR]        src/hooks/useAdaptiveBitrate.ts
    - [Recovery]   src/hooks/useErrorRecovery.ts
    - [Health]     src/hooks/useHealthMonitor.ts
    - [Bandwidth]  the useRealBandwidth hook

    Conventions.  A JavaScript [number] that measures something (seconds,
    milliseconds, Mbps, a score handed in by the caller, a clock reading) is
    a rational [Q], and stands for a finite double.  Where the source
    multiplies, divides, adds or subtracts measurements before it compares
    the result with a threshold, the model rounds the result to the nearest
    double as IEEE 754 does ([JS.double], ties to even, subnormals included);
    only overflow to an infinity is left out, a result beyond the range of
    doubles staying the finite number it is.  Differences of clock readings
    are differences of integers far below 2^53, which doubles carry
    exactly, and are written with the exact operations of [Q]; so is the
    backoff delay, which the source itself rounds to an integer.  Counters
    that the hooks only ever increment are integers [Z].
    [useRef] cells and [useState] cells are fields of one record per hook,
    threaded explicitly through every callback.  The browser's table of
    armed timeouts is part of that record, so that [setTimeout] and
    [clearTimeout] have their real meaning. *)

From Stdlib Require Import ZArith QArith Qround Qminmax Qpower.
From Stdlib Require Import Lia Lqa List String Bool Sorted.
Import ListNotations.

Open Scope Q_scope.

(** ** JavaScript numbers *)

Module JS.

(** [a < b] and [a > b] on numbers. *)
Definition ltb (a b : Q) : bool := negb (Qle_bool b a).
Definition gtb (a b : Q) : bool := ltb b a.

(** [a === b] on numbers. *)
Definition eqb (a b : Q) : bool := Qeq_bool a b.

(** Truthiness of a number: every number but 0 is truthy. *)
Definition truthy (a : Q) : bool := negb (Qeq_bool a 0).

(** [a || b] on numbers. *)
Definition or (a b : Q) : Q := if truthy a then a else b.

(** [Math.round]: the nearest integer, halves rounded up. *)
Definition round (a : Q) : Z := Qfloor (a + (1 # 2)).

(** [Math.floor(n / 2)] on an array length. *)
Definition half (n : nat) : nat := Nat.div2 n.

(** The exponent of the binade of a positive number: [floor (log2 x)]. *)
Definition ilog2 (x : Q) : Z :=
  let e := (Z.log2 (Qnum x) - Z.log2 (Zpos (Qden x)))%Z in
  if Qle_bool (2 ^ e) x then e else (e - 1)%Z.

(** The nearest integer, a tie going to the even one. *)
Definition nearestEven (t : Q) : Z :=
  let f := Qfloor t in
  match Qcompare (t - inject_Z f) (1 # 2) with
  | Lt => f
  | Gt => (f + 1)%Z
  | Eq => if Z.even f then f else (f + 1)%Z
  end.

(** The spacing of the doubles around a positive number: 53 bits of
    significand, and the spacing 2^-1074 of the subnormals below 2^-1022. *)
Definition ulp (x : Q) : Q := 2 ^ (Z.max (ilog2 x) (-1022) - 52).

Definition roundPositive (x : Q) : Q :=
  inject_Z (nearestEven (x / ulp x)) * ulp x.

(** The double nearest to a number (round to nearest, ties to even): what
    the result of every arithmetic operation on doubles is rounded to, and
    what a decimal literal of the source denotes. *)
Definition double (x : Q) : Q :=
  let x := Qred x in
  match Qnum x with
  | Z0 => 0
  | Zpos _ => Qred (roundPositive x)
  | Zneg _ => Qred (- roundPositive (- x))
  end.

(** [a + b], [a - b], [a * b] and [a / b] on doubles, the divisor of the
    last one not being 0.  The operands are read as doubles, so that a
    literal such as [1.2] stands for the double the source means by it. *)
Definition add (a b : Q) : Q := double (double a + double b).
Definition sub (a b : Q) : Q := double (double a - double b).
Definition mul (a b : Q) : Q := double (double a * double b).
Definition over (a b : Q) : Q := double (double a / double b).

(** The result of a division whose divisor may be 0: IEEE gives an infinity
    or NaN there, and the callers of this file only ever compare the result
    with a constant. *)
Inductive quotient : Type :=
| Finite (q : Q)
| PosInfinity
| NegInfinity
| NaN.

Definition div (a b : Q) : quotient :=
  if Qeq_bool (double b) 0 then
    if ltb 0 (double a) then PosInfinity
    else if ltb (double a) 0 then NegInfinity
    else NaN
  else Finite (over a b).

(** [x > c] for such a result: false on NaN. *)
Definition quotient_gtb (x : quotient) (c : Q) : bool :=
  match x with
  | Finite q => gtb q c
  | PosInfinity => true
  | NegInfinity => false
  | NaN => false
  end.

End JS.

(** ** useAdaptiveBitrate *)

Module ABR.

(** [StreamQuality] is declared in utils/manifestParser; these are the
    fields the player fills in when it builds the ladder, [bandwidth] in
    bits per second. *)
Record StreamQuality : Type := {
  id : string;
  label : string;
  bandwidth : Q;
  resolution : string
}.

Record ABRState : Type := {
  currentQuality : option StreamQuality;
  targetQuality : option StreamQuality;
  isAdapting : bool;
  adaptationReason : string;
  switchCount : Z
}.

Record ABRConfig : Type := {
  enabled : bool;
  switchThreshold : Q;
  minSwitchInterval : Q;
  bufferTargetUp : Q;
  bufferTargetDown : Q
}.

Definition defaultConfig : ABRConfig := {|
  enabled := true;
  switchThreshold := 3;
  minSwitchInterval := 10000;
  bufferTargetUp := 8;
  bufferTargetDown := 2
|}.

(** The arguments of the hook other than [config], as one render sees
    them. *)
Record Props : Type := {
  availableQualities : list StreamQuality;
  currentBandwidth : Q;
  bufferLevel : Q;
  healthScore : Q
}.

(** A timeout armed by the decision tick: the callback closes over the
    candidate and the reason of the tick that armed it. *)
Record Timeout : Type := {
  handle : nat;
  armedAt : Q;
  delay : Q;
  candidate : StreamQuality;
  why : string
}.

(** The state cell, the four refs, and the timeouts of this hook that the
    browser still holds. *)
Record Hook : Type := {
  abrState : ABRState;
  lastSwitchTimeRef : Q;
  switchCountRef : Z;
  stableCountRef : Z;
  adaptationTimerRef : option nat;
  pendingTimeouts : list Timeout;
  nextHandle : nat
}.

Definition initialHook : Hook := {|
  abrState := {|
    currentQuality := None;
    targetQuality := None;
    isAdapting := false;
    adaptationReason := "";
    switchCount := 0
  |};
  lastSwitchTimeRef := 0;
  switchCountRef := 0%Z;
  stableCountRef := 0%Z;
  adaptationTimerRef := None;
  pendingTimeouts := [];
  nextHandle := 0%nat
|}.

Record Decision : Type := {
  should : bool;
  reason : string
}.

(** [clearTimeout(h)]; clearing a handle that is no longer armed does
    nothing. *)
Definition clearTimeout (h : nat) (ts : list Timeout) : list Timeout :=
  filter (fun t => negb (Nat.eqb (handle t) h)) ts.

(** [if (ref.current) clearTimeout(ref.current)]. *)
Definition clearRef (r : option nat) (ts : list Timeout) : list Timeout :=
  match r with
  | Some h => clearTimeout h ts
  | None => ts
  end.

Definition findTimeout (h : nat) (ts : list Timeout) : option Timeout :=
  find (fun t => Nat.eqb (handle t) h) ts.

(** The factor of line 53, named as the source names it. *)
Definition safetyFactor (healthScore : Q) : Q :=
  if JS.gtb healthScore 80 then 0.9
  else if JS.gtb healthScore 60 then 0.75
  else 0.6.

(** The factor the buffer level contributes (lines 57-67). *)
Definition bufferFactor (config : ABRConfig) (bufferLevel : Q) : Q :=
  if JS.ltb bufferLevel (bufferTargetDown config) then 0.7
  else if JS.ltb bufferLevel (bufferTargetUp config) then 0.85
  else 1.0.

Section WithLadderSearch.

(** [recommendQuality] lives in utils/manifestParser and is a parameter
    here: a target in Mbps and the ladder give a rung, or nothing. *)
Variable recommendQuality : Q -> list StreamQuality -> option StreamQuality.

Definition determineOptimalQuality (config : ABRConfig) (p : Props)
  : option StreamQuality :=
  if Nat.eqb (List.length (availableQualities p)) 0 || negb (enabled config)
  then None
  else
    let safetyFactor := safetyFactor (healthScore p) in
    let safeBandwidth := JS.mul (currentBandwidth p) safetyFactor in
    let targetBandwidth :=
      JS.mul safeBandwidth (bufferFactor config (bufferLevel p)) in
    recommendQuality targetBandwidth (availableQualities p).

(** [shouldSwitch].  [bufferLevel] and [healthScore] are the ones of the
    current render; [currentBandwidth] is the one the memoised callback
    captured, which is why it is an argument of its own; [lastSwitchTime] and
    [stableCount] are the refs, [now] is [Date.now()]. *)
Definition shouldSwitch (config : ABRConfig)
    (bufferLevel healthScore currentBandwidth : Q)
    (lastSwitchTime : Q) (stableCount : Z) (now : Q)
    (current target : option StreamQuality) : Decision :=
  match target with
  | None => {| should := false; reason := "ABR désactivé" |}
  | Some target =>
    if negb (enabled config) then
      {| should := false; reason := "ABR désactivé" |}
    else
      let timeSinceLastSwitch := now - lastSwitchTime in
      if JS.ltb timeSinceLastSwitch (minSwitchInterval config) then
        {| should := false; reason := "Trop tôt pour changer" |}
      else
        match current with
        | None => {| should := true; reason := "Initialisation qualité" |}
        | Some current =>
          if JS.eqb (bandwidth current) (bandwidth target) then
            {| should := false; reason := "Qualité déjà optimale" |}
          else if JS.ltb bufferLevel (bufferTargetDown config)
                  && JS.ltb (bandwidth target) (bandwidth current) then
            {| should := true; reason := "Buffer critique - downgrade urgent" |}
          else if JS.ltb healthScore 50
                  && JS.ltb (bandwidth target) (bandwidth current) then
            {| should := true; reason := "Santé faible - downgrade recommandé" |}
          else if JS.gtb (bandwidth target) (bandwidth current) then
            if JS.ltb bufferLevel (bufferTargetUp config) then
              {| should := false; reason := "Buffer insuffisant pour upgrade" |}
            else if JS.ltb healthScore 70 then
              {| should := false; reason := "Santé insuffisante pour upgrade" |}
            else if (stableCount <? 2)%Z then
              {| should := false; reason := "Conditions pas encore stables" |}
            else
              {| should := true; reason := "Conditions optimales - upgrade" |}
          else if JS.ltb (bandwidth target) (bandwidth current)
                  && (let currentRequiredBandwidth :=
                        JS.mul (JS.over (bandwidth current) 1000000) 1.2 in
                      JS.ltb currentBandwidth currentRequiredBandwidth) then
            {| should := true; reason := "Bande passante insuffisante" |}
          else
            {| should := false; reason := "Conditions non réunies" |}
        end
  end.

(** One run of the [setInterval] callback of the effect, at clock reading
    [now].  [p] is the render the effect closed over; [capturedBandwidth] is
    the bandwidth [shouldSwitch] closed over. *)
Definition tick (config : ABRConfig) (p : Props) (capturedBandwidth : Q)
    (now : Q) (hk : Hook) : Hook :=
  match determineOptimalQuality config p with
  | None => hk
  | Some optimalQuality =>
    let d := shouldSwitch config (bufferLevel p) (healthScore p)
               capturedBandwidth (lastSwitchTimeRef hk) (stableCountRef hk)
               now (currentQuality (abrState hk)) (Some optimalQuality) in
    let prev := abrState hk in
    if should d then
      {| abrState := {|
           currentQuality := currentQuality prev;
           targetQuality := Some optimalQuality;
           isAdapting := true;
           adaptationReason := reason d;
           switchCount := switchCount prev
         |};
         lastSwitchTimeRef := lastSwitchTimeRef hk;
         switchCountRef := switchCountRef hk;
         stableCountRef := stableCountRef hk;
         adaptationTimerRef := Some (nextHandle hk);
         pendingTimeouts :=
           {| handle := nextHandle hk;
              armedAt := now;
              delay := switchThreshold config * 1000;
              candidate := optimalQuality;
              why := reason d |}
           :: clearRef (adaptationTimerRef hk) (pendingTimeouts hk);
         nextHandle := S (nextHandle hk)
      |}
    else
      {| abrState := {|
           currentQuality := currentQuality prev;
           targetQuality := None;
           isAdapting := false;
           adaptationReason := reason d;
           switchCount := switchCount prev
         |};
         lastSwitchTimeRef := lastSwitchTimeRef hk;
         switchCountRef := switchCountRef hk;
         stableCountRef := (stableCountRef hk + 1)%Z;
         adaptationTimerRef := None;
         pendingTimeouts := clearRef (adaptationTimerRef hk) (pendingTimeouts hk);
         nextHandle := nextHandle hk
      |}
  end.

End WithLadderSearch.

(** The body of the settle-delay callback (lines 161-179), run at clock
    reading [now] for the timeout [t]. *)
Definition commit (t : Timeout) (now : Q) (hk : Hook) : Hook :=
  let switchCountRef' := (switchCountRef hk + 1)%Z in
  {| abrState := {|
       currentQuality := Some (candidate t);
       targetQuality := None;
       isAdapting := false;
       adaptationReason := "";
       switchCount := switchCountRef'
     |};
     lastSwitchTimeRef := now;
     switchCountRef := switchCountRef';
     stableCountRef := 0%Z;
     adaptationTimerRef := adaptationTimerRef hk;
     pendingTimeouts := clearTimeout (handle t) (pendingTimeouts hk);
     nextHandle := nextHandle hk
  |}.

(** A timeout is due once its delay has elapsed; a negative delay counts
    as 0. *)
Definition due (t : Timeout) (now : Q) : bool :=
  Qle_bool (armedAt t + Qmax 0 (delay t)) now.

(** The browser runs the callback of handle [h] at [now]: nothing happens
    unless that timeout is still armed and due. *)
Definition expire (h : nat) (now : Q) (hk : Hook) : Hook :=
  match findTimeout h (pendingTimeouts hk) with
  | Some t => if due t now then commit t now hk else hk
  | None => hk
  end.

(** Does [expire h now] commit a switch? *)
Definition commits (h : nat) (now : Q) (hk : Hook) : bool :=
  match findTimeout h (pendingTimeouts hk) with
  | Some t => due t now
  | None => false
  end.

(** The cleanup of the effect (lines 198-203), which React runs whenever a
    dependency of the effect changes; the interval is re-armed by the effect
    that follows. *)
Definition cleanup (hk : Hook) : Hook :=
  {| abrState := abrState hk;
     lastSwitchTimeRef := lastSwitchTimeRef hk;
     switchCountRef := switchCountRef hk;
     stableCountRef := stableCountRef hk;
     adaptationTimerRef := adaptationTimerRef hk;
     pendingTimeouts := clearRef (adaptationTimerRef hk) (pendingTimeouts hk);
     nextHandle := nextHandle hk
  |}.

Definition setManualQuality (quality : option StreamQuality) (hk : Hook)
  : Hook :=
  {| abrState := {|
       currentQuality := quality;
       targetQuality := None;
       isAdapting := false;
       adaptationReason := "Manuel";
       switchCount := switchCountRef hk
     |};
     lastSwitchTimeRef := lastSwitchTimeRef hk;
     switchCountRef := switchCountRef hk;
     stableCountRef := 0%Z;
     adaptationTimerRef := adaptationTimerRef hk;
     pendingTimeouts := pendingTimeouts hk;
     nextHandle := nextHandle hk
  |}.

(** What can happen to the hook during a session, each with the clock
    reading at which it happens. *)
Inductive Event : Type :=
| Tick (p : Props) (capturedBandwidth : Q)
| Expire (h : nat)
| Cleanup
| SetManual (quality : option StreamQuality).

Section Sessions.

Variable recommendQuality : Q -> list StreamQuality -> option StreamQuality.
Variable config : ABRConfig.

Definition step (hk : Hook) (e : Q * Event) : Hook :=
  let (now, ev) := e in
  match ev with
  | Tick p bw => tick recommendQuality config p bw now hk
  | Expire h => expire h now hk
  | Cleanup => cleanup hk
  | SetManual q => setManualQuality q hk
  end.

Definition run (hk : Hook) (es : list (Q * Event)) : Hook :=
  fold_left step es hk.

(** The clock readings at which the session committed a switch, oldest
    first. *)
Fixpoint commitTimes (hk : Hook) (es : list (Q * Event)) : list Q :=
  match es with
  | [] => []
  | (now, ev) :: es' =>
    let rest := commitTimes (step hk (now, ev)) es' in
    match ev with
    | Expire h => if commits h now hk then now :: rest else rest
    | _ => rest
    end
  end.

End Sessions.

(** Every two successive readings of [ts] are at least [d] apart. *)
Fixpoint spaced (d : Q) (ts : list Q) : Prop :=
  match ts with
  | [] => True
  | a :: rest =>
    match rest with
    | [] => True
    | b :: _ => d <= b - a /\ spaced d rest
    end
  end.

(** Every armed timeout is the one [adaptationTimerRef] points to, and was
    armed at least [minSwitchInterval] after the last committed switch. *)
Definition waited (config : ABRConfig) (hk : Hook) : Prop :=
  forall t, In t (pendingTimeouts hk) ->
    adaptationTimerRef hk = Some (handle t) /\
    minSwitchInterval config <= armedAt t - lastSwitchTimeRef hk.

(** The counter shown in the state is the one kept in the ref. *)
Definition synced (hk : Hook) : Prop :=
  switchCount (abrState hk) = switchCountRef hk.

(** Modelled from the spec: [recommendQuality] of utils/manifestParser, which
    is not among the sources.  The highest rung whose requirement does not
    exceed the target, the lowest rung when none qualifies, nothing for an
    empty ladder; the ladder is in ascending order and the target is in
    Mbps. *)
Fixpoint recommendQuality_spec (target : Q) (ladder : list StreamQuality)
  : option StreamQuality :=
  match ladder with
  | [] => None
  | q :: rest =>
    match recommendQuality_spec target rest with
    | Some q' =>
      if Qle_bool (bandwidth q' / 1000000) target then Some q' else Some q
    | None => Some q
    end
  end.

(** The ladder of the specification's example. *)
Definition rung480 : StreamQuality :=
  {| id := "level-0"; label := "480p"; bandwidth := 1000000;
     resolution := "854x480" |}.
Definition rung720 : StreamQuality :=
  {| id := "level-1"; label := "720p"; bandwidth := 3000000;
     resolution := "1280x720" |}.
Definition rung1080 : StreamQuality :=
  {| id := "level-2"; label := "1080p"; bandwidth := 6000000;
     resolution := "1920x1080" |}.
Definition ladder : list StreamQuality := [rung480; rung720; rung1080].

(** A healthy render (5 Mbps, 10 s of buffer, health 90) and a starving one
    (1.5 Mbps, 1 s of buffer, health 40). *)
Definition healthyProps : Props :=
  {| availableQualities := ladder; currentBandwidth := 5;
     bufferLevel := 10; healthScore := 90 |}.
Definition starvingProps : Props :=
  {| availableQualities := ladder; currentBandwidth := 1.5;
     bufferLevel := 1; healthScore := 40 |}.

(** The default configuration with a settle delay of one second. *)
Definition quickConfig : ABRConfig := {|
  enabled := true;
  switchThreshold := 1;
  minSwitchInterval := 10000;
  bufferTargetUp := 8;
  bufferTargetDown := 2
|}.

(** A session that switches twice: up to 720p on the first tick, down to
    480p once the buffer starves. *)
Definition twoSwitchSession : list (Q * Event) :=
  [ (100000, Tick healthyProps 5);
    (101000, Expire 0);
    (103000, Tick starvingProps 1.5);
    (112000, Tick starvingProps 1.5);
    (113000, Expire 1) ].

(** A session in which no settle timeout gets the time to expire: every
    tick finds a candidate, and every expiry comes less than the settle
    delay after the latest tick, [lastTick]. *)
Fixpoint rushed
    (recommendQuality : Q -> list StreamQuality -> option StreamQuality)
    (config : ABRConfig) (lastTick : Q) (es : list (Q * Event)) : Prop :=
  match es with
  | [] => True
  | (now, Tick p _) :: rest =>
    determineOptimalQuality recommendQuality config p <> None /\
    rushed recommendQuality config now rest
  | (now, Expire _) :: rest =>
    now < lastTick + Qmax 0 (switchThreshold config * 1000) /\
    rushed recommendQuality config lastTick rest
  | (_, _) :: rest => rushed recommendQuality config lastTick rest
  end.

(** Every armed timeout was armed at [lastTick] with the settle delay of
    [config]. *)
Definition armedAtTick (config : ABRConfig) (lastTick : Q) (hk : Hook) : Prop :=
  forall t, In t (pendingTimeouts hk) ->
    armedAt t = lastTick /\ delay t = switchThreshold config * 1000.

(** The state cell shows a target exactly while it says it is adapting. *)
Definition adaptingHasTarget (hk : Hook) : Prop :=
  isAdapting (abrState hk) = true <-> targetQuality (abrState hk) <> None.

(** Ticks every two seconds under the default configuration, on a healthy
    then a starving stream, with expiries tried in between. *)
Definition defaultCadenceSession : list (Q * Event) :=
  [ (100000, Tick healthyProps 5);
    (102000, Tick healthyProps 5);
    (102999, Expire 0);
    (104000, Tick starvingProps 1.5);
    (104500, Expire 1);
    (106000, Tick starvingProps 1.5);
    (108999, Expire 2) ].

End ABR.

(** ** useErrorRecovery *)

Module Recovery.

Record RetryConfig : Type := {
  maxRetries : Z;
  baseDelay : Q;
  maxDelay : Q;
  globalTimeout : Q
}.

Definition defaultConfig : RetryConfig := {|
  maxRetries := 5;
  baseDelay := 100;
  maxDelay := 10000;
  globalTimeout := 30000
|}.

(** [recoveryStartTime] is a clock reading, 0 while no episode runs. *)
Record ErrorState : Type := {
  errorCount : Z;
  lastError : option string;
  isRecovering : bool;
  nextRetryDelay : Q;
  recoveryStartTime : Q
}.

Definition initialState (config : RetryConfig) : ErrorState := {|
  errorCount := 0;
  lastError := None;
  isRecovering := false;
  nextRetryDelay := baseDelay config;
  recoveryStartTime := 0
|}.

(** The two callbacks [attemptRecovery] hands to [setTimeout]. *)
Inductive Callback : Type :=
| GlobalGuard
| RunRecovery.

Record Timeout : Type := {
  handle : nat;
  delay : Q;
  callback : Callback
}.

Record Hook : Type := {
  errorState : ErrorState;
  retryTimeoutRef : option nat;
  globalTimeoutRef : option nat;
  pendingTimeouts : list Timeout;
  nextHandle : nat
}.

Definition initialHook (config : RetryConfig) : Hook := {|
  errorState := initialState config;
  retryTimeoutRef := None;
  globalTimeoutRef := None;
  pendingTimeouts := [];
  nextHandle := 0%nat
|}.

(** What a callback does to the promise [attemptRecovery] returned: nothing
    yet, [resolve()], [reject] with an [Error] of the given message, or
    [reject] with a thrown value that is not an [Error].  A promise keeps
    the first settlement it gets; a later call on it changes nothing. *)
Inductive Settlement : Type :=
| Pending
| Resolved
| Rejected (message : string)
| RejectedWithValue.

(** How the caller's recovery function ended: [Threw (Some m)] for an
    [Error] with message [m], [Threw None] for any other thrown value. *)
Inductive ActionResult : Type :=
| Succeeded
| Threw (message : option string).

Definition clearTimeout (h : nat) (ts : list Timeout) : list Timeout :=
  filter (fun t => negb (Nat.eqb (handle t) h)) ts.

Definition clearRef (r : option nat) (ts : list Timeout) : list Timeout :=
  match r with
  | Some h => clearTimeout h ts
  | None => ts
  end.

(** The delay before the jitter is added. *)
Definition exponentialDelay (config : RetryConfig) (attemptNumber : Z) : Q :=
  Qmin (baseDelay config * 2 ^ attemptNumber) (maxDelay config).

(** [calculateBackoff]; [random] is the value [Math.random()] returns, a
    number of [0, 1). *)
Definition calculateBackoff (config : RetryConfig) (random : Q)
    (attemptNumber : Z) : Z :=
  let exponentialDelay := exponentialDelay config attemptNumber in
  let jitter := exponentialDelay * 0.25 * (random - 0.5) in
  JS.round (exponentialDelay + jitter).

(** The updater [recordError] hands to [setErrorState]. *)
Definition recordErrorState (config : RetryConfig) (now random : Q)
    (error : string) (prev : ErrorState) : ErrorState :=
  let newCount := (errorCount prev + 1)%Z in
  let nextDelay := calculateBackoff config random newCount in
  {| errorCount := newCount;
     lastError := Some error;
     isRecovering := false;
     nextRetryDelay := inject_Z nextDelay;
     recoveryStartTime := JS.or (recoveryStartTime prev) now
  |}.

Definition withState (hk : Hook) (s : ErrorState) : Hook :=
  {| errorState := s;
     retryTimeoutRef := retryTimeoutRef hk;
     globalTimeoutRef := globalTimeoutRef hk;
     pendingTimeouts := pendingTimeouts hk;
     nextHandle := nextHandle hk
  |}.

Definition recordError (config : RetryConfig) (now random : Q)
    (error : string) (hk : Hook) : Hook :=
  withState hk (recordErrorState config now random error (errorState hk)).

(** [{ ...prev, isRecovering: false }]. *)
Definition stopRecovering (prev : ErrorState) : ErrorState :=
  {| errorCount := errorCount prev;
     lastError := lastError prev;
     isRecovering := false;
     nextRetryDelay := nextRetryDelay prev;
     recoveryStartTime := recoveryStartTime prev
  |}.

(** [{ ...prev, isRecovering: false, lastError: m }]. *)
Definition failWith (m : string) (prev : ErrorState) : ErrorState :=
  {| errorCount := errorCount prev;
     lastError := Some m;
     isRecovering := false;
     nextRetryDelay := nextRetryDelay prev;
     recoveryStartTime := recoveryStartTime prev
  |}.

(** The synchronous body of [attemptRecovery], at clock reading [now].
    The function is created anew by every render and closes over the
    [errorState] of that render, [rendered] here: the two ceilings (lines
    79 and 87) and the delay of the retry timeout (line 162) read it.  The
    updaters it hands to [setErrorState] receive [prev], the state cell as
    it stands when they run, which already holds every [recordError] made
    since that render. *)
Definition attemptRecovery (config : RetryConfig) (now : Q)
    (rendered : ErrorState) (hk : Hook) : Hook * Settlement :=
  let prev := errorState hk in
  let errorState := rendered in
  if (errorCount errorState >=? maxRetries config)%Z then
    (withState hk (stopRecovering prev), Rejected "Max retries exceeded")
  else
    let recoveryStartTime := JS.or (recoveryStartTime errorState) now in
    let elapsed := now - recoveryStartTime in
    if JS.gtb elapsed (globalTimeout config) then
      (withState hk (stopRecovering prev), Rejected "Recovery timeout")
    else
      let cleared :=
        clearRef (globalTimeoutRef hk)
          (clearRef (retryTimeoutRef hk) (pendingTimeouts hk)) in
      let globalHandle := nextHandle hk in
      let retryHandle := S (nextHandle hk) in
      ({| errorState := {|
            errorCount := errorCount prev;
            lastError := lastError prev;
            isRecovering := true;
            nextRetryDelay := nextRetryDelay prev;
            recoveryStartTime := JS.or (Recovery.recoveryStartTime prev) now
          |};
          retryTimeoutRef := Some retryHandle;
          globalTimeoutRef := Some globalHandle;
          pendingTimeouts :=
            {| handle := retryHandle;
               delay := nextRetryDelay errorState;
               callback := RunRecovery |}
            :: {| handle := globalHandle;
                  delay := globalTimeout config;
                  callback := GlobalGuard |}
            :: cleared;
          nextHandle := S (S (nextHandle hk))
       |}, Pending).

(** The callback of the global guard (lines 114-122). *)
Definition globalGuardFires (h : nat) (hk : Hook) : Hook * Settlement :=
  ({| errorState := failWith "Timeout global" (errorState hk);
      retryTimeoutRef := retryTimeoutRef hk;
      globalTimeoutRef := globalTimeoutRef hk;
      pendingTimeouts := clearTimeout h (pendingTimeouts hk);
      nextHandle := nextHandle hk
   |}, Rejected "Global recovery timeout").

(** The callback of the retry timeout (lines 125-162), [h] its handle, once
    the recovery function it awaits has ended with [result]. *)
Definition retryFires (config : RetryConfig) (h : nat) (result : ActionResult)
    (hk : Hook) : Hook * Settlement :=
  let armed := clearRef (globalTimeoutRef hk)
                 (clearTimeout h (pendingTimeouts hk)) in
  match result with
  | Succeeded =>
    ({| errorState := {|
          errorCount := 0;
          lastError := None;
          isRecovering := false;
          nextRetryDelay := baseDelay config;
          recoveryStartTime := 0
        |};
        retryTimeoutRef := retryTimeoutRef hk;
        globalTimeoutRef := None;
        pendingTimeouts := armed;
        nextHandle := nextHandle hk
     |}, Resolved)
  | Threw err =>
    let message :=
      match err with
      | Some m => m
      | None => "Unknown error"%string
      end in
    ({| errorState := failWith message (errorState hk);
        retryTimeoutRef := retryTimeoutRef hk;
        globalTimeoutRef := None;
        pendingTimeouts := armed;
        nextHandle := nextHandle hk
     |},
     match err with
     | Some m => Rejected m
     | None => RejectedWithValue
     end)
  end.

Definition reset (config : RetryConfig) (hk : Hook) : Hook :=
  {| errorState := initialState config;
     retryTimeoutRef := None;
     globalTimeoutRef := None;
     pendingTimeouts :=
       clearRef (globalTimeoutRef hk)
         (clearRef (retryTimeoutRef hk) (pendingTimeouts hk));
     nextHandle := nextHandle hk
  |}.

Definition forceStop (hk : Hook) : Hook :=
  {| errorState := stopRecovering (errorState hk);
     retryTimeoutRef := None;
     globalTimeoutRef := None;
     pendingTimeouts :=
       clearRef (globalTimeoutRef hk)
         (clearRef (retryTimeoutRef hk) (pendingTimeouts hk));
     nextHandle := nextHandle hk
  |}.

(** [canRetry] as a render computes it that shows the state of [hk]. *)
Definition canRetry (config : RetryConfig) (hk : Hook) : bool :=
  (errorCount (errorState hk) <? maxRetries config)%Z.

(** [after] holds no timeout that [before] did not hold, and [setTimeout]
    was not called in between. *)
Definition nothingArmed (before after : Hook) : Prop :=
  nextHandle after = nextHandle before /\
  incl (pendingTimeouts after) (pendingTimeouts before).

(** The outcome [r] of [attemptRecovery] on [hk] is an immediate failure:
    the promise is rejected, no timeout was armed or cleared, and the state
    only lost its recovering flag. *)
Definition refusedOutright (hk : Hook) (r : Hook * Settlement) : Prop :=
  (exists message, snd r = Rejected message) /\
  fst r = withState hk (stopRecovering (errorState hk)) /\
  pendingTimeouts (fst r) = pendingTimeouts hk /\
  nextHandle (fst r) = nextHandle hk.

(** Successive calls of [recordError], each with its clock reading, its
    random draw and its message. *)
Definition recordErrors (config : RetryConfig)
    (calls : list (Q * Q * string)) (hk : Hook) : Hook :=
  fold_left (fun hk c =>
               match c with
               | (now, random, error) => recordError config now random error hk
               end) calls hk.

(** A hook that has recorded five errors, the first at clock reading 1000. *)
Definition exhaustedHook : Hook :=
  recordErrors defaultConfig
    [(1000, 0, "a"%string); (2000, 1 # 2, "b"%string);
     (3000, 1 # 3, "c"%string); (4000, 9 # 10, "d"%string);
     (5000, 999 # 1000, "e"%string)]
    (initialHook defaultConfig).

(** A hook that has recorded one error at clock reading 1000. *)
Definition oneErrorHook : Hook :=
  recordError defaultConfig 1000 (1 # 4) "stall" (initialHook defaultConfig).

Definition findTimeout (h : nat) (ts : list Timeout) : option Timeout :=
  find (fun t => Nat.eqb (handle t) h) ts.

(** What can happen to the hook during a session.  A retry timeout that
    expires only launches the recovery function; the rest of its callback
    runs when that function has ended, possibly after other events.  A call
    of [attemptRecovery] comes with the state of the render that created
    the function called. *)
Inductive Event : Type :=
| RecordError (random : Q) (error : string)
| AttemptRecovery (rendered : ErrorState)
| Expires (h : nat)
| ActionEnds (h : nat) (result : ActionResult)
| Reset
| ForceStop.

Definition expires (h : nat) (hk : Hook) : Hook :=
  match findTimeout h (pendingTimeouts hk) with
  | Some t =>
    match callback t with
    | GlobalGuard => fst (globalGuardFires h hk)
    | RunRecovery =>
      {| errorState := errorState hk;
         retryTimeoutRef := retryTimeoutRef hk;
         globalTimeoutRef := globalTimeoutRef hk;
         pendingTimeouts := clearTimeout h (pendingTimeouts hk);
         nextHandle := nextHandle hk
      |}
    end
  | None => hk
  end.

Definition step (config : RetryConfig) (hk : Hook) (e : Q * Event) : Hook :=
  let (now, ev) := e in
  match ev with
  | RecordError random error => recordError config now random error hk
  | AttemptRecovery rendered => fst (attemptRecovery config now rendered hk)
  | Expires h => expires h hk
  | ActionEnds h result => fst (retryFires config h result hk)
  | Reset => reset config hk
  | ForceStop => forceStop hk
  end.

Definition run (config : RetryConfig) (hk : Hook) (es : list (Q * Event))
  : Hook :=
  fold_left (step config) es hk.

Definition isRetry (t : Timeout) : bool :=
  match callback t with
  | RunRecovery => true
  | GlobalGuard => false
  end.

Definition isGuard (t : Timeout) : bool := negb (isRetry t).

(** Every armed timeout is the one the ref of its kind points to, and there
    is at most one of each kind. *)
Definition tidy (hk : Hook) : Prop :=
  (forall t, In t (pendingTimeouts hk) ->
     if isRetry t then retryTimeoutRef hk = Some (handle t)
     else globalTimeoutRef hk = Some (handle t)) /\
  (List.length (filter isRetry (pendingTimeouts hk)) <= 1)%nat /\
  (List.length (filter isGuard (pendingTimeouts hk)) <= 1)%nat.

(** The events that end an episode: a successful recovery and a reset. *)
Definition endsEpisode (ev : Event) : bool :=
  match ev with
  | ActionEnds _ Succeeded => true
  | Reset => true
  | _ => false
  end.

(** An error, an attempt, the retry timeout expiring, the action failing
    and a second error; every attempt is made by the render that follows
    the error before it. *)
Definition failingStart : list (Q * Event) :=
  [ (1000, RecordError (1 # 4) "stall");
    (1010, AttemptRecovery (errorState oneErrorHook));
    (1210, Expires 1);
    (1300, ActionEnds 1 (Threw (Some "network"%string)));
    (1310, RecordError (3 # 4) "network") ].

(** The same, then a second attempt and a forced stop. *)
Definition failingSession : list (Q * Event) :=
  failingStart ++
  [ (1320, AttemptRecovery
             (errorState (run defaultConfig (initialHook defaultConfig)
                              failingStart)));
    (1400, ForceStop) ].

(** The state of a render that shows four errors, and the hook once a fifth
    error has been recorded and no render has followed yet. *)
Definition fourErrorsHook : Hook :=
  recordErrors defaultConfig
    [(1000, 0, "a"%string); (2000, 1 # 2, "b"%string);
     (3000, 1 # 3, "c"%string); (4000, 9 # 10, "d"%string)]
    (initialHook defaultConfig).


End Recovery.

(** ** useHealthMonitor *)

Module Health.

Inductive Level : Type :=
| excellent
| good
| warning
| critical.

(** [issues] and [recommendations], two lists of display strings built from
    the same measurements, are left out of the record. *)
Record HealthStatus : Type := {
  score : Z;
  level : Level;
  stallCount : Z;
  bufferingTime : Q;
  lastStallTime : Q
}.

Record HealthMonitorConfig : Type := {
  checkInterval : Q;
  stallThreshold : Q;
  criticalBufferLevel : Q;
  warningBufferLevel : Q
}.

Definition defaultConfig : HealthMonitorConfig := {|
  checkInterval := 1000;
  stallThreshold := 2000;
  criticalBufferLevel := 1;
  warningBufferLevel := 3
|}.

(** What one tick reads from the video element: [bufferedEnd] is
    [buffered.end(0)] when there is a buffered range, [playbackQuality] the
    pair (droppedVideoFrames, totalVideoFrames) when the browser reports
    it. *)
Record Video : Type := {
  currentTime : Q;
  paused : bool;
  bufferedEnd : option Q;
  playbackQuality : option (Q * Q)
}.

(** The state cell and the five refs. *)
Record Hook : Type := {
  health : HealthStatus;
  lastTimeRef : Q;
  lastCheckRef : Q;
  stalledSinceRef : option Q;
  totalBufferingTimeRef : Q;
  stallCountRef : Z
}.

Definition initialStatus : HealthStatus := {|
  score := 100;
  level := excellent;
  stallCount := 0;
  bufferingTime := 0;
  lastStallTime := 0
|}.

(** [mountedAt] is the clock reading of the first render. *)
Definition initialHook (mountedAt : Q) : Hook := {|
  health := initialStatus;
  lastTimeRef := 0;
  lastCheckRef := mountedAt;
  stalledSinceRef := None;
  totalBufferingTimeRef := 0;
  stallCountRef := 0%Z
|}.

(** Truthiness of [stalledSinceRef.current]: [null] and 0 are falsy. *)
Definition stalledSinceSet (r : option Q) : bool :=
  match r with
  | Some t => JS.truthy t
  | None => false
  end.

(** [calculateScore]; [sinceLastCheck] is [Date.now() - lastCheckRef.current]
    as the function reads it. *)
Definition calculateScore (config : HealthMonitorConfig) (sinceLastCheck : Q)
    (bufferLevel droppedFrameRate : Q) (stallCount : Z) (bufferingTime : Q)
  : Z :=
  let score := 100%Z in
  let score :=
    if JS.ltb bufferLevel 0.5 then (score - 40)%Z
    else if JS.ltb bufferLevel (criticalBufferLevel config) then (score - 25)%Z
    else if JS.ltb bufferLevel (warningBufferLevel config) then (score - 15)%Z
    else if JS.ltb bufferLevel 5 then (score - 5)%Z
    else score in
  let score :=
    if JS.gtb droppedFrameRate 5 then (score - 30)%Z
    else if JS.gtb droppedFrameRate 2 then (score - 15)%Z
    else if JS.gtb droppedFrameRate 0.5 then (score - 5)%Z
    else score in
  let score :=
    if (stallCount >? 8)%Z then (score - 20)%Z
    else if (stallCount >? 4)%Z then (score - 10)%Z
    else if (stallCount >? 1)%Z then (score - 5)%Z
    else score in
  let bufferingRatio := JS.div bufferingTime sinceLastCheck in
  let score :=
    if JS.quotient_gtb bufferingRatio 0.3 then (score - 10)%Z
    else if JS.quotient_gtb bufferingRatio 0.15 then (score - 5)%Z
    else score in
  Z.max 0 (Z.min 100 score).

(** Lines 142-145. *)
Definition levelOf (score : Z) : Level :=
  if (score <? 30)%Z then critical
  else if (score <? 60)%Z then warning
  else if (score <? 85)%Z then good
  else excellent.

(** The stall test of line 105. *)
Definition stallCondition (config : HealthMonitorConfig) (paused : bool)
    (progressMade timeSinceLastCheck : Q) : bool :=
  negb paused && JS.eqb progressMade 0
  && JS.gtb timeSinceLastCheck (stallThreshold config).

(** Is the tick at [now] on [v] a stalled one ([isStalled] of the source)? *)
Definition isStalled (config : HealthMonitorConfig) (now : Q) (v : Video)
    (hk : Hook) : bool :=
  stallCondition config (paused v) (currentTime v - lastTimeRef hk)
                 (now - lastCheckRef hk).

(** One run of the [setInterval] callback, at clock reading [now]; the
    callback is taken to read the clock once. *)
Definition tick (config : HealthMonitorConfig) (now : Q) (v : Video)
    (hk : Hook) : Hook :=
  let currentTime := currentTime v in
  let timeSinceLastCheck := now - lastCheckRef hk in
  let progressMade := currentTime - lastTimeRef hk in
  let '(stalledSince, stallCountR, totalBufferingTime) :=
    if stallCondition config (paused v) progressMade timeSinceLastCheck then
      let '(stalledSince, stallCountR) :=
        if negb (stalledSinceSet (stalledSinceRef hk))
        then (Some now, (stallCountRef hk + 1)%Z)
        else (stalledSinceRef hk, stallCountRef hk) in
      (stalledSince, stallCountR, totalBufferingTimeRef hk + timeSinceLastCheck)
    else if stalledSinceSet (stalledSinceRef hk) && JS.gtb progressMade 0 then
      (None, stallCountRef hk, totalBufferingTimeRef hk)
    else
      (stalledSinceRef hk, stallCountRef hk, totalBufferingTimeRef hk) in
  let bufferLevel :=
    match bufferedEnd v with
    | Some e => JS.sub e currentTime
    | None => 0
    end in
  let droppedFrameRate :=
    match playbackQuality v with
    | Some (droppedVideoFrames, totalVideoFrames) =>
      if JS.gtb totalVideoFrames 0
      then JS.mul (JS.over droppedVideoFrames totalVideoFrames) 100
      else 0
    | None => 0
    end in
  let score :=
    calculateScore config (now - lastCheckRef hk) bufferLevel droppedFrameRate
                   stallCountR totalBufferingTime in
  {| health := {|
       score := score;
       level := levelOf score;
       stallCount := stallCountR;
       bufferingTime := totalBufferingTime;
       lastStallTime :=
         match stalledSince with
         | Some t => JS.or t 0
         | None => 0
         end
     |};
     lastTimeRef := currentTime;
     lastCheckRef := now;
     stalledSinceRef := stalledSince;
     totalBufferingTimeRef := totalBufferingTime;
     stallCountRef := stallCountR
  |}.

Definition reset (hk : Hook) : Hook :=
  {| health := initialStatus;
     lastTimeRef := lastTimeRef hk;
     lastCheckRef := lastCheckRef hk;
     stalledSinceRef := None;
     totalBufferingTimeRef := 0;
     stallCountRef := 0%Z
  |}.

(** Successive ticks, each with its clock reading and what it reads from
    the video element. *)
Definition run (config : HealthMonitorConfig) (hk : Hook)
    (ticks : list (Q * Video)) : Hook :=
  fold_left (fun hk t => tick config (fst t) (snd t) hk) ticks hk.

(** The deductions as the specification lists them, one function per
    measurement. *)
Definition bufferDeduction (bufferLevel : Q) : Z :=
  if JS.ltb bufferLevel 0.5 then 40
  else if JS.ltb bufferLevel 1 then 25
  else if JS.ltb bufferLevel 3 then 15
  else if JS.ltb bufferLevel 5 then 5
  else 0.

Definition dropDeduction (droppedFrameRate : Q) : Z :=
  if JS.gtb droppedFrameRate 5 then 30
  else if JS.gtb droppedFrameRate 2 then 15
  else if JS.gtb droppedFrameRate 0.5 then 5
  else 0.

Definition stallDeduction (stallCount : Z) : Z :=
  if (stallCount >? 8)%Z then 20
  else if (stallCount >? 4)%Z then 10
  else if (stallCount >? 1)%Z then 5
  else 0.

Definition ratioDeduction (bufferingRatio : JS.quotient) : Z :=
  if JS.quotient_gtb bufferingRatio 0.3 then 10
  else if JS.quotient_gtb bufferingRatio 0.15 then 5
  else 0.

Definition clamp (lo hi x : Z) : Z := Z.max lo (Z.min hi x).

Definition specifiedScore (bufferLevel droppedFrameRate : Q) (stallCount : Z)
    (bufferingRatio : JS.quotient) : Z :=
  clamp 0 100
    (100 - bufferDeduction bufferLevel - dropDeduction droppedFrameRate
     - stallDeduction stallCount - ratioDeduction bufferingRatio).

(** A stall episode is open: [stalledSinceRef] holds a clock reading. *)
Definition inStall (hk : Hook) : bool := stalledSinceSet (stalledSinceRef hk).

(** No tick of the run sees the position move forward. *)
Fixpoint quiet (config : HealthMonitorConfig) (hk : Hook)
    (ticks : list (Q * Video)) : bool :=
  match ticks with
  | [] => true
  | (now, v) :: rest =>
    negb (JS.gtb (currentTime v - lastTimeRef hk) 0)
    && quiet config (tick config now v hk) rest
  end.

(** Some tick of the run is a stalled one. *)
Fixpoint anyStalled (config : HealthMonitorConfig) (hk : Hook)
    (ticks : list (Q * Video)) : bool :=
  match ticks with
  | [] => false
  | (now, v) :: rest =>
    isStalled config now v hk
    || anyStalled config (tick config now v hk) rest
  end.

(** The time the stalled ticks of the run add to the buffering total. *)
Fixpoint stalledTime (config : HealthMonitorConfig) (hk : Hook)
    (ticks : list (Q * Video)) : Q :=
  match ticks with
  | [] => 0
  | (now, v) :: rest =>
    (if isStalled config now v hk then now - lastCheckRef hk else 0)
    + stalledTime config (tick config now v hk) rest
  end.

(** A video playing at position [t] with ten buffered seconds ahead. *)
Definition playingAt (t : Q) : Video :=
  {| currentTime := t; paused := false; bufferedEnd := Some (t + 10);
     playbackQuality := Some (0, 1000) |}.

(** Mounted at clock reading 1000, ticked once at 2000 with the video at
    position 10. *)
Definition watchingHook : Hook :=
  run defaultConfig (initialHook 1000) [(2000, playingAt 10)].

(** Two ticks three seconds apart, the position standing still. *)
Definition frozenTicks : list (Q * Video) :=
  [(5000, playingAt 10); (8000, playingAt 10)].

(** The buffer level and the dropped-frame rate a tick measures (lines
    119-131), as functions of what it reads from the video element. *)
Definition bufferLevelOf (v : Video) : Q :=
  match bufferedEnd v with
  | Some e => JS.sub e (currentTime v)
  | None => 0
  end.

Definition droppedFrameRateOf (v : Video) : Q :=
  match playbackQuality v with
  | Some (droppedVideoFrames, totalVideoFrames) =>
    if JS.gtb totalVideoFrames 0
    then JS.mul (JS.over droppedVideoFrames totalVideoFrames) 100
    else 0
  | None => 0
  end.

(** The buffer deduction under any configuration. *)
Definition bufferDeductionWith (config : HealthMonitorConfig) (bufferLevel : Q)
  : Z :=
  if JS.ltb bufferLevel 0.5 then 40
  else if JS.ltb bufferLevel (criticalBufferLevel config) then 25
  else if JS.ltb bufferLevel (warningBufferLevel config) then 15
  else if JS.ltb bufferLevel 5 then 5
  else 0.

(** Every tick of the run comes at most [threshold] after the one before,
    the first at most [threshold] after [last]. *)
Fixpoint punctual (threshold last : Q) (ticks : list (Q * Video)) : Prop :=
  match ticks with
  | [] => True
  | (now, _) :: rest => now - last <= threshold /\ punctual threshold now rest
  end.

(** A video frozen at position 10 and ticked once a second for five
    seconds. *)
Definition frozenEverySecond : list (Q * Video) :=
  [(3000, playingAt 10); (4000, playingAt 10); (5000, playingAt 10);
   (6000, playingAt 10); (7000, playingAt 10)].

End Health.

(** ** useRealBandwidth *)

Module Bandwidth.

Inductive Trend : Type :=
| stable
| increasing
| decreasing.

Record BandwidthData : Type := {
  currentBitrate : Q;
  averageBitrate : Q;
  downloadSpeed : Q;
  trend : Trend
}.

Record Sample : Type := {
  bytes : Q;
  time : Q
}.

(** A resource-timing entry: [looksLikeMedia] is the outcome of the
    substring tests on its lower-cased name. *)
Record Entry : Type := {
  looksLikeMedia : bool;
  transferSize : Q;
  encodedBodySize : Q
}.

(** The state cell and the samples ref. *)
Record Hook : Type := {
  bandwidth : BandwidthData;
  samplesRef : list Sample
}.

Definition initialHook : Hook := {|
  bandwidth := {|
    currentBitrate := 0;
    averageBitrate := 0;
    downloadSpeed := 0;
    trend := stable
  |};
  samplesRef := []
|}.

(** The body of the observer's loop for one entry (lines 28-59). *)
Definition observeEntry (now : Q) (samples : list Sample) (resource : Entry)
  : list Sample :=
  let isVideoResource :=
    looksLikeMedia resource || JS.gtb (transferSize resource) 10000 in
  if isVideoResource then
    let bytes :=
      JS.or (transferSize resource) (JS.or (encodedBodySize resource) 0) in
    if JS.gtb bytes 0 then
      filter (fun sample => JS.ltb (now - time sample) 30000)
             (samples ++ [{| bytes := bytes; time := now |}])
    else samples
  else samples.

(** The observer callback on a batch of entries, at clock reading [now]. *)
Definition observe (now : Q) (entries : list Entry) (hk : Hook) : Hook :=
  {| bandwidth := bandwidth hk;
     samplesRef := fold_left (observeEntry now) entries (samplesRef hk)
  |}.

(** [xs.reduce((sum, s) => sum + s.bytes, 0)]. *)
Definition totalBytes (xs : list Sample) : Q :=
  fold_left (fun sum s => JS.add sum (bytes s)) xs 0.

Definition noSample : Sample := {| bytes := 0; time := 0 |}.

(** [xs[0]] and [xs[xs.length - 1]]; every use below is on an array that is
    not empty. *)
Definition first (xs : list Sample) : Sample := nth 0 xs noSample.
Definition final (xs : list Sample) : Sample :=
  nth (List.length xs - 1) xs noSample.

(** [span > 0 ? (bytes * 8) / (span * 1000000) : 0], the expression the
    callback writes out for each of its four rates. *)
Definition rate (bytes span : Q) : Q :=
  if JS.gtb span 0 then JS.over (JS.mul bytes 8) (JS.mul span 1000000) else 0.

Definition oldSamples (samples : list Sample) : list Sample :=
  firstn (JS.half (List.length samples)) samples.

Definition newSamples (samples : list Sample) : list Sample :=
  skipn (JS.half (List.length samples)) samples.

(** [oldRate] and [newRate] of lines 107-113. *)
Definition halfRate (xs : list Sample) : Q :=
  rate (totalBytes xs) (JS.over (time (final xs) - time (first xs)) 1000).

Definition oldRate (samples : list Sample) : Q := halfRate (oldSamples samples).
Definition newRate (samples : list Sample) : Q := halfRate (newSamples samples).

(** Lines 100-117. *)
Definition computeTrend (samples : list Sample) : Trend :=
  if Nat.leb 10 (List.length samples) then
    let oldRate := oldRate samples in
    let newRate := newRate samples in
    if JS.gtb newRate (JS.mul oldRate 1.3) then increasing
    else if JS.ltb newRate (JS.mul oldRate 0.7) then decreasing
    else stable
  else stable.

(** One run of the [setInterval] callback, at clock reading [now]. *)
Definition tick (now : Q) (hk : Hook) : Hook :=
  let samples := samplesRef hk in
  if Nat.ltb (List.length samples) 2 then hk
  else
    let recentSamples := filter (fun s => JS.ltb (now - time s) 2000) samples in
    let currentBitrate :=
      if Nat.leb 2 (List.length recentSamples) then
        rate (totalBytes recentSamples)
             (JS.over (now - time (first recentSamples)) 1000)
      else 0 in
    let averageBitrate :=
      if Nat.leb 2 (List.length samples) then
        rate (totalBytes samples)
             (JS.over (time (final samples) - time (first samples)) 1000)
      else 0 in
    let downloadSpeed := currentBitrate in
    let trend := computeTrend samples in
    {| bandwidth := {|
         currentBitrate := Qmax 0 currentBitrate;
         averageBitrate := Qmax 0 averageBitrate;
         downloadSpeed := Qmax 0 downloadSpeed;
         trend := trend
       |};
       samplesRef := samples
    |}.

Inductive Event : Type :=
| Observe (entries : list Entry)
| Tick.

Definition step (hk : Hook) (e : Q * Event) : Hook :=
  let (now, ev) := e in
  match ev with
  | Observe entries => observe now entries hk
  | Tick => tick now hk
  end.

Definition run (hk : Hook) (es : list (Q * Event)) : Hook :=
  fold_left step es hk.

(** Every retained sample is a transfer of a positive size. *)
Definition positive (samples : list Sample) : Prop :=
  Forall (fun s => 0 < bytes s) samples.

(** A media segment of [n] bytes. *)
Definition segment (n : Q) : Entry :=
  {| looksLikeMedia := true; transferSize := n; encodedBodySize := n |}.

(** Five segments of 200 kB one second apart, then five of 300 kB: the older
    half runs at 2.0 Mbps, the newer at 3.0 Mbps. *)
Definition risingSession : list (Q * Event) :=
  [ (1000000, Observe [segment 200000]);
    (1001000, Observe [segment 200000]);
    (1002000, Observe [segment 200000]);
    (1003000, Observe [segment 200000]);
    (1004000, Observe [segment 200000]);
    (1005000, Observe [segment 300000]);
    (1006000, Observe [segment 300000]);
    (1007000, Observe [segment 300000]);
    (1008000, Observe [segment 300000]);
    (1009000, Observe [segment 300000]);
    (1010000, Tick) ].

(** Five segments of 140 kB one second apart, then five of 182 kB: the older
    half runs at 1.4 Mbps, the newer at 1.82 Mbps, 1.3 times as much on
    paper. *)
Definition nearThresholdSession : list (Q * Event) :=
  [ (1000000, Observe [segment 140000]);
    (1001000, Observe [segment 140000]);
    (1002000, Observe [segment 140000]);
    (1003000, Observe [segment 140000]);
    (1004000, Observe [segment 140000]);
    (1005000, Observe [segment 182000]);
    (1006000, Observe [segment 182000]);
    (1007000, Observe [segment 182000]);
    (1008000, Observe [segment 182000]);
    (1009000, Observe [segment 182000]);
    (1010000, Tick) ].

(** The rising session, then forty quiet seconds, one more segment and a
    tick. *)
Definition quietSession : list (Q * Event) :=
  risingSession ++
  [ (1050000, Observe [segment 200000]);
    (1052000, Tick) ].

(** The size the observer records for an entry, and whether it records the
    entry at all (lines 33-50). *)
Definition recordedBytes (resource : Entry) : Q :=
  JS.or (transferSize resource) (JS.or (encodedBodySize resource) 0).

Definition isRecorded (resource : Entry) : bool :=
  (looksLikeMedia resource || JS.gtb (transferSize resource) 10000)
  && JS.gtb (recordedBytes resource) 0.

(** The events of a session come with clock readings that never go back,
    the first not before [last]. *)
Fixpoint chronological (last : Q) (es : list (Q * Event)) : Prop :=
  match es with
  | [] => True
  | (now, _) :: rest => last <= now /\ chronological now rest
  end.

(** Oldest first. *)
Definition oldestFirst (samples : list Sample) : Prop :=
  StronglySorted (fun a b => time a <= time b) samples.

(** Every sample was taken at most at [latest], and less than 30 s
    before. *)
Definition withinWindow (latest : Q) (samples : list Sample) : Prop :=
  Forall (fun s => time s <= latest /\ latest - time s < 30000) samples.

(** One observer callback that delivers three segments at once, then a
    tick. *)
Definition batchSession : list (Q * Event) :=
  [ (1000000, Observe [segment 200000; segment 300000; segment 250000]);
    (1001000, Tick) ].

End Bandwidth.

(** ** useBandwidthMonitor *)

Module Monitor.

Inductive Trend : Type :=
| stable
| increasing
| decreasing.

Inductive Recommended : Type :=
| low
| medium
| high
| auto.

Record BandwidthMetrics : Type := {
  currentBandwidth : Q;
  averageBandwidth : Q;
  trend : Trend;
  recommendedQuality : Recommended
}.

(** [navigator.connection]: either field may be missing. *)
Record Connection : Type := {
  downlink : option Q;
  effectiveType : option string
}.

(** Whether [navigator] has a [connection] property, and its value, which
    may be [undefined] all the same. *)
Inductive Navigator : Type :=
| NoConnectionAPI
| ConnectionAPI (connection : option Connection).

(** The state cell and the samples ref. *)
Record Hook : Type := {
  metrics : BandwidthMetrics;
  samplesRef : list Q
}.

Definition initialHook : Hook := {|
  metrics := {|
    currentBandwidth := 0;
    averageBandwidth := 0;
    trend := stable;
    recommendedQuality := auto
  |};
  samplesRef := []
|}.

(** [connection?.downlink] when it is truthy. *)
Definition downlinkOf (connection : option Connection) : option Q :=
  match connection with
  | Some c =>
    match downlink c with
    | Some d => if JS.truthy d then Some d else None
    | None => None
    end
  | None => None
  end.

(** [connection?.effectiveType || '4g']. *)
Definition effectiveTypeOf (connection : option Connection) : string :=
  match connection with
  | Some c =>
    match effectiveType c with
    | Some e => if String.eqb e "" then "4g"%string else e
    | None => "4g"%string
    end
  | None => "4g"%string
  end.

(** [xs.reduce((a, b) => a + b, 0)]. *)
Definition sum (xs : list Q) : Q := fold_left JS.add xs 0.

Definition lengthOf (xs : list Q) : Q := inject_Z (Z.of_nat (List.length xs)).

(** [xs.slice(-3)] and [xs.slice(-6, -3)]. *)
Definition lastThree (xs : list Q) : list Q := skipn (List.length xs - 3) xs.
Definition threeBefore (xs : list Q) : list Q :=
  firstn (List.length xs - 3 - (List.length xs - 6))
         (skipn (List.length xs - 6) xs).

(** The recommendation of the fallbacks (and of the first measurement). *)
Definition recommendFor (bandwidth : Q) : Recommended :=
  if JS.gtb bandwidth 5 then high
  else if JS.gtb bandwidth 2 then medium
  else low.

(** The [setInterval] callback. *)
Definition tick (nav : Navigator) (hk : Hook) : Hook :=
  match nav with
  | ConnectionAPI connection =>
    match downlinkOf connection with
    | Some bandwidth =>
      let pushed := samplesRef hk ++ [bandwidth] in
      let samples :=
        if Nat.ltb 12 (List.length pushed) then tl pushed else pushed in
      let average := JS.over (sum samples) (lengthOf samples) in
      let trend :=
        if Nat.leb 6 (List.length samples) then
          let recent := lastThree samples in
          let older := threeBefore samples in
          let recentAvg := JS.over (sum recent) (lengthOf recent) in
          let olderAvg := JS.over (sum older) (lengthOf older) in
          if JS.gtb recentAvg (JS.mul olderAvg 1.2) then increasing
          else if JS.ltb recentAvg (JS.mul olderAvg 0.8) then decreasing
          else stable
        else stable in
      let recommendedQuality :=
        if JS.ltb average 2 then low
        else if JS.ltb average 5 then medium
        else high in
      {| metrics := {|
           currentBandwidth := bandwidth;
           averageBandwidth := average;
           trend := trend;
           recommendedQuality := recommendedQuality
         |};
         samplesRef := samples
      |}
    | None =>
      let effectiveType := effectiveTypeOf connection in
      let estimatedBandwidth :=
        if String.eqb effectiveType "5g" then 20
        else if String.eqb effectiveType "4g" then 10
        else if String.eqb effectiveType "3g" then 2
        else 1 in
      {| metrics := {|
           currentBandwidth := estimatedBandwidth;
           averageBandwidth := estimatedBandwidth;
           trend := stable;
           recommendedQuality := recommendFor estimatedBandwidth
         |};
         samplesRef := samplesRef hk
      |}
    end
  | NoConnectionAPI =>
    {| metrics := {|
         currentBandwidth := 5;
         averageBandwidth := 5;
         trend := stable;
         recommendedQuality := auto
       |};
       samplesRef := samplesRef hk
    |}
  end.

(** The measurement the effect takes when the hook mounts. *)
Definition mount (nav : Navigator) : Hook :=
  match nav with
  | ConnectionAPI connection =>
    let initialBandwidth :=
      match downlinkOf connection with
      | Some d => d
      | None => 5
      end in
    {| metrics := {|
         currentBandwidth := initialBandwidth;
         averageBandwidth := initialBandwidth;
         trend := stable;
         recommendedQuality := recommendFor initialBandwidth
       |};
       samplesRef := samplesRef initialHook ++ [initialBandwidth]
    |}
  | NoConnectionAPI => initialHook
  end.

(** The hook after its mount and one tick per reading of [navigator]. *)
Definition run (first : Navigator) (navs : list Navigator) : Hook :=
  fold_left (fun hk nav => tick nav hk) navs (mount first).

Definition measuring (d : Q) : Navigator :=
  ConnectionAPI (Some {| downlink := Some d; effectiveType := Some "4g"%string |}).

Definition guessing (e : string) : Navigator :=
  ConnectionAPI (Some {| downlink := None; effectiveType := Some e |}).

End Monitor.

(** ** fetchWithRetry of the stream proxy *)

Module Proxy.

(** What one [fetch] comes to: a response, or a rejection (a network
    failure, or the abort of the attempt's timeout). *)
Inductive Outcome : Type :=
| Responded (status : Z)
| Rejected (error : string).

(** The error an attempt leaves in [lastError]: the one [fetch] rejected
    with, or the one thrown for a response worth retrying. *)
Inductive Failure : Type :=
| FetchError (error : string)
| HttpError (status : Z).

Inductive Result : Type :=
| Returned (status : Z)
| Threw (failure : option Failure).

(** One attempt as the outside sees it: the abort timeout it ran under, and
    the pause that followed it, if any. *)
Record Attempt : Type := {
  timeoutMs : Z;
  delayMs : option Z
}.

(** [response.ok]. *)
Definition ok (status : Z) : bool := (200 <=? status)%Z && (status <=? 299)%Z.

Definition retryable (status : Z) : bool :=
  (status >=? 500)%Z || (status =? 429)%Z.

(** The loop of [fetchWithRetry] from attempt [attempt] on, with [fuel]
    iterations left before [attempt <= maxRetries] fails; [fetch] gives the
    outcome of each attempt. *)
Fixpoint attempts (fetch : nat -> Outcome) (maxRetries : Z) (fuel : nat)
    (attempt : nat) (lastError : option Failure) : Result * list Attempt :=
  match fuel with
  | O => (Threw lastError, [])
  | S fuel' =>
    let timeoutMs := (12000 + Z.of_nat attempt * 3000)%Z in
    let failed (failure : Failure) :=
      let delayMs :=
        if (Z.of_nat attempt <? maxRetries)%Z
        then Some (500 * 2 ^ Z.of_nat attempt)%Z
        else None in
      let (result, rest) :=
        attempts fetch maxRetries fuel' (S attempt) (Some failure) in
      (result, {| timeoutMs := timeoutMs; delayMs := delayMs |} :: rest) in
    match fetch attempt with
    | Responded status =>
      if ok status then
        (Returned status, [{| timeoutMs := timeoutMs; delayMs := None |}])
      else if retryable status then failed (HttpError status)
      else (Returned status, [{| timeoutMs := timeoutMs; delayMs := None |}])
    | Rejected error => failed (FetchError error)
    end
  end.

(** [fetchWithRetry]; [Threw None] stands for the error 'Max retries
    exceeded' thrown when no attempt was made. *)
Definition fetchWithRetry (fetch : nat -> Outcome) (maxRetries : Z)
  : Result * list Attempt :=
  attempts fetch maxRetries (Z.to_nat (maxRetries + 1)) 0 None.

(** The record of attempt number [attempt] when it fails. *)
Definition attemptAt (maxRetries : Z) (attempt : nat) : Attempt :=
  {| timeoutMs := (12000 + Z.of_nat attempt * 3000)%Z;
     delayMs := if (Z.of_nat attempt <? maxRetries)%Z
                then Some (500 * 2 ^ Z.of_nat attempt)%Z else None |}.

(** The time spent pausing between attempts. *)
Definition totalDelay (log : list Attempt) : Z :=
  fold_right (fun a acc =>
                match delayMs a with
                | Some d => (d + acc)%Z
                | None => acc
                end) 0%Z log.

(** Is the attempt with this outcome followed by another one, if any is
    left? *)
Definition fails (o : Outcome) : bool :=
  match o with
  | Responded status => negb (ok status) && retryable status
  | Rejected _ => true
  end.

Definition failureOf (o : Outcome) : Failure :=
  match o with
  | Responded status => HttpError status
  | Rejected error => FetchError error
  end.

(** A server that answers 503 twice and then 200. *)
Definition flaky (attempt : nat) : Outcome :=
  if Nat.ltb attempt 2 then Responded 503 else Responded 200.

(** A server that is never reached. *)
Definition unreachable (_ : nat) : Outcome := Rejected "connection refused".

End Proxy.

(** ** getOptimalBufferSize of the player *)

Module Player.

Inductive NetworkSpeed : Type :=
| fast
| medium
| slow.

(** [getOptimalBufferSize]; [averageBitrate] is the average the
    useRealBandwidth hook publishes. *)
Definition getOptimalBufferSize (averageBitrate : Q)
    (networkSpeed : NetworkSpeed) : Z :=
  let bandwidth := JS.or averageBitrate 10 in
  let baseSize :=
    if JS.gtb bandwidth 10 then 1536%Z
    else if JS.gtb bandwidth 6 then 1024%Z
    else if JS.gtb bandwidth 3 then 768%Z
    else 512%Z in
  match networkSpeed with
  | slow => JS.round (inject_Z baseSize * 0.7)
  | fast => JS.round (inject_Z baseSize * 1.3)
  | medium => baseSize
  end.

(** The size before the network speed is taken into account. *)
Definition baseSizeFor (bandwidth : Q) : Z :=
  if JS.gtb bandwidth 10 then 1536
  else if JS.gtb bandwidth 6 then 1024
  else if JS.gtb bandwidth 3 then 768
  else 512.

End Player.

(** * Properties *)

(** ** Comparisons of JavaScript numbers *)

Lemma ltb_true (a b : Q) : JS.ltb a b = true <-> a < b.
Proof.
  unfold JS.ltb. rewrite negb_true_iff.
  split; intro H.
  - apply Qnot_le_lt. intro L. apply Qle_bool_iff in L. congruence.
  - destruct (Qle_bool b a) eqn:E; [|reflexivity].
    apply Qle_bool_iff in E. exfalso. apply (Qlt_not_le _ _ H E).
Qed.

Lemma ltb_false (a b : Q) : JS.ltb a b = false <-> b <= a.
Proof.
  unfold JS.ltb. rewrite negb_false_iff. apply Qle_bool_iff.
Qed.

Lemma gtb_true (a b : Q) : JS.gtb a b = true <-> b < a.
Proof. apply ltb_true. Qed.

Lemma gtb_false (a b : Q) : JS.gtb a b = false <-> a <= b.
Proof. apply ltb_false. Qed.

Lemma eqb_true (a b : Q) : JS.eqb a b = true <-> a == b.
Proof. apply Qeq_bool_iff. Qed.

Lemma eqb_false (a b : Q) : JS.eqb a b = false <-> ~ a == b.
Proof.
  unfold JS.eqb. split; intro H.
  - intro E. apply Qeq_bool_iff in E. congruence.
  - destruct (Qeq_bool a b) eqn:E; [|reflexivity].
    apply Qeq_bool_iff in E. contradiction.
Qed.

Lemma truthy_true (a : Q) : JS.truthy a = true <-> ~ a == 0.
Proof.
  unfold JS.truthy. rewrite negb_true_iff. apply eqb_false.
Qed.

(** ** Rounding to doubles

    What the proofs below need of [JS.double]: it does not depend on the way
    a number is written as a fraction, it keeps 0 and the sign, and it is
    monotone. *)

Lemma two_pow_pos (e : Z) : 0 < 2 ^ e.
Proof. apply Qpower_0_lt. reflexivity. Qed.

Lemma two_pow_inject (e : Z) : (0 <= e)%Z -> inject_Z (2 ^ e) == 2 ^ e.
Proof. intros He. now rewrite Zpower_Qpower. Qed.

Lemma ilog2_spec (x : Q) :
  0 < x -> 2 ^ JS.ilog2 x <= x /\ x < 2 ^ (JS.ilog2 x + 1).
Proof.
  intros Hx.
  assert (Hn : (0 < Qnum x)%Z).
  { destruct x as [n d]. unfold Qlt in Hx. cbn in *. lia. }
  set (A := Z.log2 (Qnum x)).
  set (B := Z.log2 (Zpos (Qden x))).
  destruct (Z.log2_spec (Qnum x) Hn) as [HA1 HA2].
  destruct (Z.log2_spec (Zpos (Qden x)) ltac:(lia)) as [HB1 HB2].
  fold A in HA1, HA2. fold B in HB1, HB2.
  assert (HA0 : (0 <= A)%Z) by apply Z.log2_nonneg.
  assert (HB0 : (0 <= B)%Z) by apply Z.log2_nonneg.
  rewrite Zle_Qle, two_pow_inject in HA1 by assumption.
  rewrite Zlt_Qlt, two_pow_inject in HA2 by lia.
  rewrite Zle_Qle, two_pow_inject in HB1 by assumption.
  rewrite Zlt_Qlt, two_pow_inject in HB2 by lia.
  assert (Hxd : x * inject_Z (Zpos (Qden x)) == inject_Z (Qnum x)).
  { destruct x as [n d]. cbn [Qnum Qden]. rewrite (Qmake_Qdiv n d). field.
    intros H. unfold Qeq in H. cbn in H. lia. }
  assert (Hup : x < 2 ^ (A - B + 1)).
  { replace (A - B + 1)%Z with (Z.succ A - B)%Z by lia.
    rewrite Qpower_minus by discriminate.
    apply Qlt_shift_div_l; [apply two_pow_pos|].
    pose proof (two_pow_pos B). nra. }
  assert (Hlo : 2 ^ (A - B - 1) < x).
  { replace (A - B - 1)%Z with (A - Z.succ B)%Z by lia.
    rewrite Qpower_minus by discriminate.
    apply Qlt_shift_div_r; [apply two_pow_pos|].
    pose proof (two_pow_pos (Z.succ B)). nra. }
  unfold JS.ilog2. fold A B.
  destruct (Qle_bool (2 ^ (A - B)) x) eqn:E.
  - apply Qle_bool_iff in E. split; assumption.
  - assert (E' : x < 2 ^ (A - B)).
    { apply Qnot_le_lt. intros H. apply Qle_bool_iff in H. congruence. }
    split.
    + apply Qlt_le_weak. exact Hlo.
    + replace (A - B - 1 + 1)%Z with (A - B)%Z by lia. exact E'.
Qed.

Lemma ilog2_monotone (x y : Q) :
  0 < x -> x <= y -> (JS.ilog2 x <= JS.ilog2 y)%Z.
Proof.
  intros Hx Hxy.
  destruct (ilog2_spec x Hx) as [Lx _].
  destruct (ilog2_spec y) as [_ Uy]; [lra|].
  assert (H : 2 ^ JS.ilog2 x < 2 ^ (JS.ilog2 y + 1)) by lra.
  apply Qpower_lt_compat_l_inv in H; [lia | reflexivity].
Qed.

Lemma nearestEven_bounds (t : Q) :
  (Qfloor t <= JS.nearestEven t <= Qfloor t + 1)%Z.
Proof.
  unfold JS.nearestEven.
  destruct (Qcompare (t - inject_Z (Qfloor t)) (1 # 2)); try lia.
  destruct (Z.even (Qfloor t)); lia.
Qed.

Lemma nearestEven_Z (k : Z) : JS.nearestEven (inject_Z k) = k.
Proof.
  unfold JS.nearestEven. rewrite Qfloor_Z.
  assert (H : Qcompare (inject_Z k - inject_Z k) (1 # 2) = Lt).
  { apply Qlt_alt. setoid_replace (inject_Z k - inject_Z k) with 0 by ring.
    reflexivity. }
  now rewrite H.
Qed.

Lemma nearestEven_monotone (s t : Q) :
  s <= t -> (JS.nearestEven s <= JS.nearestEven t)%Z.
Proof.
  intros Hst.
  pose proof (Qfloor_resp_le s t Hst) as Hf.
  pose proof (nearestEven_bounds s) as Bs.
  pose proof (nearestEven_bounds t) as Bt.
  destruct (Z.eq_dec (Qfloor s) (Qfloor t)) as [E | E]; [|lia].
  unfold JS.nearestEven in *. rewrite E in *.
  destruct (Qcompare_spec (s - inject_Z (Qfloor t)) (1 # 2)) as [Hs | Hs | Hs];
    destruct (Qcompare_spec (t - inject_Z (Qfloor t)) (1 # 2)) as [Ht | Ht | Ht];
    try lia; try lra;
    destruct (Z.even (Qfloor t)); lia.
Qed.

Lemma nearestEven_le (t : Q) (k : Z) :
  t <= inject_Z k -> (JS.nearestEven t <= k)%Z.
Proof.
  intros H. rewrite <- (nearestEven_Z k). now apply nearestEven_monotone.
Qed.

Lemma nearestEven_ge (t : Q) (k : Z) :
  inject_Z k <= t -> (k <= JS.nearestEven t)%Z.
Proof.
  intros H. rewrite <- (nearestEven_Z k) at 1. now apply nearestEven_monotone.
Qed.

Lemma ulp_pos (x : Q) : 0 < JS.ulp x.
Proof. apply two_pow_pos. Qed.

Lemma roundPositive_le (x : Q) (k : Z) :
  x <= inject_Z k * JS.ulp x -> JS.roundPositive x <= inject_Z k * JS.ulp x.
Proof.
  intros H. unfold JS.roundPositive.
  pose proof (ulp_pos x) as Hu.
  assert (Hq : x / JS.ulp x <= inject_Z k).
  { apply Qle_shift_div_r; assumption. }
  apply nearestEven_le in Hq. rewrite Zle_Qle in Hq. nra.
Qed.

Lemma roundPositive_ge (x : Q) (k : Z) :
  inject_Z k * JS.ulp x <= x -> inject_Z k * JS.ulp x <= JS.roundPositive x.
Proof.
  intros H. unfold JS.roundPositive.
  pose proof (ulp_pos x) as Hu.
  assert (Hq : inject_Z k <= x / JS.ulp x).
  { apply Qle_shift_div_l; assumption. }
  apply nearestEven_ge in Hq. rewrite Zle_Qle in Hq. nra.
Qed.

Lemma roundPositive_nonneg (x : Q) : 0 <= x -> 0 <= JS.roundPositive x.
Proof.
  intros H. pose proof (roundPositive_ge x 0) as G.
  change (inject_Z 0) with 0 in G. rewrite Qmult_0_l in G. now apply G.
Qed.

Lemma roundPositive_monotone (x y : Q) :
  0 < x -> x <= y -> JS.roundPositive x <= JS.roundPositive y.
Proof.
  intros Hx Hxy.
  assert (Hy : 0 < y) by lra.
  pose proof (ilog2_monotone x y Hx Hxy) as He.
  set (cx := (Z.max (JS.ilog2 x) (-1022) - 52)%Z).
  set (cy := (Z.max (JS.ilog2 y) (-1022) - 52)%Z).
  assert (Hc : (cx <= cy)%Z) by (unfold cx, cy; lia).
  destruct (Z.eq_dec cx cy) as [E | E].
  - unfold JS.roundPositive.
    assert (U : JS.ulp y = JS.ulp x)
      by (unfold JS.ulp; fold cx cy; now rewrite E).
    rewrite U. pose proof (ulp_pos x) as Hu.
    assert (Hq : x / JS.ulp x <= y / JS.ulp x).
    { apply Qle_shift_div_l; [assumption|].
      unfold Qdiv.
      rewrite <- Qmult_assoc, (Qmult_comm (/ _)), Qmult_inv_r; lra. }
    apply nearestEven_monotone in Hq. rewrite Zle_Qle in Hq. nra.
  - assert (Hlt : (cx < cy)%Z) by lia.
    destruct (ilog2_spec x Hx) as [_ Ux].
    destruct (ilog2_spec y Hy) as [Ly _].
    assert (Ny : JS.ilog2 y = (cy + 52)%Z) by (unfold cx, cy in *; lia).
    assert (Gx : JS.roundPositive x <= 2 ^ (cx + 53)).
    { assert (P : 2 ^ (cx + 53) == inject_Z (2 ^ 53) * JS.ulp x).
      { unfold JS.ulp; fold cx. rewrite Qpower_plus by discriminate.
        rewrite two_pow_inject by lia. ring. }
      rewrite P. apply roundPositive_le. rewrite <- P.
      apply Qlt_le_weak. eapply Qlt_le_trans; [exact Ux|].
      apply Qpower_le_compat_l; [unfold cx; lia | discriminate]. }
    assert (Gy : 2 ^ (cy + 52) <= JS.roundPositive y).
    { assert (P : 2 ^ (cy + 52) == inject_Z (2 ^ 52) * JS.ulp y).
      { unfold JS.ulp; fold cy. rewrite Qpower_plus by discriminate.
        rewrite two_pow_inject by lia. ring. }
      rewrite P. apply roundPositive_ge. rewrite <- P, <- Ny. exact Ly. }
    assert (M : 2 ^ (cx + 53) <= 2 ^ (cy + 52)).
    { apply Qpower_le_compat_l; [lia | discriminate]. }
    lra.
Qed.

Lemma Qred_sign (x : Q) :
  match Qnum (Qred x) with
  | Z0 => x == 0
  | Zpos _ => 0 < x
  | Zneg _ => x < 0
  end.
Proof.
  pose proof (Qred_correct x) as H.
  destruct (Qred x) as [n d]. cbn [Qnum].
  destruct n; rewrite <- H; unfold Qeq, Qlt; cbn; lia.
Qed.

Lemma double_eq (x y : Q) : x == y -> JS.double x = JS.double y.
Proof. intros H. unfold JS.double. now rewrite (Qred_complete x y H). Qed.

Lemma double_zero : JS.double 0 = 0.
Proof. reflexivity. Qed.

Lemma double_cases (x : Q) :
  (x == 0 /\ JS.double x = 0)
  \/ (0 < x /\ JS.double x == JS.roundPositive (Qred x))
  \/ (x < 0 /\ JS.double x == - JS.roundPositive (- Qred x)).
Proof.
  pose proof (Qred_sign x) as S. unfold JS.double.
  destruct (Qnum (Qred x)).
  - left. now split.
  - right. left. split; [assumption | apply Qred_correct].
  - right. right. split; [assumption | apply Qred_correct].
Qed.

Lemma double_nonneg (x : Q) : 0 <= x -> 0 <= JS.double x.
Proof.
  intros H. destruct (double_cases x) as [[_ E] | [[P E] | [N _]]].
  - rewrite E. lra.
  - rewrite E. apply roundPositive_nonneg. rewrite Qred_correct. lra.
  - lra.
Qed.

Lemma double_nonpos (x : Q) : x <= 0 -> JS.double x <= 0.
Proof.
  intros H. destruct (double_cases x) as [[_ E] | [[P _] | [N E]]].
  - rewrite E. lra.
  - lra.
  - rewrite E.
    assert (0 <= JS.roundPositive (- Qred x)).
    { apply roundPositive_nonneg. rewrite Qred_correct. lra. }
    lra.
Qed.

Lemma double_monotone (x y : Q) : x <= y -> JS.double x <= JS.double y.
Proof.
  intros H.
  destruct (Qlt_le_dec 0 x) as [Px | Nx].
  - destruct (double_cases x) as [[Z _] | [[_ Ex] | [N _]]]; [lra | | lra].
    destruct (double_cases y) as [[Z _] | [[_ Ey] | [N _]]]; [lra | | lra].
    rewrite Ex, Ey. apply roundPositive_monotone; rewrite !Qred_correct; lra.
  - destruct (Qlt_le_dec y 0) as [Ny | Py].
    + destruct (double_cases x) as [[Z _] | [[P _] | [_ Ex]]]; [lra | lra |].
      destruct (double_cases y) as [[Z _] | [[P _] | [_ Ey]]]; [lra | lra |].
      rewrite Ex, Ey.
      assert (JS.roundPositive (- Qred y) <= JS.roundPositive (- Qred x)).
      { apply roundPositive_monotone; rewrite !Qred_correct; lra. }
      lra.
    + pose proof (double_nonpos x Nx). pose proof (double_nonneg y Py). lra.
Qed.

Lemma add_nonneg (a b : Q) : 0 <= a -> 0 <= b -> 0 <= JS.add a b.
Proof.
  intros Ha Hb. apply double_nonneg.
  pose proof (double_nonneg a Ha). pose proof (double_nonneg b Hb). lra.
Qed.

Lemma mul_nonneg (a b : Q) : 0 <= a -> 0 <= b -> 0 <= JS.mul a b.
Proof.
  intros Ha Hb. apply double_nonneg.
  pose proof (double_nonneg a Ha). pose proof (double_nonneg b Hb). nra.
Qed.

Lemma over_nonneg (a b : Q) : 0 <= a -> 0 <= b -> 0 <= JS.over a b.
Proof.
  intros Ha Hb. apply double_nonneg.
  pose proof (double_nonneg a Ha). pose proof (double_nonneg b Hb).
  destruct (Qeq_dec (JS.double b) 0) as [Z | NZ].
  - unfold Qdiv. rewrite Z. change (/ 0) with 0. lra.
  - apply Qle_shift_div_l; lra.
Qed.

Lemma mul_monotone_l (a b c : Q) :
  0 <= c -> a <= b -> JS.mul a c <= JS.mul b c.
Proof.
  intros Hc Hab. apply double_monotone.
  pose proof (double_nonneg c Hc).
  pose proof (double_monotone a b Hab). nra.
Qed.

(** Multiplying a non-negative number by the larger of two constants gives
    the larger product, also after rounding. *)
Lemma mul_monotone_r (a c d : Q) :
  0 <= a -> c <= d -> JS.mul a c <= JS.mul a d.
Proof.
  intros Ha Hcd. apply double_monotone.
  pose proof (double_nonneg a Ha).
  pose proof (double_monotone c d Hcd). nra.
Qed.

(** Decide a comparison of the source in the goal from the hypotheses. *)
Ltac js_decide :=
  repeat match goal with
  | |- context [JS.ltb ?a ?b] =>
    first [ replace (JS.ltb a b) with true
              by (symmetry; apply ltb_true; lra)
          | replace (JS.ltb a b) with false
              by (symmetry; apply ltb_false; lra) ]
  | |- context [JS.gtb ?a ?b] =>
    first [ replace (JS.gtb a b) with true
              by (symmetry; apply gtb_true; lra)
          | replace (JS.gtb a b) with false
              by (symmetry; apply gtb_false; lra) ]
  end.

(** Split on a comparison of the source in the goal, keeping its meaning. *)
Ltac js_cases :=
  match goal with
  | |- context [JS.ltb ?a ?b] =>
    let E := fresh "E" in
    destruct (JS.ltb a b) eqn:E;
    [apply ltb_true in E | apply ltb_false in E]
  | |- context [JS.gtb ?a ?b] =>
    let E := fresh "E" in
    destruct (JS.gtb a b) eqn:E;
    [apply gtb_true in E | apply gtb_false in E]
  end.

(** ** The ABR decision *)

Section ABRDecision.

Import ABR.

(** C1, as the specification words it, fails at both boundaries: at a health
    score of exactly 80 the factor is not 0.9, and at exactly 60 it is not
    0.75. *)
Lemma safetyFactor_boundaries_not_inclusive :
  ~ safetyFactor 80 == 0.9 /\ ~ safetyFactor 60 == 0.75.
Proof.
  split; vm_compute; discriminate.
Qed.

(** C1, amended: the safety factor applied to the bandwidth estimate on a
    decision tick is 0.9 when healthScore > 80, 0.75 when
    60 < healthScore <= 80 and 0.6 when healthScore <= 60; at exactly 80 it
    is 0.75 and at exactly 60 it is 0.6. *)
Theorem safetyFactor_strict_tiers (h : Q) :
  (80 < h -> safetyFactor h = 0.9) /\
  (60 < h -> h <= 80 -> safetyFactor h = 0.75) /\
  (h <= 60 -> safetyFactor h = 0.6) /\
  safetyFactor 80 = 0.75 /\
  safetyFactor 60 = 0.6 /\
  (forall recommendQuality config p,
      enabled config = true ->
      availableQualities p <> [] ->
      healthScore p = h ->
      determineOptimalQuality recommendQuality config p =
      recommendQuality
        (JS.mul (JS.mul (currentBandwidth p) (safetyFactor h))
                (bufferFactor config (bufferLevel p)))
        (availableQualities p)).
Proof.
  unfold safetyFactor.
  repeat split; try reflexivity.
  - intro H. now js_decide.
  - intros H1 H2. now js_decide.
  - intro H. now js_decide.
  - intros rq config p Hen Hq Hh.
    unfold determineOptimalQuality, safetyFactor.
    rewrite Hen, Hh.
    destruct (availableQualities p); [contradiction | reflexivity].
Qed.

Lemma safetyFactor_strict_tiers_witness :
  safetyFactor 90 = 0.9 /\
  safetyFactor 70 = 0.75 /\
  safetyFactor 50 = 0.6 /\
  determineOptimalQuality recommendQuality_spec defaultConfig healthyProps
  = recommendQuality_spec
      (JS.mul (JS.mul 5 (safetyFactor 90)) (bufferFactor defaultConfig 10))
      ladder.
Proof.
  destruct (safetyFactor_strict_tiers 90) as [Hhigh [_ [_ [_ [_ Htick]]]]].
  destruct (safetyFactor_strict_tiers 70) as [_ [Hmid _]].
  destruct (safetyFactor_strict_tiers 50) as [_ [_ [Hlow _]]].
  split; [|split; [|split]].
  - apply Hhigh. vm_compute. reflexivity.
  - apply Hmid; vm_compute; [reflexivity | discriminate].
  - apply Hlow. vm_compute. discriminate.
  - apply (Htick recommendQuality_spec defaultConfig healthyProps).
    + reflexivity.
    + discriminate.
    + reflexivity.
Defined.

End ABRDecision.

(** ** The switch gate *)

Section ABRGate.

Import ABR.

(** The gate turns down every candidate that comes too early. *)
Lemma shouldSwitch_too_early config bl hs bw last stable now cur tgt :
  now - last < minSwitchInterval config ->
  should (shouldSwitch config bl hs bw last stable now cur tgt) = false.
Proof.
  intro H. unfold shouldSwitch.
  destruct tgt as [tgt|]; [|reflexivity].
  destruct (negb (enabled config)); [reflexivity|].
  cbv zeta. now js_decide.
Qed.

(** An accepted candidate has waited for the whole interval. *)
Lemma shouldSwitch_accepts_late config bl hs bw last stable now cur tgt :
  should (shouldSwitch config bl hs bw last stable now cur tgt) = true ->
  minSwitchInterval config <= now - last.
Proof.
  intro H.
  destruct (Qlt_le_dec (now - last) (minSwitchInterval config)) as [L|L];
    [|exact L].
  rewrite (shouldSwitch_too_early config bl hs bw last stable now cur tgt L) in H.
  discriminate.
Qed.

(** C3, as the specification words it, fails: with 720p playing (3 Mbps
    required) and an estimate of 3.2 Mbps, the requirement does not exceed
    1.2 times the estimate, neither the critical-buffer rule nor the
    low-health rule applies, and the downgrade to 480p is accepted all the
    same. *)
Lemma downgrade_accepted_within_claimed_margin :
  bandwidth rung480 < bandwidth rung720 /\
  ~ 5 < bufferTargetDown defaultConfig /\
  ~ 90 < 50 /\
  bandwidth rung720 / 1000000 <= 3.2 * 1.2 /\
  should (shouldSwitch defaultConfig 5 90 3.2 0 0 100000
                       (Some rung720) (Some rung480)) = true.
Proof.
  repeat split; try (vm_compute; congruence).
Qed.

(** C3, amended: a downgrade candidate that passes the interval check and
    is accepted neither by the critical-buffer rule nor by the low-health
    rule is accepted if and only if the estimated bandwidth is below the
    current rung's requirement (in Mbps) times 1.2; the 20% margin is on the
    requirement, not on the estimate.  The requirement in Mbps and its
    product with 1.2 are the doubles the source computes, so that with 720p
    playing the threshold is 3.5999999999999996 and an estimate of exactly
    that value keeps the rung. *)
Theorem downgrade_gate_margin_on_requirement
    config bl hs bw last stable now cur tgt :
  enabled config = true ->
  minSwitchInterval config <= now - last ->
  bandwidth tgt < bandwidth cur ->
  bufferTargetDown config <= bl ->
  50 <= hs ->
  (should (shouldSwitch config bl hs bw last stable now (Some cur) (Some tgt))
   = true
   <-> bw < JS.mul (JS.over (bandwidth cur) 1000000) 1.2) /\
  (should (shouldSwitch defaultConfig 5 90 (JS.double 3.5999999999999996)
             0 0 100000 (Some rung720) (Some rung480)) = false /\
   should (shouldSwitch defaultConfig 5 90 3.599999999999999
             0 0 100000 (Some rung720) (Some rung480)) = true).
Proof.
  intros Hen Hlate Hdown Hbuf Hhs.
  split; [|split; vm_compute; reflexivity].
  unfold shouldSwitch. rewrite Hen. cbv zeta. simpl negb. cbv iota.
  replace (JS.eqb (bandwidth cur) (bandwidth tgt)) with false
    by (symmetry; apply eqb_false; lra).
  js_decide. simpl.
  destruct (JS.ltb bw (JS.mul (JS.over (bandwidth cur) 1000000) 1.2)) eqn:E;
    simpl.
  - apply ltb_true in E. tauto.
  - apply ltb_false in E. split; [discriminate | lra].
Qed.

Lemma downgrade_gate_margin_on_requirement_witness :
  should (shouldSwitch defaultConfig 5 90 3.2 0 0 100000
                       (Some rung720) (Some rung480)) = true
  <-> 3.2 < JS.mul (JS.over (bandwidth rung720) 1000000) 1.2.
Proof.
  apply (downgrade_gate_margin_on_requirement
           defaultConfig 5 90 3.2 0 0 100000 rung720 rung480).
  - reflexivity.
  - vm_compute. discriminate.
  - vm_compute. reflexivity.
  - vm_compute. discriminate.
  - vm_compute. discriminate.
Defined.

End ABRGate.

(** ** Sessions of the ABR hook *)

Section ABRSessions.

Import ABR.

Variable recommendQuality : Q -> list StreamQuality -> option StreamQuality.
Variable config : ABRConfig.

Lemma clearRef_owned r ts :
  (forall t, In t ts -> r = Some (handle t)) -> clearRef r ts = [].
Proof.
  intro H. destruct r as [h|]; simpl.
  - unfold clearTimeout. induction ts as [|t ts IH]; [reflexivity|].
    simpl. assert (Ht : Some h = Some (handle t)) by (apply H; now left).
    injection Ht as ->. rewrite Nat.eqb_refl. simpl.
    apply IH. intros t' Ht'. apply H. now right.
  - destruct ts as [|t ts]; [reflexivity|].
    specialize (H t (or_introl eq_refl)). discriminate.
Qed.

Lemma clearTimeout_owned r h t ts :
  (forall t', In t' ts -> r = Some (handle t')) ->
  In t ts -> handle t = h -> clearTimeout h ts = [].
Proof.
  intros H Hin <-.
  apply (clearRef_owned (Some (handle t))).
  intros t' Ht'. rewrite <- (H t' Ht'). symmetry. now apply H.
Qed.

Lemma findTimeout_some h ts t :
  findTimeout h ts = Some t -> In t ts /\ handle t = h.
Proof.
  intro H. apply find_some in H. destruct H as [Hin He].
  apply Nat.eqb_eq in He. now split.
Qed.

Lemma due_after_armed t now : due t now = true -> armedAt t <= now.
Proof.
  unfold due. intro H. apply Qle_bool_iff in H.
  pose proof (Q.le_max_l 0 (delay t)). lra.
Qed.

Lemma waited_initial : waited config initialHook.
Proof. intros t []. Qed.

Lemma tick_waited p bw now hk :
  waited config hk -> waited config (tick recommendQuality config p bw now hk).
Proof.
  intro W. unfold tick.
  destruct (determineOptimalQuality recommendQuality config p) as [q|];
    [|exact W].
  assert (C : clearRef (adaptationTimerRef hk) (pendingTimeouts hk) = []).
  { apply clearRef_owned. intros t Ht. now apply W. }
  match goal with |- context [should ?d] => destruct (should d) eqn:S end.
  - apply shouldSwitch_accepts_late in S.
    intros t Ht. cbn [pendingTimeouts] in Ht. rewrite C in Ht.
    destruct Ht as [<-|[]]. cbn. split; [reflexivity | exact S].
  - intros t Ht. cbn [pendingTimeouts] in Ht. rewrite C in Ht. destruct Ht.
Qed.

Lemma expire_waited h now hk :
  waited config hk -> waited config (expire h now hk).
Proof.
  intro W. unfold expire.
  destruct (findTimeout h (pendingTimeouts hk)) as [t|] eqn:F; [|exact W].
  destruct (due t now); [|exact W].
  apply findTimeout_some in F. destruct F as [Hin Hh].
  intros t' Ht'. cbn [commit pendingTimeouts] in Ht'.
  rewrite (clearTimeout_owned (adaptationTimerRef hk) (handle t) t) in Ht'.
  - destruct Ht'.
  - intros t'' Ht''. now apply W.
  - exact Hin.
  - reflexivity.
Qed.

Lemma step_waited hk e : waited config hk -> waited config (step recommendQuality config hk e).
Proof.
  intro W. destruct e as [now [p bw|h| |q]]; cbn [step].
  - now apply tick_waited.
  - now apply expire_waited.
  - intros t Ht. cbn [cleanup pendingTimeouts] in Ht.
    rewrite clearRef_owned in Ht; [destruct Ht|].
    intros t' Ht'. now apply W.
  - exact W.
Qed.

Lemma tick_lastSwitchTime p bw now hk :
  lastSwitchTimeRef (tick recommendQuality config p bw now hk)
  = lastSwitchTimeRef hk.
Proof.
  unfold tick.
  destruct (determineOptimalQuality recommendQuality config p); [|reflexivity].
  match goal with |- context [should ?d] => destruct (should d) end;
    reflexivity.
Qed.

(** Along a session, the first switch committed from a state where every
    armed timeout has waited comes a full interval after the last one, and
    so on for every later one. *)
Lemma commitTimes_spaced es : forall hk,
  waited config hk ->
  spaced (minSwitchInterval config)
         (lastSwitchTimeRef hk :: commitTimes recommendQuality config hk es).
Proof.
  induction es as [|[now ev] es IH]; intros hk W.
  - exact I.
  - pose proof (IH _ (step_waited hk (now, ev) W)) as IH'.
    destruct ev as [p bw|h| |q]; cbn [commitTimes].
    + cbn [step] in IH'. rewrite tick_lastSwitchTime in IH'. exact IH'.
    + cbn [step] in *. unfold commits, expire in *.
      destruct (findTimeout h (pendingTimeouts hk)) as [t|] eqn:F;
        [|exact IH'].
      destruct (due t now) eqn:D; [|exact IH'].
      apply findTimeout_some in F. destruct F as [Hin _].
      destruct (W t Hin) as [_ Hw]. apply due_after_armed in D.
      split; [lra | exact IH'].
    + exact IH'.
    + exact IH'.
Qed.

Lemma tick_switchCountRef p bw now hk :
  switchCountRef (tick recommendQuality config p bw now hk)
  = switchCountRef hk.
Proof.
  unfold tick.
  destruct (determineOptimalQuality recommendQuality config p); [|reflexivity].
  match goal with |- context [should ?d] => destruct (should d) end;
    reflexivity.
Qed.

(** [commits] tells exactly when [expire] runs the commit callback. *)
Lemma expire_commits h now hk :
  (commits h now hk = true ->
   switchCountRef (expire h now hk) = (switchCountRef hk + 1)%Z /\
   lastSwitchTimeRef (expire h now hk) = now) /\
  (commits h now hk = false -> expire h now hk = hk).
Proof.
  unfold commits, expire.
  destruct (findTimeout h (pendingTimeouts hk)) as [t|].
  - destruct (due t now); split; intro H; try discriminate H.
    + split; reflexivity.
    + reflexivity.
  - split; intro H; [discriminate H | reflexivity].
Qed.

(** The switch counter counts the commits of the session, and nothing
    else. *)
Lemma run_counts_commits es : forall hk,
  switchCountRef (run recommendQuality config hk es)
  = (switchCountRef hk
     + Z.of_nat (List.length (commitTimes recommendQuality config hk es)))%Z.
Proof.
  induction es as [|[now ev] es IH]; intro hk.
  - cbn. lia.
  - change (run recommendQuality config hk ((now, ev) :: es))
      with (run recommendQuality config
                (step recommendQuality config hk (now, ev)) es).
    rewrite IH. destruct ev as [p bw|h| |q]; cbn [commitTimes step].
    + rewrite tick_switchCountRef. reflexivity.
    + destruct (expire_commits h now hk) as [Hyes Hno].
      destruct (commits h now hk).
      * destruct (Hyes eq_refl) as [-> _]. cbn [List.length]. lia.
      * rewrite (Hno eq_refl). reflexivity.
    + reflexivity.
    + reflexivity.
Qed.

Lemma spaced_tail d a ts : spaced d (a :: ts) -> spaced d ts.
Proof.
  destruct ts as [|b ts]; [intros; exact I | intros [_ H]; exact H].
Qed.

Lemma tick_synced p bw now hk :
  synced hk -> synced (tick recommendQuality config p bw now hk).
Proof.
  unfold synced, tick. intro H.
  destruct (determineOptimalQuality recommendQuality config p); [|exact H].
  match goal with |- context [should ?d] => destruct (should d) end; exact H.
Qed.

Lemma step_synced hk e : synced hk -> synced (step recommendQuality config hk e).
Proof.
  intro H. destruct e as [now [p bw|h| |q]]; cbn [step].
  - now apply tick_synced.
  - unfold expire.
    destruct (findTimeout h (pendingTimeouts hk)) as [t|]; [|exact H].
    destruct (due t now); [reflexivity | exact H].
  - exact H.
  - reflexivity.
Qed.

Lemma run_synced es : forall hk,
  synced hk -> synced (run recommendQuality config hk es).
Proof.
  induction es as [|e es IH]; intros hk H; [exact H|].
  apply IH. now apply step_synced.
Qed.

End ABRSessions.

(** C6: along every session of the hook, whatever the ticks read and
    whenever the timeouts expire, two successive committed switches are at
    least [minSwitchInterval] apart; and a tick that comes less than
    [minSwitchInterval] after the last committed switch has every candidate
    turned down by the gate and arms no timeout.  The timestamp the gate
    reads is the clock reading of the last commit, and the commits listed
    are the switches the hook's own counter counts. *)
Theorem switches_keep_minSwitchInterval
    (recommendQuality : Q -> list ABR.StreamQuality -> option ABR.StreamQuality)
    (config : ABR.ABRConfig) (es : list (Q * ABR.Event)) :
  ABR.spaced (ABR.minSwitchInterval config)
    (ABR.commitTimes recommendQuality config ABR.initialHook es) /\
  (forall hk now,
      now - ABR.lastSwitchTimeRef hk < ABR.minSwitchInterval config ->
      (forall bl hs bw cur tgt,
          ABR.should (ABR.shouldSwitch config bl hs bw (ABR.lastSwitchTimeRef hk)
                        (ABR.stableCountRef hk) now cur tgt) = false) /\
      (forall p bw,
          ABR.nextHandle (ABR.tick recommendQuality config p bw now hk)
          = ABR.nextHandle hk)) /\
  (forall hk t now,
      ABR.lastSwitchTimeRef (ABR.commit t now hk) = now) /\
  ABR.switchCountRef (ABR.run recommendQuality config ABR.initialHook es)
  = Z.of_nat
      (List.length (ABR.commitTimes recommendQuality config ABR.initialHook es)).
Proof.
  split; [|split; [|split]]; [| | |apply run_counts_commits].
  - apply (spaced_tail _ (ABR.lastSwitchTimeRef ABR.initialHook)).
    apply commitTimes_spaced. apply waited_initial.
  - intros hk now Hearly. split.
    + intros. now apply shouldSwitch_too_early.
    + intros p bw. unfold ABR.tick.
      destruct (ABR.determineOptimalQuality recommendQuality config p);
        [|reflexivity].
      rewrite shouldSwitch_too_early by exact Hearly. reflexivity.
  - reflexivity.
Qed.

Lemma switches_keep_minSwitchInterval_witness :
  ABR.spaced 10000 [101000; 113000] /\
  ABR.should (ABR.shouldSwitch ABR.quickConfig 1 40 1.5 101000 0 103000
                (Some ABR.rung720) (Some ABR.rung480)) = false.
Proof.
  destruct (switches_keep_minSwitchInterval
              ABR.recommendQuality_spec ABR.quickConfig ABR.twoSwitchSession)
    as [Hspaced [Hgate _]].
  split.
  - exact Hspaced.
  - apply (Hgate {| ABR.abrState := ABR.abrState ABR.initialHook;
                    ABR.lastSwitchTimeRef := 101000;
                    ABR.switchCountRef := 1;
                    ABR.stableCountRef := 0;
                    ABR.adaptationTimerRef := Some 0%nat;
                    ABR.pendingTimeouts := [];
                    ABR.nextHandle := 1 |} 103000).
    reflexivity.
Defined.

(** C10: in every state a session can reach, [setManualQuality q] leaves
    currentQuality = q, targetQuality = null, isAdapting = false, the reason
    'Manuel' and the stable-tick counter at 0, and changes neither the
    switch count (in the state or in the ref) nor the last-switch timestamp:
    it commits no switch and the gate's interval check reads the same clock
    as before. *)
Theorem setManualQuality_frame
    (recommendQuality : Q -> list ABR.StreamQuality -> option ABR.StreamQuality)
    (config : ABR.ABRConfig) (es : list (Q * ABR.Event))
    (quality : option ABR.StreamQuality) :
  let hk := ABR.run recommendQuality config ABR.initialHook es in
  let hk' := ABR.setManualQuality quality hk in
  ABR.currentQuality (ABR.abrState hk') = quality /\
  ABR.targetQuality (ABR.abrState hk') = None /\
  ABR.isAdapting (ABR.abrState hk') = false /\
  ABR.adaptationReason (ABR.abrState hk') = "Manuel"%string /\
  ABR.stableCountRef hk' = 0%Z /\
  ABR.switchCount (ABR.abrState hk') = ABR.switchCount (ABR.abrState hk) /\
  ABR.switchCountRef hk' = ABR.switchCountRef hk /\
  ABR.lastSwitchTimeRef hk' = ABR.lastSwitchTimeRef hk /\
  (forall now,
      ABR.commitTimes recommendQuality config hk [(now, ABR.SetManual quality)]
      = []) /\
  (forall bl hs bw stable now cur tgt,
      ABR.shouldSwitch config bl hs bw (ABR.lastSwitchTimeRef hk') stable now
                       cur tgt
      = ABR.shouldSwitch config bl hs bw (ABR.lastSwitchTimeRef hk) stable now
                         cur tgt).
Proof.
  intros hk hk'.
  assert (S : ABR.synced hk).
  { apply run_synced. reflexivity. }
  repeat split; try reflexivity.
  symmetry. exact S.
Qed.

(** ** Error recovery *)

Section RecoveryBackoff.

Import Recovery.

Lemma round_between (lo hi : Z) (x : Q) :
  inject_Z lo <= x -> x <= inject_Z hi ->
  (lo <= JS.round x <= hi)%Z.
Proof.
  intros Hlo Hhi. unfold JS.round. split.
  - rewrite <- (Qfloor_Z lo). apply Qfloor_resp_le. lra.
  - apply Z.lt_succ_r. rewrite <- (Qfloor_Z (Z.succ hi)).
    assert (Hs : inject_Z (Z.succ hi) == inject_Z hi + 1).
    { unfold Z.succ. rewrite inject_Z_plus. reflexivity. }
    destruct (Z_lt_le_dec (Qfloor (x + (1 # 2))) (Qfloor (inject_Z (Z.succ hi))))
      as [L|L]; [exact L|].
    exfalso. rewrite Qfloor_Z in L.
    pose proof (Qfloor_le (x + (1 # 2))) as F.
    rewrite Zle_Qle in L. lra.
Qed.

Lemma round_near (x : Q) :
  x - (1 # 2) < inject_Z (JS.round x) /\ inject_Z (JS.round x) <= x + (1 # 2).
Proof.
  unfold JS.round. split.
  - pose proof (Qlt_floor (x + (1 # 2))) as H.
    rewrite inject_Z_plus in H. change (inject_Z 1) with 1 in H. lra.
  - apply Qfloor_le.
Qed.

(** The jitter moves the delay by at most an eighth of itself either way. *)
Lemma jitter_within_eighth (d random : Q) :
  0 <= d -> 0 <= random -> random < 1 ->
  d - 0.125 * d <= d + d * 0.25 * (random - 0.5) /\
  d + d * 0.25 * (random - 0.5) <= d + 0.125 * d.
Proof.
  intros Hd H0 H1. split; nra.
Qed.

Lemma exponentialDelay_default_5 : exponentialDelay defaultConfig 5 = 3200.
Proof. reflexivity. Qed.

Lemma backoff_default_5 (random : Q) :
  0 <= random -> random < 1 ->
  (2800 <= calculateBackoff defaultConfig random 5 <= 3600)%Z.
Proof.
  intros H0 H1. unfold calculateBackoff.
  rewrite exponentialDelay_default_5. cbv zeta.
  apply round_between.
  - change (inject_Z 2800) with 2800. nra.
  - change (inject_Z 3600) with 3600. nra.
Qed.

End RecoveryBackoff.

(** C2: the jitter of line 55 is [exponentialDelay * 0.25 * (random - 0.5)],
    which moves the delay by at most 12.5% either way, where the comment on
    line 54 and the specification say 25%.  Every call of recordError
    increments errorCount; with delay = min(baseDelay * 2^errorCount,
    maxDelay) for the new count, the stored nextRetryDelay is within 12.5%
    of that delay, up to the half unit of the rounding.  With
    baseDelay = 100 and maxDelay = 10000, after five recorded errors the
    delay before jitter is 3200 and the stored delay lies in [2800, 3600]
    whatever the draws were: the draw 0 stores 2800, where a jitter of -25%
    would store 2400. *)
Theorem recordError_jitter_is_an_eighth :
  (forall config now random error hk,
      0 <= random -> random < 1 ->
      let hk' := Recovery.recordError config now random error hk in
      let count := Recovery.errorCount (Recovery.errorState hk') in
      let pre := Qmin (Recovery.baseDelay config * 2 ^ count)
                      (Recovery.maxDelay config) in
      count = (Recovery.errorCount (Recovery.errorState hk) + 1)%Z /\
      (0 <= pre ->
       0.875 * pre - (1 # 2)
       <= Recovery.nextRetryDelay (Recovery.errorState hk')
       <= 1.125 * pre + (1 # 2))) /\
  (forall calls,
      List.length calls = 5%nat ->
      Forall (fun c => 0 <= snd (fst c) /\ snd (fst c) < 1) calls ->
      let hk' := Recovery.recordErrors Recovery.defaultConfig calls
                   (Recovery.initialHook Recovery.defaultConfig) in
      Recovery.errorCount (Recovery.errorState hk') = 5%Z /\
      Qmin (Recovery.baseDelay Recovery.defaultConfig
            * 2 ^ Recovery.errorCount (Recovery.errorState hk'))
           (Recovery.maxDelay Recovery.defaultConfig) = 3200 /\
      2800 <= Recovery.nextRetryDelay (Recovery.errorState hk') <= 3600) /\
  Recovery.nextRetryDelay
    (Recovery.errorState
       (Recovery.recordError Recovery.defaultConfig 5000 0 "e"
          Recovery.fourErrorsHook)) = 2800.
Proof.
  split; [|split].
  - intros config now random error hk H0 H1 hk' count pre.
    split; [reflexivity|].
    intro Hpre.
    destruct (jitter_within_eighth pre random Hpre H0 H1) as [Hlo Hhi].
    change (Recovery.nextRetryDelay (Recovery.errorState hk'))
      with (inject_Z (JS.round (pre + pre * 0.25 * (random - 0.5)))).
    destruct (round_near (pre + pre * 0.25 * (random - 0.5))) as [Rlo Rhi].
    split; lra.
  - intros calls Hlen Hdraws hk'.
    destruct calls as [|c1 [|c2 [|c3 [|c4 [|[[now random] error] [|c6 calls]]]]]];
      try discriminate Hlen.
    destruct c1 as [[n1 r1] e1], c2 as [[n2 r2] e2], c3 as [[n3 r3] e3],
             c4 as [[n4 r4] e4].
    assert (Hr : 0 <= random /\ random < 1).
    { repeat match goal with
             | H : Forall _ (_ :: _) |- _ => inversion H; subst; clear H
             end.
      assumption. }
    destruct Hr as [H0 H1].
    split; [reflexivity|]. split; [reflexivity|].
    pose proof (backoff_default_5 random H0 H1) as [Hlo Hhi].
    change (Recovery.nextRetryDelay (Recovery.errorState hk'))
      with (inject_Z (Recovery.calculateBackoff Recovery.defaultConfig random 5)).
    rewrite Zle_Qle in Hlo, Hhi.
    change (inject_Z 2800) with 2800 in Hlo.
    change (inject_Z 3600) with 3600 in Hhi.
    split; lra.
  - vm_compute. reflexivity.
Qed.

Lemma recordError_jitter_is_an_eighth_witness :
  Recovery.errorCount
    (Recovery.errorState
       (Recovery.recordError Recovery.defaultConfig 1000 (1 # 4) "stall"
          (Recovery.initialHook Recovery.defaultConfig))) = 1%Z /\
  2800 <= Recovery.nextRetryDelay
            (Recovery.errorState
               (Recovery.recordErrors Recovery.defaultConfig
                  [(1000, 0, "a"%string); (2000, 1 # 2, "b"%string);
                   (3000, 1 # 3, "c"%string); (4000, 9 # 10, "d"%string);
                   (5000, 999 # 1000, "e"%string)]
                  (Recovery.initialHook Recovery.defaultConfig))) <= 3600.
Proof.
  destruct recordError_jitter_is_an_eighth as [Hone [Hfive _]].
  split.
  - apply (Hone Recovery.defaultConfig 1000 (1 # 4) "stall"%string
             (Recovery.initialHook Recovery.defaultConfig)).
    + vm_compute; discriminate.
    + vm_compute; reflexivity.
  - apply (Hfive [(1000, 0, "a"%string); (2000, 1 # 2, "b"%string);
                  (3000, 1 # 3, "c"%string); (4000, 9 # 10, "d"%string);
                  (5000, 999 # 1000, "e"%string)]).
    + reflexivity.
    + repeat constructor; vm_compute; congruence.
Defined.

Section RecoveryAttempts.

Import Recovery.

Lemma clearTimeout_incl h ts : incl (clearTimeout h ts) ts.
Proof. apply incl_filter. Qed.

Lemma clearRef_incl r ts : incl (clearRef r ts) ts.
Proof.
  destruct r; [apply clearTimeout_incl | apply incl_refl].
Qed.

Lemma geb_false (a b : Z) : (a < b)%Z -> (a >=? b)%Z = false.
Proof.
  intro H. rewrite Z.geb_leb. apply Z.leb_gt. exact H.
Qed.

Lemma attemptRecovery_exhausted config now rendered hk :
  (maxRetries config <= errorCount rendered)%Z ->
  attemptRecovery config now rendered hk
  = (withState hk (stopRecovering (errorState hk)),
     Rejected "Max retries exceeded").
Proof.
  intro H. unfold attemptRecovery. cbv zeta.
  replace (errorCount rendered >=? maxRetries config)%Z with true
    by (symmetry; apply Z.geb_le; exact H).
  reflexivity.
Qed.


(** Below both ceilings the attempt goes ahead: the recovery function is
    armed with the delay of the render, behind the global guard. *)
Lemma attemptRecovery_schedules config now rendered hk :
  (errorCount rendered < maxRetries config)%Z ->
  now - JS.or (recoveryStartTime rendered) now <= globalTimeout config ->
  snd (attemptRecovery config now rendered hk) = Pending /\
  isRecovering (errorState (fst (attemptRecovery config now rendered hk)))
  = true /\
  In {| handle := S (nextHandle hk);
        delay := nextRetryDelay rendered;
        callback := RunRecovery |}
     (pendingTimeouts (fst (attemptRecovery config now rendered hk))).
Proof.
  intros Hc Ht. unfold attemptRecovery. cbv zeta.
  replace (errorCount rendered >=? maxRetries config)%Z with false
    by (symmetry; apply geb_false; exact Hc).
  replace (JS.gtb (now - JS.or (recoveryStartTime rendered) now)
                  (globalTimeout config))
    with false by (symmetry; apply gtb_false; exact Ht).
  cbn. auto.
Qed.

Lemma refusedOutright_intro hk message :
  refusedOutright hk
    (withState hk (stopRecovering (errorState hk)), Rejected message).
Proof.
  repeat split. now exists message.
Qed.

End RecoveryAttempts.



(** C7: when the scheduled recovery function succeeds, the error state is
    reset in full (errorCount 0, no lastError, nextRetryDelay = baseDelay,
    no recoveryStartTime, not recovering) and the callback resolves the
    promise; when it throws, the message is recorded ('Unknown error' for
    a thrown value that is not an Error), the recovering flag drops,
    errorCount, the backoff delay and the episode clock stay as they were,
    and the callback rejects the promise with the thrown value; in neither
    case does the callback arm a timeout. *)
Theorem retry_outcome
    (config : Recovery.RetryConfig) (h : nat) (hk : Recovery.Hook) :
  (let r := Recovery.retryFires config h Recovery.Succeeded hk in
   Recovery.errorState (fst r)
   = {| Recovery.errorCount := 0;
        Recovery.lastError := None;
        Recovery.isRecovering := false;
        Recovery.nextRetryDelay := Recovery.baseDelay config;
        Recovery.recoveryStartTime := 0 |} /\
   snd r = Recovery.Resolved /\
   Recovery.nothingArmed hk (fst r)) /\
  (forall err,
      let r := Recovery.retryFires config h (Recovery.Threw err) hk in
      let message := match err with
                     | Some m => m
                     | None => "Unknown error"%string
                     end in
      Recovery.lastError (Recovery.errorState (fst r)) = Some message /\
      Recovery.isRecovering (Recovery.errorState (fst r)) = false /\
      Recovery.errorCount (Recovery.errorState (fst r))
      = Recovery.errorCount (Recovery.errorState hk) /\
      Recovery.nextRetryDelay (Recovery.errorState (fst r))
      = Recovery.nextRetryDelay (Recovery.errorState hk) /\
      Recovery.recoveryStartTime (Recovery.errorState (fst r))
      = Recovery.recoveryStartTime (Recovery.errorState hk) /\
      snd r = match err with
              | Some m => Recovery.Rejected m
              | None => Recovery.RejectedWithValue
              end /\
      Recovery.nothingArmed hk (fst r)).
Proof.
  assert (A : incl (Recovery.clearRef (Recovery.globalTimeoutRef hk)
                      (Recovery.clearTimeout h (Recovery.pendingTimeouts hk)))
                   (Recovery.pendingTimeouts hk)).
  { eapply incl_tran; [apply clearRef_incl | apply clearTimeout_incl]. }
  split.
  - cbn. repeat split. exact A.
  - intro err. cbn. repeat split. exact A.
Qed.

(** ** The health score *)

Section HealthScore.

Import Health.

Lemma levelOf_cases (s : Z) :
  (levelOf s = critical <-> (s < 30)%Z) /\
  (levelOf s = warning <-> (30 <= s < 60)%Z) /\
  (levelOf s = good <-> (60 <= s < 85)%Z) /\
  (levelOf s = excellent <-> (85 <= s)%Z).
Proof.
  unfold levelOf.
  destruct (Z.ltb_spec s 30); [repeat split; intros; try lia; try discriminate|].
  destruct (Z.ltb_spec s 60); [repeat split; intros; try lia; try discriminate|].
  destruct (Z.ltb_spec s 85); repeat split; intros; try lia; try discriminate.
Qed.

Lemma tick_level config now v hk :
  level (health (tick config now v hk))
  = levelOf (score (health (tick config now v hk))).
Proof.
  unfold tick.
  destruct (stallCondition config (paused v) (currentTime v - lastTimeRef hk)
                           (now - lastCheckRef hk)).
  - destruct (negb (stalledSinceSet (stalledSinceRef hk))); reflexivity.
  - destruct (stalledSinceSet (stalledSinceRef hk)
              && JS.gtb (currentTime v - lastTimeRef hk) 0); reflexivity.
Qed.

(** The score a tick publishes is [calculateScore] of what it measured and
    of the two counters it publishes, which are the refs. *)
Lemma tick_measures config now v hk :
  let h := health (tick config now v hk) in
  score h
  = calculateScore config (now - lastCheckRef hk) (bufferLevelOf v)
      (droppedFrameRateOf v) (stallCount h) (bufferingTime h) /\
  stallCount h = stallCountRef (tick config now v hk) /\
  bufferingTime h = totalBufferingTimeRef (tick config now v hk).
Proof.
  unfold tick, bufferLevelOf, droppedFrameRateOf.
  destruct (stallCondition config (paused v) (currentTime v - lastTimeRef hk)
                           (now - lastCheckRef hk)).
  - destruct (negb (stalledSinceSet (stalledSinceRef hk)));
      destruct (playbackQuality v) as [[dropped total]|]; repeat split.
  - destruct (stalledSinceSet (stalledSinceRef hk)
              && JS.gtb (currentTime v - lastTimeRef hk) 0);
      destruct (playbackQuality v) as [[dropped total]|]; repeat split.
Qed.

Lemma tick_score config now v hk :
  score (health (tick config now v hk))
  = calculateScore config (now - lastCheckRef hk) (bufferLevelOf v)
      (droppedFrameRateOf v) (stallCountRef (tick config now v hk))
      (totalBufferingTimeRef (tick config now v hk)).
Proof.
  destruct (tick_measures config now v hk) as [S [C B]].
  rewrite <- C, <- B. exact S.
Qed.

Lemma calculateScore_specified since b d s t :
  calculateScore defaultConfig since b d s t
  = specifiedScore b d s (JS.div t since).
Proof.
  unfold calculateScore, specifiedScore, clamp, bufferDeduction,
    dropDeduction, stallDeduction, ratioDeduction.
  cbn [criticalBufferLevel warningBufferLevel defaultConfig].
  destruct (JS.ltb b 0.5), (JS.ltb b 1), (JS.ltb b 3), (JS.ltb b 5),
    (JS.gtb d 5), (JS.gtb d 2), (JS.gtb d 0.5),
    (s >? 8)%Z, (s >? 4)%Z, (s >? 1)%Z,
    (JS.quotient_gtb (JS.div t since) 0.3),
    (JS.quotient_gtb (JS.div t since) 0.15);
    reflexivity.
Qed.

End HealthScore.

(** C4: for every buffer level, drop rate, stall count and buffering ratio,
    negative or oversized ones included, the score is 100 minus the four
    deductions (buffer: < 0.5 s 40, < 1 s 25, < 3 s 15, < 5 s 5; drop rate:
    > 5 30, > 2 15, > 0.5 5; stalls: > 8 20, > 4 10, > 1 5; buffering ratio:
    > 0.3 10, > 0.15 5) clamped to [0, 100]; the score a tick publishes is
    that score for the buffer level and the drop rate the tick measures,
    the stall count and the buffering time it publishes and the time since
    the last check; and the level a tick publishes is critical iff
    score < 30, warning iff 30 <= score < 60, good iff 60 <= score < 85,
    excellent otherwise. *)
Theorem calculateScore_deductions
    (sinceLastCheck bufferLevel droppedFrameRate : Q) (stallCount : Z)
    (bufferingTime : Q) :
  let s := Health.calculateScore Health.defaultConfig sinceLastCheck
             bufferLevel droppedFrameRate stallCount bufferingTime in
  s = Health.specifiedScore bufferLevel droppedFrameRate stallCount
        (JS.div bufferingTime sinceLastCheck) /\
  (0 <= s <= 100)%Z /\
  (forall now v hk,
      let h := Health.health (Health.tick Health.defaultConfig now v hk) in
      Health.score h
      = Health.calculateScore Health.defaultConfig
          (now - Health.lastCheckRef hk) (Health.bufferLevelOf v)
          (Health.droppedFrameRateOf v) (Health.stallCount h)
          (Health.bufferingTime h) /\
      Health.score h
      = Health.specifiedScore (Health.bufferLevelOf v)
          (Health.droppedFrameRateOf v) (Health.stallCount h)
          (JS.div (Health.bufferingTime h) (now - Health.lastCheckRef hk)) /\
      (Health.level h = Health.critical <-> (Health.score h < 30)%Z) /\
      (Health.level h = Health.warning <-> (30 <= Health.score h < 60)%Z) /\
      (Health.level h = Health.good <-> (60 <= Health.score h < 85)%Z) /\
      (Health.level h = Health.excellent <-> (85 <= Health.score h)%Z)).
Proof.
  intro s. split; [|split].
  - subst s. apply calculateScore_specified.
  - subst s. unfold Health.calculateScore. lia.
  - intros now v hk h. subst h.
    destruct (tick_measures Health.defaultConfig now v hk) as [S _].
    cbv zeta in S.
    split; [exact S|]. split.
    + rewrite <- calculateScore_specified. exact S.
    + rewrite tick_level. apply levelOf_cases.
Qed.

(** A tick that reads a position of 0.1 s and a buffered end of 0.6 s
    measures a buffer level of exactly 0.5 s, the difference of the two
    doubles, and deducts 25, not 40. *)
Example score_half_second_buffer :
  Health.score
    (Health.health
       (Health.tick Health.defaultConfig 2000
          {| Health.currentTime := 0.1; Health.paused := false;
             Health.bufferedEnd := Some 0.6;
             Health.playbackQuality := None |}
          (Health.initialHook 1000))) = 75%Z.
Proof. vm_compute. reflexivity. Qed.

(** The two worked examples of the specification. *)
Example score_low_buffer :
  Health.calculateScore Health.defaultConfig 1000 0.3 0 0 0 = 60%Z /\
  Health.levelOf 60 = Health.good.
Proof. split; reflexivity. Qed.

Example score_many_faults :
  Health.calculateScore Health.defaultConfig 1000 6 6 9 400 = 40%Z /\
  Health.levelOf 40 = Health.warning.
Proof. split; reflexivity. Qed.

(** ** Stall detection *)

Section HealthStalls.

Import Health.

Variable config : HealthMonitorConfig.

Lemma isStalled_iff now v hk :
  isStalled config now v hk = true <->
  paused v = false /\
  currentTime v - lastTimeRef hk == 0 /\
  stallThreshold config < now - lastCheckRef hk.
Proof.
  unfold isStalled, stallCondition.
  rewrite !andb_true_iff, negb_true_iff, eqb_true, gtb_true. tauto.
Qed.

Lemma progress_not_stalled now v hk :
  0 < currentTime v - lastTimeRef hk -> isStalled config now v hk = false.
Proof.
  intro H. destruct (isStalled config now v hk) eqn:E; [|reflexivity].
  apply isStalled_iff in E. destruct E as [_ [E _]]. lra.
Qed.

(** What a stalled tick does to the refs. *)
Lemma tick_stalled now v hk :
  isStalled config now v hk = true ->
  stallCountRef (tick config now v hk)
  = (if inStall hk then stallCountRef hk else (stallCountRef hk + 1)%Z) /\
  totalBufferingTimeRef (tick config now v hk)
  = totalBufferingTimeRef hk + (now - lastCheckRef hk) /\
  stalledSinceRef (tick config now v hk)
  = (if inStall hk then stalledSinceRef hk else Some now).
Proof.
  unfold isStalled, tick, inStall. intros ->.
  destruct (stalledSinceSet (stalledSinceRef hk)); cbn; auto.
Qed.

(** What any other tick does to them. *)
Lemma tick_not_stalled now v hk :
  isStalled config now v hk = false ->
  stallCountRef (tick config now v hk) = stallCountRef hk /\
  totalBufferingTimeRef (tick config now v hk) = totalBufferingTimeRef hk /\
  stalledSinceRef (tick config now v hk)
  = (if inStall hk && JS.gtb (currentTime v - lastTimeRef hk) 0
     then None else stalledSinceRef hk).
Proof.
  unfold isStalled, tick, inStall. intros ->.
  destruct (stalledSinceSet (stalledSinceRef hk)
            && JS.gtb (currentTime v - lastTimeRef hk) 0); cbn; auto.
Qed.

(** The state cell shows the refs as the tick left them. *)
Lemma tick_publishes now v hk :
  stallCount (health (tick config now v hk))
  = stallCountRef (tick config now v hk) /\
  bufferingTime (health (tick config now v hk))
  = totalBufferingTimeRef (tick config now v hk).
Proof.
  unfold tick.
  destruct (stallCondition config (paused v) (currentTime v - lastTimeRef hk)
                           (now - lastCheckRef hk)).
  - destruct (negb (stalledSinceSet (stalledSinceRef hk))); split; reflexivity.
  - destruct (stalledSinceSet (stalledSinceRef hk)
              && JS.gtb (currentTime v - lastTimeRef hk) 0); split; reflexivity.
Qed.

Lemma tick_stalled_inStall now v hk :
  ~ now == 0 ->
  isStalled config now v hk = true ->
  inStall (tick config now v hk) = true.
Proof.
  intros Hnow H. unfold inStall at 1.
  destruct (tick_stalled now v hk H) as [_ [_ ->]].
  destruct (inStall hk) eqn:E; [exact E|].
  cbn. apply truthy_true. exact Hnow.
Qed.

Lemma tick_quiet_inStall now v hk :
  isStalled config now v hk = false ->
  currentTime v - lastTimeRef hk <= 0 ->
  inStall (tick config now v hk) = inStall hk.
Proof.
  intros H Hq. unfold inStall at 1.
  destruct (tick_not_stalled now v hk H) as [_ [_ ->]].
  replace (JS.gtb (currentTime v - lastTimeRef hk) 0) with false
    by (symmetry; apply gtb_false; exact Hq).
  rewrite andb_false_r. reflexivity.
Qed.

Lemma run_cons now v ticks hk :
  run config hk ((now, v) :: ticks) = run config (tick config now v hk) ticks.
Proof. reflexivity. Qed.

(** While the position does not move forward, the stall counter goes up
    once at most: by one if no episode was open and some tick stalled. *)
Lemma quiet_run_counts_once ticks : forall hk,
  Forall (fun t => ~ fst t == 0) ticks ->
  quiet config hk ticks = true ->
  stallCountRef (run config hk ticks)
  = (if negb (inStall hk) && anyStalled config hk ticks
     then (stallCountRef hk + 1)%Z else stallCountRef hk) /\
  totalBufferingTimeRef (run config hk ticks)
  == totalBufferingTimeRef hk + stalledTime config hk ticks.
Proof.
  induction ticks as [|[now v] ticks IH]; intros hk Hnow Hq.
  - cbn. rewrite andb_false_r. split; [reflexivity | lra].
  - inversion Hnow as [|? ? Hn Hrest]; subst. cbn [fst] in Hn.
    cbn [quiet] in Hq. apply andb_true_iff in Hq. destruct Hq as [Hp Hq].
    apply negb_true_iff, gtb_false in Hp.
    rewrite run_cons. destruct (IH _ Hrest Hq) as [IHc IHt].
    rewrite IHc. cbn [anyStalled stalledTime].
    destruct (isStalled config now v hk) eqn:E.
    + rewrite (tick_stalled_inStall now v hk Hn E).
      destruct (tick_stalled now v hk E) as [Hc [Ht _]].
      rewrite Hc. rewrite Ht in IHt. cbn.
      split; [destruct (inStall hk); reflexivity | lra].
    + rewrite (tick_quiet_inStall now v hk E Hp).
      destruct (tick_not_stalled now v hk E) as [Hc [Ht _]].
      rewrite Hc. rewrite Ht in IHt. cbn.
      split; [reflexivity | lra].
Qed.

End HealthStalls.

(** C9, as the specification words it, fails: three seconds after the last
    tick, with the video playing and its position five seconds further back
    than it was (so no forward progress was made), the tick is not a stalled
    one: it counts no stall and adds nothing to the buffering time. *)
Lemma backward_move_is_not_a_stall :
  Health.paused (Health.playingAt 5) = false /\
  Health.currentTime (Health.playingAt 5)
  - Health.lastTimeRef Health.watchingHook <= 0 /\
  Health.stallThreshold Health.defaultConfig
  < 5000 - Health.lastCheckRef Health.watchingHook /\
  Health.isStalled Health.defaultConfig 5000 (Health.playingAt 5)
    Health.watchingHook = false /\
  Health.stallCountRef
    (Health.tick Health.defaultConfig 5000 (Health.playingAt 5)
       Health.watchingHook)
  = Health.stallCountRef Health.watchingHook /\
  Health.totalBufferingTimeRef
    (Health.tick Health.defaultConfig 5000 (Health.playingAt 5)
       Health.watchingHook)
  = Health.totalBufferingTimeRef Health.watchingHook.
Proof.
  repeat split; vm_compute; congruence.
Qed.

(** C9, amended: a tick is a stalled one exactly when the video is not
    paused, currentPosition is where it was at the last tick (a backward
    move is not a stall) and more than stallThreshold has elapsed since the
    last tick.  A stalled tick adds the elapsed time to bufferingTime and
    increments stallCount only if no stall episode was open; any other tick
    changes neither.  Over any run of ticks without forward progress
    stallCount goes up by one if no episode was open and some tick stalled,
    and not at all otherwise, while every stalled tick adds its elapsed
    time.  The episode ends at the first tick that sees forward progress,
    and stays open until then. *)
Theorem stall_detection (config : Health.HealthMonitorConfig) :
  (forall now v hk,
      Health.isStalled config now v hk = true <->
      Health.paused v = false /\
      Health.currentTime v - Health.lastTimeRef hk == 0 /\
      Health.stallThreshold config < now - Health.lastCheckRef hk) /\
  (forall now v hk,
      Health.isStalled config now v hk = true ->
      let hk' := Health.tick config now v hk in
      Health.stallCount (Health.health hk')
      = (if Health.inStall hk then Health.stallCountRef hk
         else (Health.stallCountRef hk + 1)%Z) /\
      Health.bufferingTime (Health.health hk')
      = Health.totalBufferingTimeRef hk + (now - Health.lastCheckRef hk) /\
      (~ now == 0 -> Health.inStall hk' = true)) /\
  (forall now v hk,
      Health.isStalled config now v hk = false ->
      let hk' := Health.tick config now v hk in
      Health.stallCount (Health.health hk') = Health.stallCountRef hk /\
      Health.bufferingTime (Health.health hk')
      = Health.totalBufferingTimeRef hk) /\
  (forall ticks hk,
      Forall (fun t => ~ fst t == 0) ticks ->
      Health.quiet config hk ticks = true ->
      Health.stallCountRef (Health.run config hk ticks)
      = (if negb (Health.inStall hk) && Health.anyStalled config hk ticks
         then (Health.stallCountRef hk + 1)%Z else Health.stallCountRef hk) /\
      Health.totalBufferingTimeRef (Health.run config hk ticks)
      == Health.totalBufferingTimeRef hk
         + Health.stalledTime config hk ticks) /\
  (forall now v hk,
      Health.inStall hk = true ->
      0 < Health.currentTime v - Health.lastTimeRef hk ->
      Health.isStalled config now v hk = false /\
      Health.inStall (Health.tick config now v hk) = false) /\
  (forall now v hk,
      Health.inStall hk = true ->
      Health.currentTime v - Health.lastTimeRef hk <= 0 ->
      Health.inStall (Health.tick config now v hk) = true).
Proof.
  repeat apply conj.
  - apply isStalled_iff.
  - intros now v hk H hk'. subst hk'.
    destruct (tick_publishes config now v hk) as [-> ->].
    destruct (tick_stalled config now v hk H) as [Hc [Ht _]].
    split; [exact Hc|]. split; [exact Ht|].
    intro Hnow. now apply tick_stalled_inStall.
  - intros now v hk H hk'. subst hk'.
    destruct (tick_publishes config now v hk) as [-> ->].
    destruct (tick_not_stalled config now v hk H) as [Hc [Ht _]].
    now split.
  - intros ticks hk. apply quiet_run_counts_once.
  - intros now v hk Hin Hp.
    pose proof (progress_not_stalled config now v hk Hp) as E.
    split; [exact E|]. unfold Health.inStall at 1.
    destruct (tick_not_stalled config now v hk E) as [_ [_ ->]].
    rewrite Hin.
    replace (JS.gtb (Health.currentTime v - Health.lastTimeRef hk) 0)
      with true by (symmetry; apply gtb_true; exact Hp).
    reflexivity.
  - intros now v hk Hin Hq.
    destruct (Health.isStalled config now v hk) eqn:E.
    + unfold Health.inStall at 1.
      destruct (tick_stalled config now v hk E) as [_ [_ ->]].
      rewrite Hin. exact Hin.
    + rewrite (tick_quiet_inStall config now v hk E Hq). exact Hin.
Qed.

Lemma stall_detection_witness :
  Health.stallCount
    (Health.health
       (Health.tick Health.defaultConfig 5000 (Health.playingAt 10)
          Health.watchingHook)) = 1%Z /\
  Health.stallCountRef
    (Health.run Health.defaultConfig Health.watchingHook Health.frozenTicks)
  = 1%Z /\
  Health.inStall
    (Health.tick Health.defaultConfig 11000 (Health.playingAt 13)
       (Health.run Health.defaultConfig Health.watchingHook
          Health.frozenTicks)) = false.
Proof.
  destruct (stall_detection Health.defaultConfig)
    as [_ [Hstalled [_ [Hquiet [Hends _]]]]].
  split; [|split].
  - apply (Hstalled 5000 (Health.playingAt 10) Health.watchingHook).
    reflexivity.
  - apply (Hquiet Health.frozenTicks Health.watchingHook).
    + repeat constructor; cbn; intro H; discriminate H.
    + reflexivity.
  - apply (Hends 11000 (Health.playingAt 13)
             (Health.run Health.defaultConfig Health.watchingHook
                Health.frozenTicks)).
    + reflexivity.
    + vm_compute. reflexivity.
Defined.

(** ** The bandwidth trend *)

Section BandwidthTrend.

Import Bandwidth.

(** The observer only ever records transfers of a positive size. *)
Lemma observeEntry_positive now samples resource :
  positive samples -> positive (observeEntry now samples resource).
Proof.
  intro P. unfold observeEntry.
  destruct (looksLikeMedia resource || JS.gtb (transferSize resource) 10000);
    [|exact P].
  destruct (JS.gtb _ 0) eqn:E; [|exact P].
  apply gtb_true in E.
  apply Forall_forall. intros s Hs.
  apply filter_In in Hs. destruct Hs as [Hs _].
  apply in_app_iff in Hs. destruct Hs as [Hs|[<-|[]]].
  - revert s Hs. apply Forall_forall. exact P.
  - exact E.
Qed.

Lemma step_positive hk e :
  positive (samplesRef hk) -> positive (samplesRef (step hk e)).
Proof.
  intro P. destruct e as [now [entries|]]; cbn [step].
  - cbn [observe samplesRef]. revert P. generalize (samplesRef hk).
    induction entries as [|r entries IH]; intros samples P; [exact P|].
    cbn [fold_left]. apply IH. now apply observeEntry_positive.
  - unfold tick. destruct (Nat.ltb _ 2); exact P.
Qed.

Lemma run_positive es : forall hk,
  positive (samplesRef hk) -> positive (samplesRef (run hk es)).
Proof.
  induction es as [|e es IH]; intros hk P; [exact P|].
  apply IH. now apply step_positive.
Qed.

Lemma fold_bytes_nonneg xs : forall acc,
  positive xs -> 0 <= acc ->
  0 <= fold_left (fun sum s => JS.add sum (bytes s)) xs acc.
Proof.
  induction xs as [|x xs IH]; intros acc P Hacc; [exact Hacc|].
  inversion P; subst. cbn [fold_left]. apply IH; [assumption |].
  apply add_nonneg; lra.
Qed.

Lemma rate_nonneg b span : 0 <= b -> 0 <= rate b span.
Proof.
  intro Hb. unfold rate.
  destruct (JS.gtb span 0) eqn:E; [|lra].
  apply gtb_true in E.
  apply over_nonneg; apply mul_nonneg; lra.
Qed.

Lemma halfRate_nonneg xs : positive xs -> 0 <= halfRate xs.
Proof.
  intro P. apply rate_nonneg. apply fold_bytes_nonneg; [exact P | lra].
Qed.

Lemma halves_positive samples :
  positive samples ->
  positive (oldSamples samples) /\ positive (newSamples samples).
Proof.
  intro P. apply Forall_app.
  unfold oldSamples, newSamples. rewrite firstn_skipn. exact P.
Qed.

Lemma tick_trend now hk :
  (2 <= List.length (samplesRef hk))%nat ->
  trend (bandwidth (tick now hk)) = computeTrend (samplesRef hk).
Proof.
  intro H. unfold tick.
  replace (Nat.ltb (List.length (samplesRef hk)) 2) with false
    by (symmetry; apply Nat.ltb_ge; exact H).
  reflexivity.
Qed.

Lemma computeTrend_few samples :
  (List.length samples < 10)%nat -> computeTrend samples = stable.
Proof.
  intro H. unfold computeTrend.
  replace (Nat.leb 10 (List.length samples)) with false
    by (symmetry; apply Nat.leb_gt; exact H).
  reflexivity.
Qed.

Lemma computeTrend_enough samples :
  (10 <= List.length samples)%nat ->
  positive samples ->
  (computeTrend samples = increasing
   <-> JS.mul (oldRate samples) 1.3 < newRate samples) /\
  (computeTrend samples = decreasing
   <-> newRate samples < JS.mul (oldRate samples) 0.7) /\
  (computeTrend samples = stable
   <-> ~ JS.mul (oldRate samples) 1.3 < newRate samples /\
       ~ newRate samples < JS.mul (oldRate samples) 0.7).
Proof.
  intros H P. unfold computeTrend.
  replace (Nat.leb 10 (List.length samples)) with true
    by (symmetry; apply Nat.leb_le; exact H).
  destruct (halves_positive samples P) as [Pold Pnew].
  pose proof (halfRate_nonneg _ Pold) as Hold.
  fold (oldRate samples) in Hold.
  assert (M : JS.mul (oldRate samples) 0.7 <= JS.mul (oldRate samples) 1.3).
  { apply mul_monotone_r; [exact Hold | lra]. }
  cbv zeta.
  destruct (JS.gtb (newRate samples) (JS.mul (oldRate samples) 1.3)) eqn:Eup;
    [apply gtb_true in Eup | apply gtb_false in Eup].
  - repeat split; intros; try discriminate; try lra.
  - destruct (JS.ltb (newRate samples) (JS.mul (oldRate samples) 0.7))
      eqn:Edown;
      [apply ltb_true in Edown | apply ltb_false in Edown];
      repeat split; intros; try discriminate; try lra.
Qed.

End BandwidthTrend.

(** C8, as the specification words it, fails for the trend the hook
    publishes: after a rising session, forty quiet seconds and one more
    segment, a single sample is retained, the tick publishes nothing, and
    the trend still reads 'increasing'. *)
Lemma stale_trend_with_one_sample :
  (List.length
     (Bandwidth.samplesRef
        (Bandwidth.run Bandwidth.initialHook Bandwidth.quietSession))
   < 10)%nat /\
  Bandwidth.trend
    (Bandwidth.bandwidth
       (Bandwidth.run Bandwidth.initialHook Bandwidth.quietSession))
  <> Bandwidth.stable.
Proof.
  split.
  - vm_compute. lia.
  - vm_compute. discriminate.
Qed.

(** C8, amended: at a tick of any session, with at least 10 retained
    samples the published trend is 'increasing' iff the newer half's rate
    exceeds 1.3 times the older half's, 'decreasing' iff it is below 0.7
    times, and 'stable' otherwise; with 2 to 9 retained samples it is
    'stable'; with fewer than 2 the tick publishes nothing and the trend
    keeps the value it had.  An older half at 2.0 Mbps and a newer half at
    3.0 Mbps classify as 'increasing'.  The rates and the two products are
    the doubles the source computes: an older half at 1.4 Mbps and a newer
    half at 1.82 Mbps classify as 'increasing' too, the product 1.4 * 1.3
    being 1.8199999999999998. *)
Theorem trend_classification (es : list (Q * Bandwidth.Event)) (now : Q) :
  let hk := Bandwidth.run Bandwidth.initialHook es in
  let samples := Bandwidth.samplesRef hk in
  let published := Bandwidth.trend (Bandwidth.bandwidth (Bandwidth.tick now hk)) in
  ((10 <= List.length samples)%nat ->
   (published = Bandwidth.increasing
    <-> JS.mul (Bandwidth.oldRate samples) 1.3 < Bandwidth.newRate samples) /\
   (published = Bandwidth.decreasing
    <-> Bandwidth.newRate samples < JS.mul (Bandwidth.oldRate samples) 0.7) /\
   (published = Bandwidth.stable
    <-> ~ JS.mul (Bandwidth.oldRate samples) 1.3 < Bandwidth.newRate samples /\
        ~ Bandwidth.newRate samples
          < JS.mul (Bandwidth.oldRate samples) 0.7)) /\
  ((2 <= List.length samples < 10)%nat -> published = Bandwidth.stable) /\
  ((List.length samples < 2)%nat -> Bandwidth.tick now hk = hk) /\
  (let rising :=
     Bandwidth.run Bandwidth.initialHook Bandwidth.risingSession in
   Bandwidth.oldRate (Bandwidth.samplesRef rising) == 2 /\
   Bandwidth.newRate (Bandwidth.samplesRef rising) == 3 /\
   Bandwidth.trend (Bandwidth.bandwidth rising) = Bandwidth.increasing) /\
  (let near :=
     Bandwidth.run Bandwidth.initialHook Bandwidth.nearThresholdSession in
   Bandwidth.oldRate (Bandwidth.samplesRef near) = JS.double 1.4 /\
   Bandwidth.newRate (Bandwidth.samplesRef near) = JS.double 1.82 /\
   Bandwidth.trend (Bandwidth.bandwidth near) = Bandwidth.increasing).
Proof.
  intros hk samples published.
  assert (P : Bandwidth.positive samples).
  { apply run_positive. constructor. }
  repeat apply conj.
  - intro H. subst published. rewrite tick_trend by (fold samples; lia).
    now apply computeTrend_enough.
  - intros [H2 H10]. subst published. rewrite tick_trend by exact H2.
    now apply computeTrend_few.
  - intro H. unfold Bandwidth.tick. fold samples.
    replace (Nat.ltb (List.length samples) 2) with true
      by (symmetry; apply Nat.ltb_lt; exact H).
    reflexivity.
  - vm_compute. reflexivity.
  - vm_compute. reflexivity.
  - vm_compute. reflexivity.
  - vm_compute. reflexivity.
  - vm_compute. reflexivity.
  - vm_compute. reflexivity.
Qed.

Lemma trend_classification_witness :
  Bandwidth.trend
    (Bandwidth.bandwidth
       (Bandwidth.tick 1012000
          (Bandwidth.run Bandwidth.initialHook Bandwidth.risingSession)))
  = Bandwidth.increasing /\
  Bandwidth.tick 1054000
    (Bandwidth.run Bandwidth.initialHook Bandwidth.quietSession)
  = Bandwidth.run Bandwidth.initialHook Bandwidth.quietSession.
Proof.
  split.
  - destruct (trend_classification Bandwidth.risingSession 1012000)
      as [Henough _].
    apply Henough.
    + vm_compute. lia.
    + vm_compute. reflexivity.
  - destruct (trend_classification Bandwidth.quietSession 1054000)
      as [_ [_ [Hnone _]]].
    apply Hnone. vm_compute. lia.
Defined.

(** * Further properties of the hooks *)

(** ** The switch gate, other rules *)

Section ABRGateRules.

Import ABR.

(** X1: An upgrade candidate that comes late enough is accepted exactly when
    the buffer has reached bufferTargetUp, the health score is at least 70
    and two ticks have been turned down since the counter was last reset. *)
Theorem upgrade_gate config bl hs bw last stable now cur tgt :
  enabled config = true ->
  minSwitchInterval config <= now - last ->
  bandwidth cur < bandwidth tgt ->
  (should (shouldSwitch config bl hs bw last stable now (Some cur) (Some tgt))
   = true
   <-> bufferTargetUp config <= bl /\ 70 <= hs /\ (2 <= stable)%Z).
Proof.
  intros Hen Hlate Hup.
  unfold shouldSwitch. rewrite Hen. cbv zeta. simpl negb. cbv iota.
  replace (JS.eqb (bandwidth cur) (bandwidth tgt)) with false
    by (symmetry; apply eqb_false; lra).
  js_decide. rewrite !andb_false_r.
  destruct (JS.ltb bl (bufferTargetUp config)) eqn:Eb;
    [apply ltb_true in Eb | apply ltb_false in Eb].
  - split; [discriminate | intros [H _]; lra].
  - destruct (JS.ltb hs 70) eqn:Eh;
      [apply ltb_true in Eh | apply ltb_false in Eh].
    + split; [discriminate | intros [_ [H _]]; lra].
    + destruct (Z.ltb_spec stable 2).
      * split; [discriminate | intros [_ [_ H']]; lia].
      * split; [intros _; repeat split; assumption | reflexivity].
Qed.

Lemma upgrade_gate_witness :
  should (shouldSwitch defaultConfig 10 90 8 0 2 100000
                       (Some rung480) (Some rung720)) = true
  <-> bufferTargetUp defaultConfig <= 10 /\ 70 <= 90 /\ (2 <= 2)%Z.
Proof.
  apply (upgrade_gate defaultConfig 10 90 8 0 2 100000 rung480 rung720).
  - reflexivity.
  - vm_compute. discriminate.
  - vm_compute. reflexivity.
Defined.

(** X2: The gate never accepts with ABR disabled, without a candidate, before
    the interval has elapsed, or for a candidate of the same bandwidth as
    the current quality. *)
Theorem gate_never_accepts config bl hs bw last stable now cur tgt :
  should (shouldSwitch config bl hs bw last stable now cur tgt) = true ->
  enabled config = true /\
  minSwitchInterval config <= now - last /\
  exists target, tgt = Some target /\
    forall current, cur = Some current ->
      ~ bandwidth current == bandwidth target.
Proof.
  intro H.
  pose proof (shouldSwitch_accepts_late _ _ _ _ _ _ _ _ _ H) as Hlate.
  unfold shouldSwitch in H.
  destruct tgt as [target|]; [|discriminate H].
  destruct (enabled config); [|discriminate H].
  split; [reflexivity|]. split; [exact Hlate|].
  exists target. split; [reflexivity|].
  intros current ->. cbv zeta in H. simpl negb in H. cbv iota in H.
  destruct (JS.ltb (now - last) (minSwitchInterval config));
    [discriminate H|].
  destruct (JS.eqb (bandwidth current) (bandwidth target)) eqn:E;
    [discriminate H|].
  now apply eqb_false.
Qed.

Lemma gate_never_accepts_witness :
  enabled defaultConfig = true /\
  minSwitchInterval defaultConfig <= 100000 - 0 /\
  exists target, Some rung720 = Some target /\
    forall current, Some rung480 = Some current ->
      ~ bandwidth current == bandwidth target.
Proof.
  apply (gate_never_accepts defaultConfig 10 90 8 0 2 100000
           (Some rung480) (Some rung720)).
  reflexivity.
Defined.

End ABRGateRules.

(** ** The target bandwidth *)

Section ABRTarget.

Import ABR.

Variable recommendQuality : Q -> list StreamQuality -> option StreamQuality.

Lemma safetyFactor_range h : 0.6 <= safetyFactor h <= 0.9.
Proof.
  unfold safetyFactor.
  destruct (JS.gtb h 80); [split; lra|].
  destruct (JS.gtb h 60); split; lra.
Qed.

Lemma bufferFactor_range config b : 0.7 <= bufferFactor config b <= 1.
Proof.
  unfold bufferFactor.
  destruct (JS.ltb b (bufferTargetDown config)); [split; lra|].
  destruct (JS.ltb b (bufferTargetUp config)); split; lra.
Qed.

(** X3: Whatever the health score, the buffer level and the thresholds of the
    configuration, the ladder is searched with a target that lies between
    the estimate scaled by the two smallest factors (0.6, then 0.7) and the
    estimate scaled by the two largest (0.9, then 1.0), each product being
    the double the source computes; for an estimate of 10 Mbps that is
    between 4.199999999999999 and 9. *)
Theorem target_within_estimate config p :
  enabled config = true ->
  availableQualities p <> [] ->
  0 <= currentBandwidth p ->
  exists target,
    determineOptimalQuality recommendQuality config p
    = recommendQuality target (availableQualities p) /\
    JS.mul (JS.mul (currentBandwidth p) 0.6) 0.7 <= target /\
    target <= JS.mul (JS.mul (currentBandwidth p) 0.9) 1.0.
Proof.
  intros Hen Hq Hbw.
  exists (JS.mul (JS.mul (currentBandwidth p) (safetyFactor (healthScore p)))
                 (bufferFactor config (bufferLevel p))).
  split.
  - unfold determineOptimalQuality. rewrite Hen.
    destruct (availableQualities p); [contradiction | reflexivity].
  - pose proof (safetyFactor_range (healthScore p)) as [S1 S2].
    pose proof (bufferFactor_range config (bufferLevel p)) as [B1 B2].
    set (s := safetyFactor (healthScore p)) in *.
    set (b := bufferFactor config (bufferLevel p)) in *.
    set (bw := currentBandwidth p) in *.
    assert (P : 0 <= JS.mul bw s) by (apply mul_nonneg; lra).
    split.
    + apply Qle_trans with (JS.mul (JS.mul bw s) 0.7).
      * apply mul_monotone_l; [lra|]. apply mul_monotone_r; lra.
      * apply mul_monotone_r; lra.
    + apply Qle_trans with (JS.mul (JS.mul bw s) 1.0).
      * apply mul_monotone_r; lra.
      * apply mul_monotone_l; [lra|]. apply mul_monotone_r; lra.
Qed.

(** An estimate of 10 Mbps with a health score of 50 and one second of
    buffer is searched with the double 4.199999999999999, just below 42% of
    the estimate. *)
Example target_of_ten_mbps :
  JS.mul (JS.mul 10 (safetyFactor 50)) (bufferFactor defaultConfig 1)
  = JS.double 4.199999999999999.
Proof. vm_compute. reflexivity. Qed.

(** X4: With ABR disabled or an empty ladder there is no candidate, and a tick
    changes nothing: no state update, no counter, no timeout. *)
Theorem tick_without_ladder config p bw now hk :
  enabled config = false \/ availableQualities p = [] ->
  determineOptimalQuality recommendQuality config p = None /\
  tick recommendQuality config p bw now hk = hk.
Proof.
  intro H.
  assert (E : determineOptimalQuality recommendQuality config p = None).
  { unfold determineOptimalQuality.
    destruct H as [H|H]; rewrite H; [|reflexivity].
    cbn [negb]. rewrite orb_true_r. reflexivity. }
  split; [exact E|]. unfold tick. rewrite E. reflexivity.
Qed.

End ABRTarget.

Lemma target_within_estimate_witness :
  exists target,
    ABR.determineOptimalQuality ABR.recommendQuality_spec ABR.defaultConfig
      ABR.healthyProps
    = ABR.recommendQuality_spec target ABR.ladder /\
    JS.mul (JS.mul 5 0.6) 0.7 <= target /\
    target <= JS.mul (JS.mul 5 0.9) 1.0.
Proof.
  apply (target_within_estimate ABR.recommendQuality_spec ABR.defaultConfig
           ABR.healthyProps).
  - reflexivity.
  - discriminate.
  - vm_compute. discriminate.
Defined.

Lemma tick_without_ladder_witness :
  ABR.determineOptimalQuality ABR.recommendQuality_spec ABR.defaultConfig
    {| ABR.availableQualities := []; ABR.currentBandwidth := 5;
       ABR.bufferLevel := 10; ABR.healthScore := 90 |} = None /\
  ABR.tick ABR.recommendQuality_spec ABR.defaultConfig
    {| ABR.availableQualities := []; ABR.currentBandwidth := 5;
       ABR.bufferLevel := 10; ABR.healthScore := 90 |} 5 100000
    ABR.initialHook = ABR.initialHook.
Proof.
  apply (tick_without_ladder ABR.recommendQuality_spec ABR.defaultConfig).
  right. reflexivity.
Defined.

(** ** Invariants of ABR sessions *)

Section ABRInvariants.

Import ABR.

Variable recommendQuality : Q -> list StreamQuality -> option StreamQuality.
Variable config : ABRConfig.

Lemma run_waited es : forall hk,
  waited config hk -> waited config (run recommendQuality config hk es).
Proof.
  induction es as [|e es IH]; intros hk W; [exact W|].
  apply IH. now apply step_waited.
Qed.

Lemma clearTimeout_length h ts :
  (List.length (clearTimeout h ts) <= List.length ts)%nat.
Proof. apply filter_length_le. Qed.

Lemma step_one_pending hk e :
  waited config hk ->
  (List.length (pendingTimeouts hk) <= 1)%nat ->
  (List.length (pendingTimeouts (step recommendQuality config hk e)) <= 1)%nat.
Proof.
  intros W L.
  assert (C : clearRef (adaptationTimerRef hk) (pendingTimeouts hk) = []).
  { apply clearRef_owned. intros t Ht. now apply W. }
  destruct e as [now [p bw|h| |q]]; cbn [step].
  - unfold tick.
    destruct (determineOptimalQuality recommendQuality config p); [|exact L].
    match goal with |- context [should ?d] => destruct (should d) end;
      cbn [pendingTimeouts]; rewrite C; cbn; lia.
  - unfold expire.
    destruct (findTimeout h (pendingTimeouts hk)) as [t|]; [|exact L].
    destruct (due t now); [|exact L].
    cbn [commit pendingTimeouts].
    pose proof (clearTimeout_length (handle t) (pendingTimeouts hk)). lia.
  - cbn [cleanup pendingTimeouts]. rewrite C. cbn. lia.
  - exact L.
Qed.

Lemma step_adaptingHasTarget hk e :
  adaptingHasTarget hk ->
  adaptingHasTarget (step recommendQuality config hk e).
Proof.
  unfold adaptingHasTarget. intro A.
  destruct e as [now [p bw|h| |q]]; cbn [step].
  - unfold tick.
    destruct (determineOptimalQuality recommendQuality config p); [|exact A].
    match goal with |- context [should ?d] => destruct (should d) end; cbn;
      split; intro H; try discriminate; try reflexivity; congruence.
  - unfold expire.
    destruct (findTimeout h (pendingTimeouts hk)) as [t|]; [|exact A].
    destruct (due t now); [|exact A].
    cbn. split; intro H; [discriminate | congruence].
  - exact A.
  - cbn. split; intro H; [discriminate | congruence].
Qed.

End ABRInvariants.

(** X5: Throughout every session at most one settle timeout is armed, and the
    state shows a target quality exactly while isAdapting is true. *)
Theorem session_keeps_one_timeout
    (recommendQuality : Q -> list ABR.StreamQuality -> option ABR.StreamQuality)
    (config : ABR.ABRConfig) (es : list (Q * ABR.Event)) :
  let hk := ABR.run recommendQuality config ABR.initialHook es in
  (List.length (ABR.pendingTimeouts hk) <= 1)%nat /\
  (ABR.isAdapting (ABR.abrState hk) = true
   <-> ABR.targetQuality (ABR.abrState hk) <> None).
Proof.
  cbv zeta.
  assert (G : forall es hk,
             ABR.waited config hk ->
             (List.length (ABR.pendingTimeouts hk) <= 1)%nat ->
             ABR.adaptingHasTarget hk ->
             (List.length
                (ABR.pendingTimeouts (ABR.run recommendQuality config hk es))
              <= 1)%nat /\
             ABR.adaptingHasTarget (ABR.run recommendQuality config hk es)).
  { clear es. induction es as [|e es IH]; intros hk W L A; [now split|].
    apply IH.
    - now apply step_waited.
    - now apply step_one_pending.
    - now apply step_adaptingHasTarget. }
  apply G.
  - apply waited_initial.
  - cbn. lia.
  - unfold ABR.adaptingHasTarget. cbn.
    split; intro H; [discriminate H | now elim H].
Qed.

(** ** The settle delay and the hysteresis counter *)

Section ABRSettle.

Import ABR.

Variable recommendQuality : Q -> list StreamQuality -> option StreamQuality.
Variable config : ABRConfig.

Lemma tick_armedAtTick p bw now hk :
  waited config hk ->
  determineOptimalQuality recommendQuality config p <> None ->
  armedAtTick config now (tick recommendQuality config p bw now hk).
Proof.
  intros W Hc. unfold tick.
  destruct (determineOptimalQuality recommendQuality config p) as [q|];
    [|contradiction].
  assert (C : clearRef (adaptationTimerRef hk) (pendingTimeouts hk) = []).
  { apply clearRef_owned. intros t Ht. now apply W. }
  match goal with |- context [should ?d] => destruct (should d) end;
    intros t Ht; cbn [pendingTimeouts] in Ht; rewrite C in Ht.
  - destruct Ht as [<-|[]]. split; reflexivity.
  - destruct Ht.
Qed.

Lemma not_due_before_delay lastTick t now :
  armedAt t = lastTick ->
  delay t = switchThreshold config * 1000 ->
  now < lastTick + Qmax 0 (switchThreshold config * 1000) ->
  due t now = false.
Proof.
  intros Ha Hd Hnow. unfold due. rewrite Ha, Hd.
  destruct (Qle_bool _ now) eqn:E; [|reflexivity].
  apply Qle_bool_iff in E. lra.
Qed.

Lemma rushed_commits_nothing es : forall hk lastTick,
  waited config hk ->
  armedAtTick config lastTick hk ->
  rushed recommendQuality config lastTick es ->
  commitTimes recommendQuality config hk es = [].
Proof.
  induction es as [|[now ev] es IH]; intros hk lastTick W A R; [reflexivity|].
  destruct ev as [p bw|h| |q]; cbn [commitTimes step]; cbn [rushed] in R.
  - destruct R as [Hc R]. apply (IH _ now).
    + now apply tick_waited.
    + now apply tick_armedAtTick.
    + exact R.
  - destruct R as [Hnow R].
    assert (N : commits h now hk = false).
    { unfold commits.
      destruct (findTimeout h (pendingTimeouts hk)) as [t|] eqn:F;
        [|reflexivity].
      apply findTimeout_some in F. destruct F as [Hin _].
      destruct (A t Hin) as [Ha Hd].
      now apply (not_due_before_delay lastTick). }
    rewrite N. destruct (expire_commits h now hk) as [_ Hno].
    rewrite (Hno N). now apply (IH _ lastTick).
  - apply (IH _ lastTick).
    + apply (step_waited recommendQuality config hk (now, Cleanup) W).
    + intros t Ht. cbn [cleanup pendingTimeouts] in Ht.
      rewrite clearRef_owned in Ht; [destruct Ht|].
      intros t' Ht'. now apply W.
    + exact R.
  - apply (IH _ lastTick); [exact W | exact A | exact R].
Qed.

(** An upgrade is never accepted while the stable-tick counter is below
    2, whatever else holds. *)
Lemma upgrade_needs_stability bl hs bw last stable now cur tgt :
  bandwidth cur < bandwidth tgt ->
  (stable < 2)%Z ->
  should (shouldSwitch config bl hs bw last stable now (Some cur) (Some tgt))
  = false.
Proof.
  intros Hup Hs. unfold shouldSwitch.
  destruct (negb (enabled config)); [reflexivity|]. cbv zeta.
  destruct (JS.ltb (now - last) (minSwitchInterval config)); [reflexivity|].
  replace (JS.eqb (bandwidth cur) (bandwidth tgt)) with false
    by (symmetry; apply eqb_false; lra).
  js_decide. rewrite !andb_false_r.
  destruct (JS.ltb bl (bufferTargetUp config)); [reflexivity|].
  destruct (JS.ltb hs 70); [reflexivity|].
  replace (stable <? 2)%Z with true by (symmetry; apply Z.ltb_lt; exact Hs).
  reflexivity.
Qed.

Lemma tick_turns_down_upgrade p bw now hk cur tgt :
  determineOptimalQuality recommendQuality config p = Some tgt ->
  currentQuality (abrState hk) = Some cur ->
  bandwidth cur < bandwidth tgt ->
  (stableCountRef hk < 2)%Z ->
  let hk' := tick recommendQuality config p bw now hk in
  nextHandle hk' = nextHandle hk /\
  isAdapting (abrState hk') = false /\
  currentQuality (abrState hk') = Some cur /\
  stableCountRef hk' = (stableCountRef hk + 1)%Z.
Proof.
  intros Hc Hcur Hup Hs. cbv zeta. unfold tick. rewrite Hc. cbv zeta.
  rewrite Hcur. rewrite upgrade_needs_stability by assumption.
  cbn. repeat split.
Qed.

End ABRSettle.

(** X6: While every tick finds a candidate and ticks follow each other faster
    than the settle delay, each tick cancels the timeout of the one before
    and no switch is ever committed: the switch count stays at 0.  The
    defaults (a tick every 2 s, a settle delay of 3 s) are such a session. *)
Theorem rushed_session_never_switches
    (recommendQuality : Q -> list ABR.StreamQuality -> option ABR.StreamQuality)
    (config : ABR.ABRConfig) (start : Q) (es : list (Q * ABR.Event)) :
  ABR.rushed recommendQuality config start es ->
  ABR.commitTimes recommendQuality config ABR.initialHook es = [] /\
  ABR.switchCountRef (ABR.run recommendQuality config ABR.initialHook es)
  = 0%Z /\
  ABR.switchCount
    (ABR.abrState (ABR.run recommendQuality config ABR.initialHook es))
  = 0%Z.
Proof.
  intro R.
  assert (C : ABR.commitTimes recommendQuality config ABR.initialHook es = []).
  { apply (rushed_commits_nothing recommendQuality config es _ start).
    - apply waited_initial.
    - intros t [].
    - exact R. }
  assert (S : ABR.switchCountRef
                (ABR.run recommendQuality config ABR.initialHook es) = 0%Z).
  { rewrite run_counts_commits, C. reflexivity. }
  split; [exact C|]. split; [exact S|].
  rewrite <- S. apply run_synced. reflexivity.
Qed.

Lemma rushed_session_never_switches_witness :
  ABR.commitTimes ABR.recommendQuality_spec ABR.defaultConfig ABR.initialHook
    ABR.defaultCadenceSession = [] /\
  ABR.switchCountRef
    (ABR.run ABR.recommendQuality_spec ABR.defaultConfig ABR.initialHook
       ABR.defaultCadenceSession) = 0%Z /\
  ABR.switchCount
    (ABR.abrState
       (ABR.run ABR.recommendQuality_spec ABR.defaultConfig ABR.initialHook
          ABR.defaultCadenceSession)) = 0%Z.
Proof.
  apply (rushed_session_never_switches ABR.recommendQuality_spec
           ABR.defaultConfig 0 ABR.defaultCadenceSession).
  cbn [ABR.rushed ABR.defaultCadenceSession].
  repeat split; try (vm_compute; discriminate); vm_compute; reflexivity.
Defined.

(** X7: After a manual override to quality [cur], the next two ticks that find
    a candidate above [cur] are both turned down: no timeout is armed, the
    quality stays [cur], and the stable-tick counter reaches 2. *)
Theorem manual_override_delays_upgrade
    (recommendQuality : Q -> list ABR.StreamQuality -> option ABR.StreamQuality)
    (config : ABR.ABRConfig) (hk : ABR.Hook) (cur tgt1 tgt2 : ABR.StreamQuality)
    (p1 p2 : ABR.Props) (bw1 bw2 now1 now2 : Q) :
  ABR.determineOptimalQuality recommendQuality config p1 = Some tgt1 ->
  ABR.determineOptimalQuality recommendQuality config p2 = Some tgt2 ->
  ABR.bandwidth cur < ABR.bandwidth tgt1 ->
  ABR.bandwidth cur < ABR.bandwidth tgt2 ->
  let hk2 :=
    ABR.tick recommendQuality config p2 bw2 now2
      (ABR.tick recommendQuality config p1 bw1 now1
         (ABR.setManualQuality (Some cur) hk)) in
  ABR.nextHandle hk2 = ABR.nextHandle hk /\
  ABR.isAdapting (ABR.abrState hk2) = false /\
  ABR.currentQuality (ABR.abrState hk2) = Some cur /\
  ABR.stableCountRef hk2 = 2%Z.
Proof.
  intros Hc1 Hc2 Hup1 Hup2. cbv zeta.
  destruct (tick_turns_down_upgrade recommendQuality config p1 bw1 now1
              (ABR.setManualQuality (Some cur) hk) cur tgt1 Hc1 eq_refl Hup1)
    as [N1 [_ [C1 S1]]]; [cbn; lia|].
  destruct (tick_turns_down_upgrade recommendQuality config p2 bw2 now2
              _ cur tgt2 Hc2 C1 Hup2) as [N2 [A2 [C2 S2]]].
  { rewrite S1. cbn. lia. }
  rewrite N2, N1, S2, S1. repeat split; assumption.
Qed.

Lemma manual_override_delays_upgrade_witness :
  ABR.stableCountRef
    (ABR.tick ABR.recommendQuality_spec ABR.defaultConfig ABR.healthyProps 5
       102000
       (ABR.tick ABR.recommendQuality_spec ABR.defaultConfig ABR.healthyProps
          5 100000 (ABR.setManualQuality (Some ABR.rung480) ABR.initialHook)))
  = 2%Z.
Proof.
  apply (manual_override_delays_upgrade ABR.recommendQuality_spec
           ABR.defaultConfig ABR.initialHook ABR.rung480 ABR.rung720
           ABR.rung720 ABR.healthyProps ABR.healthyProps 5 5 100000 102000).
  - reflexivity.
  - reflexivity.
  - vm_compute. reflexivity.
  - vm_compute. reflexivity.
Defined.

(** ** The backoff delay *)

Section RecoveryDelays.

Import Recovery.

Variable config : RetryConfig.


End RecoveryDelays.

(** X8: With a base delay and a ceiling that are not negative, the delay
    before jitter never decreases from one attempt to a later one, never
    exceeds maxDelay, and is maxDelay from the first attempt whose doubled
    delay reaches it. *)
Theorem exponentialDelay_monotone
    (config : Recovery.RetryConfig) (n m : Z) :
  0 <= Recovery.baseDelay config ->
  (n <= m)%Z ->
  Recovery.exponentialDelay config n <= Recovery.exponentialDelay config m /\
  Recovery.exponentialDelay config m <= Recovery.maxDelay config /\
  (Recovery.maxDelay config <= Recovery.baseDelay config * 2 ^ n ->
   Recovery.exponentialDelay config m == Recovery.maxDelay config).
Proof.
  intros Hb Hnm.
  assert (P : 2 ^ n <= 2 ^ m) by (apply Qpower_le_compat_l; [exact Hnm | lra]).
  assert (M : Recovery.baseDelay config * 2 ^ n
              <= Recovery.baseDelay config * 2 ^ m) by nra.
  unfold Recovery.exponentialDelay. split; [|split].
  - apply Q.min_le_compat_r. exact M.
  - apply Q.le_min_r.
  - intro H. apply Q.min_r. lra.
Qed.

Lemma exponentialDelay_monotone_witness :
  Recovery.exponentialDelay Recovery.defaultConfig 3
  <= Recovery.exponentialDelay Recovery.defaultConfig 9 /\
  Recovery.exponentialDelay Recovery.defaultConfig 9
  <= Recovery.maxDelay Recovery.defaultConfig /\
  (Recovery.maxDelay Recovery.defaultConfig
   <= Recovery.baseDelay Recovery.defaultConfig * 2 ^ 3 ->
   Recovery.exponentialDelay Recovery.defaultConfig 9
   == Recovery.maxDelay Recovery.defaultConfig).
Proof.
  apply (exponentialDelay_monotone Recovery.defaultConfig 3 9).
  - vm_compute. discriminate.
  - lia.
Defined.



(** ** Sessions of the recovery hook *)

Section RecoverySessions.

Import Recovery.

Variable config : RetryConfig.

Lemma recordErrors_count calls : forall hk,
  errorCount (errorState (recordErrors config calls hk))
  = (errorCount (errorState hk) + Z.of_nat (List.length calls))%Z.
Proof.
  induction calls as [|[[now random] error] calls IH]; intro hk.
  - cbn. lia.
  - change (recordErrors config ((now, random, error) :: calls) hk)
      with (recordErrors config calls (recordError config now random error hk)).
    rewrite IH. cbn [recordError withState errorState recordErrorState
                     errorCount List.length].
    lia.
Qed.

Lemma truthy_or a b : ~ a == 0 -> JS.or a b = a.
Proof.
  intro H. unfold JS.or.
  replace (JS.truthy a) with true by (symmetry; now apply truthy_true).
  reflexivity.
Qed.

Lemma step_keeps_clock hk now ev :
  ~ recoveryStartTime (errorState hk) == 0 ->
  endsEpisode ev = false ->
  recoveryStartTime (errorState (step config hk (now, ev)))
  = recoveryStartTime (errorState hk).
Proof.
  intros Hset Hev.
  destruct ev as [random error|rendered|h|h [|err]| |]; try discriminate Hev;
    cbn [step].
  - cbn. now apply truthy_or.
  - unfold attemptRecovery. cbv zeta.
    destruct (errorCount rendered >=? maxRetries config)%Z; [reflexivity|].
    destruct (JS.gtb _ (globalTimeout config)); [reflexivity|].
    cbn. now apply truthy_or.
  - unfold expires.
    destruct (findTimeout h (pendingTimeouts hk)) as [t|]; [|reflexivity].
    destruct (callback t); reflexivity.
  - reflexivity.
  - reflexivity.
Qed.

Lemma clearTimeout_filter_length f h ts :
  (List.length (filter f (clearTimeout h ts)) <= List.length (filter f ts))%nat.
Proof.
  unfold clearTimeout. induction ts as [|t ts IH]; [reflexivity|].
  cbn [filter]. destruct (negb (handle t =? h)%nat); cbn [filter];
    destruct (f t); cbn [List.length]; lia.
Qed.

Lemma clearTimeout_tidy h hk pending' :
  tidy hk ->
  pending' = clearTimeout h (pendingTimeouts hk) ->
  tidy {| errorState := errorState hk;
          retryTimeoutRef := retryTimeoutRef hk;
          globalTimeoutRef := globalTimeoutRef hk;
          pendingTimeouts := pending';
          nextHandle := nextHandle hk |}.
Proof.
  intros [O [R G]] ->. split; [|split]; cbn [pendingTimeouts retryTimeoutRef
                                              globalTimeoutRef].
  - intros t Ht. apply clearTimeout_incl in Ht. now apply O.
  - pose proof (clearTimeout_filter_length isRetry h (pendingTimeouts hk)). lia.
  - pose proof (clearTimeout_filter_length isGuard h (pendingTimeouts hk)). lia.
Qed.

(** Clearing both refs of a tidy hook leaves no timeout armed. *)
Lemma tidy_cleared hk :
  tidy hk ->
  clearRef (globalTimeoutRef hk)
    (clearRef (retryTimeoutRef hk) (pendingTimeouts hk)) = [].
Proof.
  intros [O _].
  destruct (clearRef (globalTimeoutRef hk)
              (clearRef (retryTimeoutRef hk) (pendingTimeouts hk)))
    as [|t rest] eqn:E; [reflexivity|].
  exfalso.
  assert (Hin : In t (clearRef (globalTimeoutRef hk)
                        (clearRef (retryTimeoutRef hk) (pendingTimeouts hk))))
    by (rewrite E; now left).
  assert (H0 : In t (pendingTimeouts hk)).
  { apply clearRef_incl in Hin. now apply clearRef_incl in Hin. }
  specialize (O t H0).
  destruct (isRetry t).
  - apply clearRef_incl in Hin. rewrite O in Hin. cbn in Hin.
    apply filter_In in Hin. destruct Hin as [_ Hin].
    rewrite Nat.eqb_refl in Hin. discriminate Hin.
  - rewrite O in Hin. cbn [clearRef] in Hin.
    apply filter_In in Hin. destruct Hin as [_ Hin].
    rewrite Nat.eqb_refl in Hin. discriminate Hin.
Qed.

Lemma tidy_guards_cleared h hk :
  tidy hk ->
  filter isGuard
    (clearRef (globalTimeoutRef hk) (clearTimeout h (pendingTimeouts hk))) = [].
Proof.
  intros [O _].
  destruct (filter isGuard _) as [|t rest] eqn:E; [reflexivity|].
  exfalso.
  assert (Hin : In t (filter isGuard
                        (clearRef (globalTimeoutRef hk)
                           (clearTimeout h (pendingTimeouts hk)))))
    by (rewrite E; now left).
  apply filter_In in Hin. destruct Hin as [Hin Hg].
  assert (H0 : In t (pendingTimeouts hk)).
  { apply clearRef_incl in Hin. now apply clearTimeout_incl in Hin. }
  specialize (O t H0). unfold isGuard in Hg.
  destruct (isRetry t); [discriminate Hg|].
  rewrite O in Hin. cbn [clearRef] in Hin.
  apply filter_In in Hin. destruct Hin as [_ Hin].
  rewrite Nat.eqb_refl in Hin. discriminate Hin.
Qed.

Lemma retryFires_tidy h result hk :
  tidy hk -> tidy (fst (retryFires config h result hk)).
Proof.
  intro T. pose proof (tidy_guards_cleared h hk T) as G.
  destruct T as [O [R _]].
  assert (X : tidy {| errorState := errorState hk;
                      retryTimeoutRef := retryTimeoutRef hk;
                      globalTimeoutRef := None;
                      pendingTimeouts :=
                        clearRef (globalTimeoutRef hk)
                          (clearTimeout h (pendingTimeouts hk));
                      nextHandle := nextHandle hk |}).
  { split; [|split]; cbn [pendingTimeouts retryTimeoutRef globalTimeoutRef].
    - intros t Ht.
      assert (Hg : isGuard t = false).
      { destruct (isGuard t) eqn:Eg; [|reflexivity].
        assert (Hf : In t (filter isGuard
                             (clearRef (globalTimeoutRef hk)
                                (clearTimeout h (pendingTimeouts hk)))))
          by (apply filter_In; now split).
        rewrite G in Hf. destruct Hf. }
      unfold isGuard in Hg. apply negb_false_iff in Hg.
      apply clearRef_incl, clearTimeout_incl in Ht.
      specialize (O t Ht). rewrite Hg in *. exact O.
    - assert (L : (List.length
                     (filter isRetry
                        (clearRef (globalTimeoutRef hk)
                           (clearTimeout h (pendingTimeouts hk))))
                   <= List.length
                        (filter isRetry (clearTimeout h (pendingTimeouts hk))))%nat).
      { destruct (globalTimeoutRef hk); [|reflexivity].
        apply clearTimeout_filter_length. }
      pose proof (clearTimeout_filter_length isRetry h (pendingTimeouts hk)).
      lia.
    - rewrite G. cbn. lia. }
  destruct result as [|err]; cbn [retryFires fst];
    destruct X as [X1 [X2 X3]]; split; try split; assumption.
Qed.

Lemma step_tidy hk e : tidy hk -> tidy (step config hk e).
Proof.
  intro T.
  destruct e as [now [random error|rendered|h|h result| |]]; cbn [step].
  - exact T.
  - unfold attemptRecovery. cbv zeta.
    destruct (errorCount rendered >=? maxRetries config)%Z; [exact T|].
    destruct (JS.gtb _ (globalTimeout config)); [exact T|].
    cbn [fst]. rewrite (tidy_cleared hk T).
    split; [|split]; cbn.
    + intros t [<-|[<-|[]]]; reflexivity.
    + lia.
    + lia.
  - unfold expires.
    destruct (findTimeout h (pendingTimeouts hk)) as [t|]; [|exact T].
    destruct (callback t).
    + cbn [globalGuardFires fst].
      now apply (clearTimeout_tidy h
                   {| errorState := failWith "Timeout global" (errorState hk);
                      retryTimeoutRef := retryTimeoutRef hk;
                      globalTimeoutRef := globalTimeoutRef hk;
                      pendingTimeouts := pendingTimeouts hk;
                      nextHandle := nextHandle hk |}).
    + now apply (clearTimeout_tidy h hk).
  - now apply retryFires_tidy.
  - unfold reset. rewrite (tidy_cleared hk T).
    split; [|split]; cbn; [intros t [] | lia | lia].
  - unfold forceStop. rewrite (tidy_cleared hk T).
    split; [|split]; cbn; [intros t [] | lia | lia].
Qed.

Lemma run_tidy es : forall hk, tidy hk -> tidy (run config hk es).
Proof.
  induction es as [|e es IH]; intros hk T; [exact T|].
  apply IH. now apply step_tidy.
Qed.

Lemma initial_tidy : tidy (initialHook config).
Proof.
  split; [|split]; cbn; [intros t [] | lia | lia].
Qed.

End RecoverySessions.

(** X10: From a fresh hook, the error count is the number of errors recorded;
    canRetry holds exactly while that number is below maxRetries, and from
    then on the attemptRecovery of a render that shows this state is
    rejected at once. *)
Theorem errors_until_exhausted
    (config : Recovery.RetryConfig) (calls : list (Q * Q * string)) :
  let hk := Recovery.recordErrors config calls (Recovery.initialHook config) in
  Recovery.errorCount (Recovery.errorState hk)
  = Z.of_nat (List.length calls) /\
  (Recovery.canRetry config hk = true
   <-> (Z.of_nat (List.length calls) < Recovery.maxRetries config)%Z) /\
  ((Recovery.maxRetries config <= Z.of_nat (List.length calls))%Z ->
   forall now,
     Recovery.refusedOutright hk
       (Recovery.attemptRecovery config now (Recovery.errorState hk) hk)).
Proof.
  cbv zeta.
  assert (C : Recovery.errorCount
                (Recovery.errorState
                   (Recovery.recordErrors config calls
                      (Recovery.initialHook config)))
              = Z.of_nat (List.length calls)).
  { rewrite recordErrors_count. cbn. lia. }
  split; [exact C|]. split.
  - unfold Recovery.canRetry. rewrite C. apply Z.ltb_lt.
  - intros H now. rewrite attemptRecovery_exhausted by (rewrite C; exact H).
    apply refusedOutright_intro.
Qed.

Lemma errors_until_exhausted_witness :
  Recovery.refusedOutright Recovery.exhaustedHook
    (Recovery.attemptRecovery Recovery.defaultConfig 7000
       (Recovery.errorState Recovery.exhaustedHook) Recovery.exhaustedHook).
Proof.
  destruct (errors_until_exhausted Recovery.defaultConfig
              [(1000, 0, "a"%string); (2000, 1 # 2, "b"%string);
               (3000, 1 # 3, "c"%string); (4000, 9 # 10, "d"%string);
               (5000, 999 # 1000, "e"%string)]) as [_ [_ H]].
  apply H. vm_compute. discriminate.
Defined.

(** X11: The episode clock is started by the first error and by nothing after
    it: once recoveryStartTime is set, later errors, attempts, expiring
    timeouts, failed recoveries and forced stops leave it where it is; only
    a successful recovery or a reset clears it. *)
Theorem episode_clock_kept
    (config : Recovery.RetryConfig) (es : list (Q * Recovery.Event))
    (hk : Recovery.Hook) :
  ~ Recovery.recoveryStartTime (Recovery.errorState hk) == 0 ->
  forallb (fun e => negb (Recovery.endsEpisode (snd e))) es = true ->
  Recovery.recoveryStartTime
    (Recovery.errorState (Recovery.run config hk es))
  = Recovery.recoveryStartTime (Recovery.errorState hk).
Proof.
  revert hk. induction es as [|[now ev] es IH]; intros hk Hset Hall;
    [reflexivity|].
  cbn [forallb snd] in Hall. apply andb_true_iff in Hall.
  destruct Hall as [Hev Hall]. apply negb_true_iff in Hev.
  pose proof (step_keeps_clock config hk now ev Hset Hev) as K.
  change (Recovery.run config hk ((now, ev) :: es))
    with (Recovery.run config (Recovery.step config hk (now, ev)) es).
  rewrite IH; [exact K | rewrite K; exact Hset | exact Hall].
Qed.

Lemma episode_clock_kept_witness :
  Recovery.recoveryStartTime
    (Recovery.errorState
       (Recovery.run Recovery.defaultConfig Recovery.oneErrorHook
          (tl Recovery.failingSession)))
  = 1000.
Proof.
  apply (episode_clock_kept Recovery.defaultConfig
           (tl Recovery.failingSession) Recovery.oneErrorHook).
  - vm_compute. discriminate.
  - reflexivity.
Defined.

(** X12: Throughout every session the hook holds at most one retry timeout and
    one global guard, so at most two timeouts in all, each the one its ref
    points to; reset and forceStop therefore leave no timeout armed. *)
Theorem recovery_timeouts_tidy
    (config : Recovery.RetryConfig) (es : list (Q * Recovery.Event)) :
  let hk := Recovery.run config (Recovery.initialHook config) es in
  Recovery.tidy hk /\
  (List.length (Recovery.pendingTimeouts hk) <= 2)%nat /\
  Recovery.pendingTimeouts (Recovery.reset config hk) = [] /\
  Recovery.pendingTimeouts (Recovery.forceStop hk) = [].
Proof.
  cbv zeta.
  assert (T : Recovery.tidy
                (Recovery.run config (Recovery.initialHook config) es)).
  { apply run_tidy. apply initial_tidy. }
  split; [exact T|]. split; [|split].
  - destruct T as [_ [R G]].
    rewrite <- (filter_length Recovery.isRetry). unfold Recovery.isGuard in G.
    lia.
  - apply (tidy_cleared _ T).
  - apply (tidy_cleared _ T).
Qed.

(** X13: Called by a render whose state is below both ceilings,
    attemptRecovery in any state of a session leaves exactly two timeouts
    armed: the recovery function after the nextRetryDelay that render
    shows, and the guard after globalTimeout; whatever was armed before is
    cancelled, and the state cell keeps its error count, its last error and
    its stored delay. *)
Theorem attemptRecovery_arms_two
    (config : Recovery.RetryConfig) (es : list (Q * Recovery.Event)) (now : Q)
    (rendered : Recovery.ErrorState) :
  let hk := Recovery.run config (Recovery.initialHook config) es in
  let r := Recovery.attemptRecovery config now rendered hk in
  (Recovery.errorCount rendered < Recovery.maxRetries config)%Z ->
  now - JS.or (Recovery.recoveryStartTime rendered) now
  <= Recovery.globalTimeout config ->
  snd r = Recovery.Pending /\
  Recovery.isRecovering (Recovery.errorState (fst r)) = true /\
  Recovery.pendingTimeouts (fst r)
  = [ {| Recovery.handle := S (Recovery.nextHandle hk);
         Recovery.delay := Recovery.nextRetryDelay rendered;
         Recovery.callback := Recovery.RunRecovery |};
      {| Recovery.handle := Recovery.nextHandle hk;
         Recovery.delay := Recovery.globalTimeout config;
         Recovery.callback := Recovery.GlobalGuard |} ] /\
  Recovery.errorCount (Recovery.errorState (fst r))
  = Recovery.errorCount (Recovery.errorState hk) /\
  Recovery.lastError (Recovery.errorState (fst r))
  = Recovery.lastError (Recovery.errorState hk) /\
  Recovery.nextRetryDelay (Recovery.errorState (fst r))
  = Recovery.nextRetryDelay (Recovery.errorState hk).
Proof.
  cbv zeta. intros Hc Ht.
  assert (T : Recovery.tidy
                (Recovery.run config (Recovery.initialHook config) es)).
  { apply run_tidy. apply initial_tidy. }
  unfold Recovery.attemptRecovery. cbv zeta.
  replace (_ >=? Recovery.maxRetries config)%Z with false
    by (symmetry; apply geb_false; exact Hc).
  replace (JS.gtb _ (Recovery.globalTimeout config))
    with false by (symmetry; apply gtb_false; exact Ht).
  cbn [fst snd Recovery.pendingTimeouts Recovery.errorState
       Recovery.isRecovering Recovery.errorCount Recovery.lastError
       Recovery.nextRetryDelay].
  rewrite (tidy_cleared _ T). repeat split.
Qed.

Lemma attemptRecovery_arms_two_witness :
  Recovery.pendingTimeouts
    (fst (Recovery.attemptRecovery Recovery.defaultConfig 1320
            (Recovery.errorState
               (Recovery.run Recovery.defaultConfig
                  (Recovery.initialHook Recovery.defaultConfig)
                  Recovery.failingStart))
            (Recovery.run Recovery.defaultConfig
               (Recovery.initialHook Recovery.defaultConfig)
               Recovery.failingStart)))
  = [ {| Recovery.handle := 3;
         Recovery.delay := 425;
         Recovery.callback := Recovery.RunRecovery |};
      {| Recovery.handle := 2;
         Recovery.delay := 30000;
         Recovery.callback := Recovery.GlobalGuard |} ].
Proof.
  apply (attemptRecovery_arms_two Recovery.defaultConfig
           Recovery.failingStart 1320
           (Recovery.errorState
              (Recovery.run Recovery.defaultConfig
                 (Recovery.initialHook Recovery.defaultConfig)
                 Recovery.failingStart))).
  - vm_compute. reflexivity.
  - vm_compute. discriminate.
Defined.

(** X14: reset and forceStop are idempotent; reset returns the error state to
    its initial value whatever it was, forceStop keeps the error count, the
    last error, the stored delay and the episode clock and only drops the
    recovering flag; both forget the timeout handles. *)
Theorem reset_and_forceStop
    (config : Recovery.RetryConfig) (hk : Recovery.Hook) :
  Recovery.reset config (Recovery.reset config hk) = Recovery.reset config hk /\
  Recovery.forceStop (Recovery.forceStop hk) = Recovery.forceStop hk /\
  Recovery.errorState (Recovery.reset config hk)
  = Recovery.initialState config /\
  Recovery.errorState (Recovery.forceStop hk)
  = Recovery.stopRecovering (Recovery.errorState hk) /\
  Recovery.errorCount (Recovery.errorState (Recovery.forceStop hk))
  = Recovery.errorCount (Recovery.errorState hk) /\
  Recovery.canRetry config (Recovery.forceStop hk)
  = Recovery.canRetry config hk /\
  Recovery.reset config (Recovery.forceStop hk) = Recovery.reset config hk.
Proof.
  repeat split.
Qed.

(** ** The health score, under any configuration *)

Section HealthScoreAnyConfig.

Import Health.

Variable config : HealthMonitorConfig.

Lemma calculateScore_sum since b d s bt :
  calculateScore config since b d s bt
  = clamp 0 100
      (100 - bufferDeductionWith config b - dropDeduction d
       - stallDeduction s - ratioDeduction (JS.div bt since)).
Proof.
  unfold calculateScore, clamp, bufferDeductionWith, dropDeduction,
    stallDeduction, ratioDeduction.
  destruct (JS.ltb b 0.5), (JS.ltb b (criticalBufferLevel config)),
    (JS.ltb b (warningBufferLevel config)), (JS.ltb b 5),
    (JS.gtb d 5), (JS.gtb d 2), (JS.gtb d 0.5),
    (s >? 8)%Z, (s >? 4)%Z, (s >? 1)%Z,
    (JS.quotient_gtb (JS.div bt since) 0.3),
    (JS.quotient_gtb (JS.div bt since) 0.15);
    reflexivity.
Qed.

Lemma bufferDeduction_range b : (0 <= bufferDeductionWith config b <= 40)%Z.
Proof.
  unfold bufferDeductionWith.
  destruct (JS.ltb b 0.5), (JS.ltb b (criticalBufferLevel config)),
    (JS.ltb b (warningBufferLevel config)), (JS.ltb b 5); lia.
Qed.

Lemma bufferDeduction_antitone b1 b2 :
  b1 <= b2 ->
  (bufferDeductionWith config b2 <= bufferDeductionWith config b1)%Z.
Proof.
  intro H. pose proof (bufferDeduction_range b2) as R.
  unfold bufferDeductionWith in *.
  destruct (JS.ltb b1 0.5) eqn:E1; [lia|]. apply ltb_false in E1.
  replace (JS.ltb b2 0.5) with false by (symmetry; apply ltb_false; lra).
  destruct (JS.ltb b1 (criticalBufferLevel config)) eqn:E2.
  { destruct (JS.ltb b2 (criticalBufferLevel config)),
      (JS.ltb b2 (warningBufferLevel config)), (JS.ltb b2 5); lia. }
  apply ltb_false in E2.
  replace (JS.ltb b2 (criticalBufferLevel config)) with false
    by (symmetry; apply ltb_false; lra).
  destruct (JS.ltb b1 (warningBufferLevel config)) eqn:E3.
  { destruct (JS.ltb b2 (warningBufferLevel config)), (JS.ltb b2 5); lia. }
  apply ltb_false in E3.
  replace (JS.ltb b2 (warningBufferLevel config)) with false
    by (symmetry; apply ltb_false; lra).
  destruct (JS.ltb b1 5) eqn:E4.
  { destruct (JS.ltb b2 5); lia. }
  apply ltb_false in E4.
  replace (JS.ltb b2 5) with false by (symmetry; apply ltb_false; lra).
  lia.
Qed.

Lemma dropDeduction_monotone d1 d2 :
  d1 <= d2 -> (dropDeduction d1 <= dropDeduction d2)%Z.
Proof.
  intro H. unfold dropDeduction.
  destruct (JS.gtb d1 5) eqn:E1.
  { apply gtb_true in E1.
    replace (JS.gtb d2 5) with true by (symmetry; apply gtb_true; lra). lia. }
  destruct (JS.gtb d1 2) eqn:E2.
  { apply gtb_true in E2.
    replace (JS.gtb d2 2) with true by (symmetry; apply gtb_true; lra).
    destruct (JS.gtb d2 5); lia. }
  destruct (JS.gtb d1 0.5) eqn:E3.
  { apply gtb_true in E3.
    replace (JS.gtb d2 0.5) with true by (symmetry; apply gtb_true; lra).
    destruct (JS.gtb d2 5), (JS.gtb d2 2); lia. }
  destruct (JS.gtb d2 5), (JS.gtb d2 2), (JS.gtb d2 0.5); lia.
Qed.

Lemma stallDeduction_monotone s1 s2 :
  (s1 <= s2)%Z -> (stallDeduction s1 <= stallDeduction s2)%Z.
Proof.
  intro H. unfold stallDeduction.
  destruct (Z.gtb_spec s1 8), (Z.gtb_spec s1 4), (Z.gtb_spec s1 1),
    (Z.gtb_spec s2 8), (Z.gtb_spec s2 4), (Z.gtb_spec s2 1); lia.
Qed.

Lemma quotient_gtb_div_monotone t1 t2 since c :
  0 <= since -> t1 <= t2 ->
  JS.quotient_gtb (JS.div t1 since) c = true ->
  JS.quotient_gtb (JS.div t2 since) c = true.
Proof.
  intros Hs Ht. unfold JS.div.
  pose proof (double_monotone t1 t2 Ht) as Hd.
  pose proof (double_nonneg since Hs) as Hn.
  destruct (Qeq_bool (JS.double since) 0) eqn:E.
  - destruct (JS.ltb 0 (JS.double t1)) eqn:E1.
    + apply ltb_true in E1.
      replace (JS.ltb 0 (JS.double t2)) with true
        by (symmetry; apply ltb_true; lra).
      reflexivity.
    + destruct (JS.ltb (JS.double t1) 0); discriminate.
  - cbn [JS.quotient_gtb]. rewrite !gtb_true.
    assert (Hpos : 0 < JS.double since).
    { destruct (Qlt_le_dec 0 (JS.double since)) as [L|L]; [exact L|].
      assert (Z0 : JS.double since == 0) by lra.
      apply Qeq_bool_iff in Z0. congruence. }
    intro H. eapply Qlt_le_trans; [exact H|].
    apply double_monotone.
    apply Qle_shift_div_l; [exact Hpos|].
    unfold Qdiv. rewrite <- Qmult_assoc, (Qmult_comm (/ _)).
    rewrite Qmult_inv_r by lra. lra.
Qed.

Lemma ratioDeduction_monotone t1 t2 since :
  0 <= since -> t1 <= t2 ->
  (ratioDeduction (JS.div t1 since) <= ratioDeduction (JS.div t2 since))%Z.
Proof.
  intros Hs Ht. unfold ratioDeduction.
  pose proof (quotient_gtb_div_monotone t1 t2 since 0.3 Hs Ht) as H3.
  pose proof (quotient_gtb_div_monotone t1 t2 since 0.15 Hs Ht) as H15.
  destruct (JS.quotient_gtb (JS.div t1 since) 0.3).
  { rewrite H3 by reflexivity. lia. }
  destruct (JS.quotient_gtb (JS.div t1 since) 0.15).
  { rewrite H15 by reflexivity.
    destruct (JS.quotient_gtb (JS.div t2 since) 0.3); lia. }
  destruct (JS.quotient_gtb (JS.div t2 since) 0.3),
    (JS.quotient_gtb (JS.div t2 since) 0.15); lia.
Qed.

End HealthScoreAnyConfig.

(** X15: With a clock that has not gone backwards since the last tick, the
    score never goes down when the buffer is fuller, and never goes up when
    the drop rate, the stall count or the buffering time is higher. *)
Theorem calculateScore_monotone
    (config : Health.HealthMonitorConfig) (sinceLastCheck : Q)
    (b1 b2 d1 d2 : Q) (s1 s2 : Z) (t1 t2 : Q) :
  0 <= sinceLastCheck ->
  b1 <= b2 -> d2 <= d1 -> (s2 <= s1)%Z -> t2 <= t1 ->
  (Health.calculateScore config sinceLastCheck b1 d1 s1 t1
   <= Health.calculateScore config sinceLastCheck b2 d2 s2 t2)%Z.
Proof.
  intros Hs Hb Hd Hst Ht.
  rewrite !calculateScore_sum. unfold Health.clamp.
  pose proof (bufferDeduction_antitone config b1 b2 Hb).
  pose proof (dropDeduction_monotone d2 d1 Hd).
  pose proof (stallDeduction_monotone s2 s1 Hst).
  pose proof (ratioDeduction_monotone t2 t1 sinceLastCheck Hs Ht).
  lia.
Qed.

Lemma calculateScore_monotone_witness :
  (Health.calculateScore Health.defaultConfig 1000 0.3 6 9 400
   <= Health.calculateScore Health.defaultConfig 1000 6 1 2 100)%Z.
Proof.
  apply (calculateScore_monotone Health.defaultConfig 1000);
    vm_compute; congruence.
Defined.

(** X16: Whatever the configuration and the other measurements, a tick that
    measures a buffer level below half a second (0 when there is no
    buffered range, else the buffered end minus the position, as doubles)
    scores at most 60 and never reports the level excellent. *)
Theorem short_buffer_caps_score
    (config : Health.HealthMonitorConfig) (now : Q) (v : Health.Video)
    (hk : Health.Hook) :
  Health.bufferLevelOf v < 0.5 ->
  (Health.score (Health.health (Health.tick config now v hk)) <= 60)%Z /\
  Health.level (Health.health (Health.tick config now v hk))
  <> Health.excellent.
Proof.
  intro B.
  assert (S : (Health.score (Health.health (Health.tick config now v hk))
               <= 60)%Z).
  { rewrite tick_score, calculateScore_sum.
    unfold Health.bufferDeductionWith, Health.clamp.
    replace (JS.ltb (Health.bufferLevelOf v) 0.5) with true
      by (symmetry; now apply ltb_true).
    unfold Health.dropDeduction, Health.stallDeduction, Health.ratioDeduction.
    repeat match goal with
           | |- context [if ?c then _ else _] => destruct c
           end; lia. }
  split; [exact S|].
  rewrite tick_level. intro E. apply levelOf_cases in E. lia.
Qed.

Lemma short_buffer_caps_score_witness :
  (Health.score
     (Health.health
        (Health.tick Health.defaultConfig 2000
           {| Health.currentTime := 10; Health.paused := false;
              Health.bufferedEnd := Some 10.25%Q;
              Health.playbackQuality := None |}
           (Health.initialHook 1000))) <= 60)%Z /\
  (Health.score
     (Health.health
        (Health.tick Health.defaultConfig 2000
           {| Health.currentTime := 10; Health.paused := false;
              Health.bufferedEnd := None;
              Health.playbackQuality := None |}
           (Health.initialHook 1000))) <= 60)%Z.
Proof.
  split.
  - apply (short_buffer_caps_score Health.defaultConfig 2000
             {| Health.currentTime := 10; Health.paused := false;
                Health.bufferedEnd := Some 10.25%Q;
                Health.playbackQuality := None |}
             (Health.initialHook 1000)).
    vm_compute. reflexivity.
  - apply (short_buffer_caps_score Health.defaultConfig 2000
             {| Health.currentTime := 10; Health.paused := false;
                Health.bufferedEnd := None;
                Health.playbackQuality := None |}
             (Health.initialHook 1000)).
    vm_compute. reflexivity.
Defined.

(** X17: A playback-quality report with no frames counted is treated as no
    report at all: the tick does not divide by the frame count and ends in
    the same state as without the report. *)
Theorem no_frames_no_drop_rate
    (config : Health.HealthMonitorConfig) (now : Q) (hk : Health.Hook)
    (currentTime : Q) (paused : bool) (bufferedEnd : option Q)
    (dropped total : Q) :
  total <= 0 ->
  Health.tick config now
    {| Health.currentTime := currentTime; Health.paused := paused;
       Health.bufferedEnd := bufferedEnd;
       Health.playbackQuality := Some (dropped, total) |} hk
  = Health.tick config now
      {| Health.currentTime := currentTime; Health.paused := paused;
         Health.bufferedEnd := bufferedEnd;
         Health.playbackQuality := None |} hk.
Proof.
  intro H. unfold Health.tick. cbn [Health.playbackQuality].
  replace (JS.gtb total 0) with false by (symmetry; now apply gtb_false).
  reflexivity.
Qed.

Lemma no_frames_no_drop_rate_witness :
  Health.tick Health.defaultConfig 2000
    {| Health.currentTime := 10; Health.paused := false;
       Health.bufferedEnd := Some 20;
       Health.playbackQuality := Some (0, 0) |} (Health.initialHook 1000)
  = Health.tick Health.defaultConfig 2000
      {| Health.currentTime := 10; Health.paused := false;
         Health.bufferedEnd := Some 20;
         Health.playbackQuality := None |} (Health.initialHook 1000).
Proof.
  apply (no_frames_no_drop_rate Health.defaultConfig 2000
           (Health.initialHook 1000) 10 false (Some 20) 0 0).
  vm_compute. discriminate.
Defined.

(** ** Runs of the health monitor *)

Section HealthRuns.

Import Health.

Variable config : HealthMonitorConfig.

Lemma tick_lastCheckRef now v hk : lastCheckRef (tick config now v hk) = now.
Proof.
  unfold tick.
  destruct (stallCondition config (paused v) (currentTime v - lastTimeRef hk)
                           (now - lastCheckRef hk)).
  - destruct (negb (stalledSinceSet (stalledSinceRef hk))); reflexivity.
  - destruct (stalledSinceSet (stalledSinceRef hk)
              && JS.gtb (currentTime v - lastTimeRef hk) 0); reflexivity.
Qed.

Lemma punctual_not_stalled now v hk :
  now - lastCheckRef hk <= stallThreshold config ->
  isStalled config now v hk = false.
Proof.
  intro H. destruct (isStalled config now v hk) eqn:E; [|reflexivity].
  apply isStalled_iff in E. destruct E as [_ [_ E]]. lra.
Qed.

Lemma punctual_run_counts_nothing ticks : forall hk,
  punctual (stallThreshold config) (lastCheckRef hk) ticks ->
  stallCountRef (run config hk ticks) = stallCountRef hk /\
  totalBufferingTimeRef (run config hk ticks) = totalBufferingTimeRef hk.
Proof.
  induction ticks as [|[now v] ticks IH]; intros hk P; [now split|].
  cbn [punctual] in P. destruct P as [Hnow P].
  rewrite run_cons.
  pose proof (punctual_not_stalled now v hk Hnow) as N.
  destruct (tick_not_stalled config now v hk N) as [Hc [Ht _]].
  rewrite <- (tick_lastCheckRef now v hk) in P.
  destruct (IH _ P) as [IHc IHt]. rewrite IHc, IHt. now split.
Qed.

Lemma run_counters_grow ticks : forall hk,
  (stallCountRef hk <= stallCountRef (run config hk ticks))%Z /\
  (0 <= stallThreshold config ->
   totalBufferingTimeRef hk <= totalBufferingTimeRef (run config hk ticks)).
Proof.
  induction ticks as [|[now v] ticks IH]; intro hk.
  - cbn. split; [lia | intros _; lra].
  - rewrite run_cons. destruct (IH (tick config now v hk)) as [IHc IHt].
    destruct (isStalled config now v hk) eqn:E.
    + destruct (tick_stalled config now v hk E) as [Hc [Ht _]].
      apply isStalled_iff in E. destruct E as [_ [_ E]].
      split.
      * rewrite Hc in IHc. destruct (inStall hk); lia.
      * intro H0. specialize (IHt H0). rewrite Ht in IHt. lra.
    + destruct (tick_not_stalled config now v hk E) as [Hc [Ht _]].
      rewrite Hc in IHc. rewrite Ht in IHt. now split.
Qed.

End HealthRuns.

(** X18: While every tick comes within stallThreshold of the one before, no
    stall is ever counted and no buffering time accumulated, however long
    the position stands still.  The defaults (a tick every second, a
    threshold of two seconds) are such a run. *)
Theorem punctual_ticks_never_stall
    (config : Health.HealthMonitorConfig) (hk : Health.Hook)
    (ticks : list (Q * Health.Video)) :
  Health.punctual (Health.stallThreshold config) (Health.lastCheckRef hk)
    ticks ->
  Health.stallCountRef (Health.run config hk ticks) = Health.stallCountRef hk /\
  Health.totalBufferingTimeRef (Health.run config hk ticks)
  = Health.totalBufferingTimeRef hk.
Proof.
  apply punctual_run_counts_nothing.
Qed.

Lemma punctual_ticks_never_stall_witness :
  Health.stallCountRef
    (Health.run Health.defaultConfig Health.watchingHook
       Health.frozenEverySecond) = 0%Z /\
  Health.totalBufferingTimeRef
    (Health.run Health.defaultConfig Health.watchingHook
       Health.frozenEverySecond) = 0.
Proof.
  apply (punctual_ticks_never_stall Health.defaultConfig Health.watchingHook
           Health.frozenEverySecond).
  cbn [Health.punctual Health.frozenEverySecond].
  repeat split; vm_compute; discriminate.
Defined.

(** X19: Along any run of ticks the stall count never decreases, and with a
    stall threshold that is not negative neither does the buffering
    time. *)
Theorem health_counters_never_decrease
    (config : Health.HealthMonitorConfig) (hk : Health.Hook)
    (ticks : list (Q * Health.Video)) :
  (Health.stallCountRef hk
   <= Health.stallCountRef (Health.run config hk ticks))%Z /\
  (0 <= Health.stallThreshold config ->
   Health.totalBufferingTimeRef hk
   <= Health.totalBufferingTimeRef (Health.run config hk ticks)).
Proof.
  apply run_counters_grow.
Qed.

Lemma health_counters_never_decrease_witness :
  Health.totalBufferingTimeRef Health.watchingHook
  <= Health.totalBufferingTimeRef
       (Health.run Health.defaultConfig Health.watchingHook
          Health.frozenTicks).
Proof.
  apply (health_counters_never_decrease Health.defaultConfig
           Health.watchingHook Health.frozenTicks).
  vm_compute. discriminate.
Defined.

(** X20: reset is idempotent and restores the initial status, but keeps the
    position and the clock of the last tick: the next tick is a stalled one
    after reset exactly when it would have been without, and if it is, it
    opens a first episode (stall count 1) whose buffering time is the time
    elapsed since the last tick. *)
Theorem reset_then_tick
    (config : Health.HealthMonitorConfig) (now : Q) (v : Health.Video)
    (hk : Health.Hook) :
  Health.reset (Health.reset hk) = Health.reset hk /\
  Health.health (Health.reset hk) = Health.initialStatus /\
  Health.isStalled config now v (Health.reset hk)
  = Health.isStalled config now v hk /\
  (Health.isStalled config now v hk = true ->
   Health.stallCount
     (Health.health (Health.tick config now v (Health.reset hk))) = 1%Z /\
   Health.bufferingTime
     (Health.health (Health.tick config now v (Health.reset hk)))
   = 0 + (now - Health.lastCheckRef hk)).
Proof.
  split; [reflexivity|]. split; [reflexivity|]. split; [reflexivity|].
  intro H.
  assert (H' : Health.isStalled config now v (Health.reset hk) = true)
    by exact H.
  destruct (tick_publishes config now v (Health.reset hk)) as [-> ->].
  destruct (tick_stalled config now v (Health.reset hk) H') as [Hc [Ht _]].
  rewrite Hc, Ht. split; reflexivity.
Qed.

Lemma reset_then_tick_witness :
  Health.stallCount
    (Health.health
       (Health.tick Health.defaultConfig 11000 (Health.playingAt 10)
          (Health.reset
             (Health.run Health.defaultConfig Health.watchingHook
                Health.frozenTicks)))) = 1%Z.
Proof.
  apply (reset_then_tick Health.defaultConfig 11000 (Health.playingAt 10)
           (Health.run Health.defaultConfig Health.watchingHook
              Health.frozenTicks)).
  reflexivity.
Defined.

(** ** The sample window *)

Section BandwidthWindow.

Import Bandwidth.

Lemma observeEntry_recorded now samples resource :
  isRecorded resource = true ->
  observeEntry now samples resource
  = filter (fun sample => JS.ltb (now - time sample) 30000) samples
    ++ [{| bytes := recordedBytes resource; time := now |}].
Proof.
  unfold isRecorded, observeEntry, recordedBytes. intro H.
  apply andb_true_iff in H. destruct H as [-> ->].
  rewrite filter_app. cbn [filter time].
  replace (JS.ltb (now - now) 30000) with true
    by (symmetry; apply ltb_true; lra).
  reflexivity.
Qed.

Lemma observeEntry_skipped now samples resource :
  isRecorded resource = false ->
  observeEntry now samples resource = samples.
Proof.
  unfold isRecorded, observeEntry, recordedBytes. intro H.
  destruct (looksLikeMedia resource || JS.gtb (transferSize resource) 10000);
    [|reflexivity].
  cbn [andb] in H. rewrite H. reflexivity.
Qed.

Lemma oldestFirst_filter f samples :
  oldestFirst samples -> oldestFirst (filter f samples).
Proof.
  unfold oldestFirst. induction 1 as [|a l S IH F]; cbn [filter].
  - constructor.
  - destruct (f a); [|exact IH].
    constructor; [exact IH|]. apply incl_Forall with (l1 := l);
      [apply incl_filter | exact F].
Qed.

Lemma oldestFirst_snoc samples x :
  oldestFirst samples ->
  Forall (fun a => time a <= time x) samples ->
  oldestFirst (samples ++ [x]).
Proof.
  unfold oldestFirst. induction 1 as [|a l S IH F]; intro H; cbn [app].
  - constructor; constructor.
  - inversion H as [|? ? Ha Hl]; subst. constructor.
    + now apply IH.
    + apply Forall_app. split; [exact F|]. constructor; [exact Ha|constructor].
Qed.

Lemma observeEntry_window now latest samples resource :
  latest <= now ->
  oldestFirst samples -> withinWindow latest samples ->
  exists latest',
    latest' <= now /\
    oldestFirst (observeEntry now samples resource) /\
    withinWindow latest' (observeEntry now samples resource).
Proof.
  intros Hl S W. destruct (isRecorded resource) eqn:E.
  - rewrite (observeEntry_recorded now samples resource E).
    exists now. split; [lra|].
    assert (Wf : Forall (fun s => time s <= now /\ now - time s < 30000)
                   (filter (fun sample => JS.ltb (now - time sample) 30000)
                           samples)).
    { apply Forall_forall. intros s Hs. apply filter_In in Hs.
      destruct Hs as [Hs Hf]. apply ltb_true in Hf.
      unfold withinWindow in W. rewrite Forall_forall in W.
      destruct (W s Hs) as [W1 _]. split; lra. }
    split.
    + apply oldestFirst_snoc; [now apply oldestFirst_filter|].
      apply Forall_impl with (2 := Wf). intros s [H _]. exact H.
    + apply Forall_app. split; [exact Wf|].
      constructor; [cbn; split; lra | constructor].
  - rewrite (observeEntry_skipped now samples resource E).
    exists latest. now repeat split.
Qed.

Lemma observe_window now entries : forall latest samples,
  latest <= now ->
  oldestFirst samples -> withinWindow latest samples ->
  exists latest',
    latest' <= now /\
    oldestFirst (fold_left (observeEntry now) entries samples) /\
    withinWindow latest' (fold_left (observeEntry now) entries samples).
Proof.
  induction entries as [|r entries IH]; intros latest samples Hl S W.
  - exists latest. now repeat split.
  - cbn [fold_left].
    destruct (observeEntry_window now latest samples r Hl S W)
      as [latest' [Hl' [S' W']]].
    now apply (IH latest').
Qed.

Lemma run_window es : forall latest last hk,
  latest <= last ->
  oldestFirst (samplesRef hk) -> withinWindow latest (samplesRef hk) ->
  chronological last es ->
  exists latest',
    oldestFirst (samplesRef (run hk es)) /\
    withinWindow latest' (samplesRef (run hk es)).
Proof.
  induction es as [|[now ev] es IH]; intros latest last hk Hl S W C.
  - exists latest. now split.
  - cbn [chronological] in C. destruct C as [Hnow C].
    change (run hk ((now, ev) :: es)) with (run (step hk (now, ev)) es).
    destruct ev as [entries|]; cbn [step].
    + destruct (observe_window now entries latest (samplesRef hk))
        as [latest' [Hl' [S' W']]]; [lra | exact S | exact W |].
      now apply (IH latest' now).
    + apply (IH latest now); [lra| | |exact C];
        unfold tick; destruct (Nat.ltb _ 2); assumption.
Qed.

Lemma same_time_span t xs :
  Forall (fun s => time s == t) xs ->
  time (final xs) - time (first xs) == 0.
Proof.
  intro H. destruct xs as [|x xs]; [reflexivity|].
  unfold final, first.
  assert (F : time (nth 0 (x :: xs) noSample) == t)
    by (rewrite Forall_forall in H; apply H; now left).
  assert (L : time (nth (List.length (x :: xs) - 1) (x :: xs) noSample) == t).
  { rewrite Forall_forall in H. apply H. apply nth_In. cbn. lia. }
  lra.
Qed.

Lemma same_time_rate t xs :
  Forall (fun s => time s == t) xs ->
  rate (totalBytes xs) (JS.over (time (final xs) - time (first xs)) 1000) = 0.
Proof.
  intro H. unfold rate.
  replace (JS.over (time (final xs) - time (first xs)) 1000) with 0;
    [reflexivity|].
  pose proof (same_time_span t xs H) as E.
  unfold JS.over. rewrite (double_eq _ 0 E).
  symmetry. apply (double_eq _ 0). rewrite double_zero.
  unfold Qdiv. ring.
Qed.

Lemma step_published hk e :
  0 <= currentBitrate (bandwidth hk) /\
  0 <= averageBitrate (bandwidth hk) /\
  downloadSpeed (bandwidth hk) = currentBitrate (bandwidth hk) ->
  0 <= currentBitrate (bandwidth (step hk e)) /\
  0 <= averageBitrate (bandwidth (step hk e)) /\
  downloadSpeed (bandwidth (step hk e)) = currentBitrate (bandwidth (step hk e)).
Proof.
  intro H. destruct e as [now [entries|]]; cbn [step]; [exact H|].
  unfold tick. destruct (Nat.ltb _ 2); [exact H|].
  cbn [bandwidth currentBitrate averageBitrate downloadSpeed].
  split; [apply Q.le_max_l|]. split; [apply Q.le_max_l | reflexivity].
Qed.

End BandwidthWindow.

(** X21: An entry is recorded when it looks like media or is larger than 10 kB,
    and has a size that is not 0; it then becomes the newest sample, every
    sample 30 s old or older is dropped and the rest are kept in order.  Any
    other entry leaves the samples as they are, stale ones included. *)
Theorem observer_records_and_prunes
    (now : Q) (samples : list Bandwidth.Sample) (resource : Bandwidth.Entry) :
  (Bandwidth.isRecorded resource = true ->
   Bandwidth.observeEntry now samples resource
   = filter (fun s => JS.ltb (now - Bandwidth.time s) 30000) samples
     ++ [{| Bandwidth.bytes := Bandwidth.recordedBytes resource;
            Bandwidth.time := now |}] /\
   Forall (fun s => now - Bandwidth.time s < 30000)
     (Bandwidth.observeEntry now samples resource)) /\
  (Bandwidth.isRecorded resource = false ->
   Bandwidth.observeEntry now samples resource = samples).
Proof.
  split.
  - intro H. rewrite (observeEntry_recorded now samples resource H).
    split; [reflexivity|].
    apply Forall_app. split.
    + apply Forall_forall. intros s Hs. apply filter_In in Hs.
      destruct Hs as [_ Hs]. now apply ltb_true in Hs.
    + constructor; [cbn; lra | constructor].
  - apply observeEntry_skipped.
Qed.

Lemma observer_records_and_prunes_witness :
  Bandwidth.observeEntry 1050000
    (Bandwidth.samplesRef
       (Bandwidth.run Bandwidth.initialHook Bandwidth.risingSession))
    (Bandwidth.segment 200000)
  = [{| Bandwidth.bytes := 200000; Bandwidth.time := 1050000 |}] /\
  Bandwidth.observeEntry 1050000
    (Bandwidth.samplesRef
       (Bandwidth.run Bandwidth.initialHook Bandwidth.risingSession))
    {| Bandwidth.looksLikeMedia := false; Bandwidth.transferSize := 4000;
       Bandwidth.encodedBodySize := 4000 |}
  = Bandwidth.samplesRef
      (Bandwidth.run Bandwidth.initialHook Bandwidth.risingSession).
Proof.
  split.
  - destruct (observer_records_and_prunes 1050000
                (Bandwidth.samplesRef
                   (Bandwidth.run Bandwidth.initialHook
                      Bandwidth.risingSession))
                (Bandwidth.segment 200000)) as [H _].
    destruct (H eq_refl) as [E _]. exact E.
  - apply (observer_records_and_prunes 1050000).
    reflexivity.
Defined.

(** X22: In a session whose clock readings never go back, the retained samples
    are in time order, oldest first, and any two of them are less than 30 s
    apart. *)
Theorem samples_ordered_within_window
    (start : Q) (es : list (Q * Bandwidth.Event)) :
  Bandwidth.chronological start es ->
  let samples :=
    Bandwidth.samplesRef (Bandwidth.run Bandwidth.initialHook es) in
  StronglySorted (fun a b => Bandwidth.time a <= Bandwidth.time b) samples /\
  (forall a b, In a samples -> In b samples ->
     Bandwidth.time b - Bandwidth.time a < 30000).
Proof.
  intros C samples.
  destruct (run_window es start start Bandwidth.initialHook)
    as [latest [S W]].
  - lra.
  - constructor.
  - constructor.
  - exact C.
  - split; [exact S|].
    intros a b Ha Hb. unfold Bandwidth.withinWindow in W.
    rewrite Forall_forall in W.
    destruct (W a Ha) as [_ A]. destruct (W b Hb) as [B _]. lra.
Qed.

Lemma samples_ordered_within_window_witness :
  StronglySorted (fun a b => Bandwidth.time a <= Bandwidth.time b)
    (Bandwidth.samplesRef
       (Bandwidth.run Bandwidth.initialHook Bandwidth.quietSession)).
Proof.
  apply (samples_ordered_within_window 0 Bandwidth.quietSession).
  cbn [Bandwidth.chronological Bandwidth.quietSession
       Bandwidth.risingSession app].
  repeat split; vm_compute; discriminate.
Defined.

(** X23: When all retained samples carry the same clock reading, as after a
    single observer callback however large, a tick publishes an average
    bitrate of 0 and a stable trend. *)
Theorem single_batch_reads_zero
    (now t : Q) (hk : Bandwidth.Hook) :
  (2 <= List.length (Bandwidth.samplesRef hk))%nat ->
  Forall (fun s => Bandwidth.time s == t) (Bandwidth.samplesRef hk) ->
  Bandwidth.averageBitrate (Bandwidth.bandwidth (Bandwidth.tick now hk)) == 0 /\
  Bandwidth.trend (Bandwidth.bandwidth (Bandwidth.tick now hk))
  = Bandwidth.stable.
Proof.
  intros L H. unfold Bandwidth.tick.
  replace (Nat.ltb (List.length (Bandwidth.samplesRef hk)) 2) with false
    by (symmetry; apply Nat.ltb_ge; exact L).
  cbn [Bandwidth.bandwidth Bandwidth.averageBitrate Bandwidth.trend].
  split.
  - replace (Nat.leb 2 (List.length (Bandwidth.samplesRef hk))) with true
      by (symmetry; apply Nat.leb_le; exact L).
    rewrite (same_time_rate t _ H). reflexivity.
  - unfold Bandwidth.computeTrend.
    destruct (Nat.leb 10 (List.length (Bandwidth.samplesRef hk)));
      [|reflexivity].
    assert (Hold : Forall (fun s => Bandwidth.time s == t)
                     (Bandwidth.oldSamples (Bandwidth.samplesRef hk))
                   /\ Forall (fun s => Bandwidth.time s == t)
                        (Bandwidth.newSamples (Bandwidth.samplesRef hk))).
    { apply Forall_app. unfold Bandwidth.oldSamples, Bandwidth.newSamples.
      rewrite firstn_skipn. exact H. }
    destruct Hold as [Ho Hn].
    unfold Bandwidth.oldRate, Bandwidth.newRate, Bandwidth.halfRate.
    rewrite (same_time_rate t _ Ho), (same_time_rate t _ Hn).
    vm_compute. reflexivity.
Qed.

Lemma single_batch_reads_zero_witness :
  Bandwidth.averageBitrate
    (Bandwidth.bandwidth
       (Bandwidth.run Bandwidth.initialHook Bandwidth.batchSession)) == 0.
Proof.
  apply (single_batch_reads_zero 1001000 1000000
           (Bandwidth.run Bandwidth.initialHook
              (firstn 1 Bandwidth.batchSession))).
  - vm_compute. lia.
  - repeat constructor.
Defined.

(** In every state of every session the published current and average
    bitrates are not negative, and downloadSpeed is the current bitrate. *)
Theorem published_rates (es : list (Q * Bandwidth.Event)) :
  let b := Bandwidth.bandwidth (Bandwidth.run Bandwidth.initialHook es) in
  0 <= Bandwidth.currentBitrate b /\
  0 <= Bandwidth.averageBitrate b /\
  Bandwidth.downloadSpeed b = Bandwidth.currentBitrate b.
Proof.
  cbv zeta.
  assert (G : forall es hk,
             0 <= Bandwidth.currentBitrate (Bandwidth.bandwidth hk) /\
             0 <= Bandwidth.averageBitrate (Bandwidth.bandwidth hk) /\
             Bandwidth.downloadSpeed (Bandwidth.bandwidth hk)
             = Bandwidth.currentBitrate (Bandwidth.bandwidth hk) ->
             0 <= Bandwidth.currentBitrate
                    (Bandwidth.bandwidth (Bandwidth.run hk es)) /\
             0 <= Bandwidth.averageBitrate
                    (Bandwidth.bandwidth (Bandwidth.run hk es)) /\
             Bandwidth.downloadSpeed
               (Bandwidth.bandwidth (Bandwidth.run hk es))
             = Bandwidth.currentBitrate
                 (Bandwidth.bandwidth (Bandwidth.run hk es))).
  { clear es. induction es as [|e es IH]; intros hk H; [exact H|].
    apply IH. now apply step_published. }
  apply G. cbn. repeat split; lra.
Qed.

(** ** The network-information monitor *)

Section MonitorFacts.

Import Monitor.

Lemma tick_history nav hk :
  (List.length (samplesRef hk) <= 12)%nat ->
  (List.length (samplesRef (tick nav hk)) <= 12)%nat.
Proof.
  intro H. unfold tick.
  destruct nav as [|connection]; [exact H|].
  destruct (downlinkOf connection) as [d|]; [|exact H].
  cbn [samplesRef].
  assert (L : List.length (samplesRef hk ++ [d])
              = S (List.length (samplesRef hk))).
  { rewrite length_app. cbn. lia. }
  destruct (Nat.ltb_spec 12 (List.length (samplesRef hk ++ [d]))) as [G|G].
  - destruct (samplesRef hk ++ [d]) as [|x xs]; cbn in *; lia.
  - exact G.
Qed.

Lemma sum_nonneg xs : forall acc,
  Forall (fun x => 0 <= x) xs -> 0 <= acc -> 0 <= fold_left JS.add xs acc.
Proof.
  induction xs as [|x xs IH]; intros acc F Hacc; [exact Hacc|].
  inversion F; subst. cbn [fold_left]. apply IH; [assumption|].
  now apply add_nonneg.
Qed.

Lemma lengthOf_nonneg xs : 0 <= lengthOf xs.
Proof.
  unfold lengthOf. change 0 with (inject_Z 0). rewrite <- Zle_Qle. lia.
Qed.

End MonitorFacts.

(** X24: From the mount on, whatever the browser reports at each tick, the
    monitor keeps at most 12 measurements. *)
Theorem monitor_history_bounded
    (first : Monitor.Navigator) (navs : list Monitor.Navigator) :
  (List.length (Monitor.samplesRef (Monitor.run first navs)) <= 12)%nat.
Proof.
  unfold Monitor.run.
  assert (G : forall navs hk,
             (List.length (Monitor.samplesRef hk) <= 12)%nat ->
             (List.length
                (Monitor.samplesRef
                   (fold_left (fun hk nav => Monitor.tick nav hk) navs hk))
              <= 12)%nat).
  { clear navs. induction navs as [|nav navs IH]; intros hk H; [exact H|].
    cbn [fold_left]. apply IH. now apply tick_history. }
  apply G. destruct first as [|connection]; cbn; lia.
Qed.

(** X25: A tick that gets a downlink figure publishes it as the current
    bandwidth and keeps it as the newest measurement; the average it
    publishes is the sum of the retained measurements over their number,
    added up and divided as doubles (three measurements of 0.1 average
    0.10000000000000002), and is not negative when no measurement is; it
    recommends low iff that average is below 2, medium iff it is in [2, 5),
    high iff it is 5 or more, and never auto. *)
Theorem monitor_measured
    (connection : option Monitor.Connection) (d : Q) (hk : Monitor.Hook) :
  Monitor.downlinkOf connection = Some d ->
  let hk' := Monitor.tick (Monitor.ConnectionAPI connection) hk in
  let average := Monitor.averageBandwidth (Monitor.metrics hk') in
  Monitor.currentBandwidth (Monitor.metrics hk') = d /\
  last (Monitor.samplesRef hk') 0 = d /\
  average
  = JS.over (Monitor.sum (Monitor.samplesRef hk'))
            (Monitor.lengthOf (Monitor.samplesRef hk')) /\
  (Forall (fun x => 0 <= x) (Monitor.samplesRef hk') -> 0 <= average) /\
  (Monitor.recommendedQuality (Monitor.metrics hk') = Monitor.low
   <-> average < 2) /\
  (Monitor.recommendedQuality (Monitor.metrics hk') = Monitor.medium
   <-> 2 <= average /\ average < 5) /\
  (Monitor.recommendedQuality (Monitor.metrics hk') = Monitor.high
   <-> 5 <= average) /\
  Monitor.recommendedQuality (Monitor.metrics hk') <> Monitor.auto.
Proof.
  intros Hd. cbv zeta. unfold Monitor.tick.
  rewrite Hd. cbv zeta.
  cbn [Monitor.metrics Monitor.samplesRef Monitor.currentBandwidth
       Monitor.averageBandwidth Monitor.recommendedQuality].
  set (samples := if Nat.ltb 12 (List.length (Monitor.samplesRef hk ++ [d]))
                  then tl (Monitor.samplesRef hk ++ [d])
                  else Monitor.samplesRef hk ++ [d]).
  assert (Hlast : last samples 0 = d).
  { subst samples.
    destruct (Nat.ltb_spec 12 (List.length (Monitor.samplesRef hk ++ [d])))
      as [G|G]; [|apply last_last].
    rewrite length_app in G. cbn [List.length] in G.
    destruct (Monitor.samplesRef hk) as [|x xs]; [cbn in G; lia|].
    cbn [app tl]. apply last_last. }
  set (average := JS.over (Monitor.sum samples) (Monitor.lengthOf samples)).
  split; [reflexivity|]. split; [exact Hlast|]. split; [reflexivity|]. split.
  { intro F. subst average. apply over_nonneg.
    - apply sum_nonneg; [exact F | lra].
    - apply lengthOf_nonneg. }
  destruct (JS.ltb average 2) eqn:E2;
    [apply ltb_true in E2 | apply ltb_false in E2].
  - repeat split; intros; try discriminate; try lra.
  - destruct (JS.ltb average 5) eqn:E5;
      [apply ltb_true in E5 | apply ltb_false in E5];
      repeat split; intros; try discriminate; try lra.
Qed.

Lemma monitor_measured_witness :
  Monitor.currentBandwidth
    (Monitor.metrics
       (Monitor.tick (Monitor.measuring 4)
          (Monitor.run (Monitor.measuring 8) [Monitor.measuring 8]))) = 4.
Proof.
  apply (monitor_measured
           (Some {| Monitor.downlink := Some 4;
                    Monitor.effectiveType := Some "4g"%string |})
           4 (Monitor.run (Monitor.measuring 8) [Monitor.measuring 8])).
  reflexivity.
Defined.

(** Three measurements of 0.1 average 0.10000000000000002 as doubles, above
    each of them. *)
Example monitor_mean_of_three :
  Monitor.averageBandwidth
    (Monitor.metrics
       (Monitor.tick (Monitor.measuring 0.1)
          (Monitor.run (Monitor.measuring 0.1) [Monitor.measuring 0.1])))
  = JS.double 0.10000000000000002.
Proof. vm_compute. reflexivity. Qed.

(** Measurements of 1.95 and 2.05 average exactly 2 as doubles, which is
    not below 2: the tick recommends medium. *)
Example monitor_mean_of_two :
  Monitor.recommendedQuality
    (Monitor.metrics
       (Monitor.tick (Monitor.measuring 2.05)
          (Monitor.mount (Monitor.measuring 1.95))))
  = Monitor.medium.
Proof. vm_compute. reflexivity. Qed.

(** X26: A tick that gets no downlink figure falls back on the effective
    connection type and never recommends medium: it recommends high for
    '5g', for '4g' and for a missing type, low for everything else, '3g'
    included; the trend is stable and the history untouched. *)
Theorem monitor_fallback_never_medium
    (connection : option Monitor.Connection) (hk : Monitor.Hook) :
  Monitor.downlinkOf connection = None ->
  let hk' := Monitor.tick (Monitor.ConnectionAPI connection) hk in
  let e := Monitor.effectiveTypeOf connection in
  (Monitor.recommendedQuality (Monitor.metrics hk') = Monitor.high
   <-> e = "5g"%string \/ e = "4g"%string) /\
  (Monitor.recommendedQuality (Monitor.metrics hk') = Monitor.low
   <-> e <> "5g"%string /\ e <> "4g"%string) /\
  Monitor.trend (Monitor.metrics hk') = Monitor.stable /\
  Monitor.samplesRef hk' = Monitor.samplesRef hk.
Proof.
  intro Hd. cbv zeta. unfold Monitor.tick. rewrite Hd. cbv zeta.
  cbn [Monitor.metrics Monitor.samplesRef Monitor.recommendedQuality
       Monitor.trend].
  destruct (String.eqb_spec (Monitor.effectiveTypeOf connection) "5g")
    as [E5|E5].
  { replace (Monitor.recommendFor 20) with Monitor.high by reflexivity.
    split; [split; [intros _; now left | reflexivity]|].
    split; [split; [discriminate | intros [H _]; contradiction]|].
    split; reflexivity. }
  destruct (String.eqb_spec (Monitor.effectiveTypeOf connection) "4g")
    as [E4|E4].
  { replace (Monitor.recommendFor 10) with Monitor.high by reflexivity.
    split; [split; [intros _; now right | reflexivity]|].
    split; [split; [discriminate | intros [_ H]; contradiction]|].
    split; reflexivity. }
  assert (L : Monitor.recommendFor
                (if String.eqb (Monitor.effectiveTypeOf connection) "3g"
                 then 2 else 1) = Monitor.low).
  { destruct (String.eqb (Monitor.effectiveTypeOf connection) "3g");
      reflexivity. }
  rewrite L.
  split; [split; [discriminate | intros [H|H]; contradiction]|].
  split; [split; [intros _; now split | reflexivity]|].
  split; reflexivity.
Qed.

Lemma monitor_fallback_never_medium_witness :
  Monitor.recommendedQuality
    (Monitor.metrics (Monitor.tick (Monitor.guessing "3g") Monitor.initialHook))
  = Monitor.low
  <-> "3g"%string <> "5g"%string /\ "3g"%string <> "4g"%string.
Proof.
  apply (monitor_fallback_never_medium
           (Some {| Monitor.downlink := None;
                    Monitor.effectiveType := Some "3g"%string |})
           Monitor.initialHook).
  reflexivity.
Defined.

(** ** The proxy's retry loop *)

Section ProxyRetry.

Import Proxy.

Variable fetch : nat -> Outcome.
Variable maxRetries : Z.

Lemma attempts_failed fuel attempt lastError :
  fails (fetch attempt) = true ->
  attempts fetch maxRetries (S fuel) attempt lastError
  = (fst (attempts fetch maxRetries fuel (S attempt)
            (Some (failureOf (fetch attempt)))),
     attemptAt maxRetries attempt
     :: snd (attempts fetch maxRetries fuel (S attempt)
               (Some (failureOf (fetch attempt))))).
Proof.
  intro H. cbn [attempts]. unfold attemptAt.
  destruct (fetch attempt) as [status|error]; cbn [fails failureOf] in *.
  - apply andb_true_iff in H. destruct H as [Hok Hre].
    apply negb_true_iff in Hok. rewrite Hok, Hre.
    destruct (attempts fetch maxRetries fuel (S attempt)
                (Some (HttpError status))); reflexivity.
  - destruct (attempts fetch maxRetries fuel (S attempt)
                (Some (FetchError error))); reflexivity.
Qed.

Lemma attempts_settled fuel attempt lastError status :
  fetch attempt = Responded status ->
  fails (Responded status) = false ->
  attempts fetch maxRetries (S fuel) attempt lastError
  = (Returned status,
     [{| timeoutMs := (12000 + Z.of_nat attempt * 3000)%Z;
         delayMs := None |}]).
Proof.
  intros E H. cbn [attempts]. rewrite E. cbn [fails] in H.
  destruct (ok status); [reflexivity|].
  cbn [negb andb] in H. rewrite H. reflexivity.
Qed.

Lemma pow2_succ (a : nat) : (2 ^ Z.of_nat (S a) = 2 * 2 ^ Z.of_nat a)%Z.
Proof.
  rewrite Nat2Z.inj_succ. apply Z.pow_succ_r. lia.
Qed.

Lemma attempts_length fuel : forall attempt lastError,
  (List.length (snd (attempts fetch maxRetries fuel attempt lastError))
   <= fuel)%nat.
Proof.
  induction fuel as [|fuel IH]; intros attempt lastError; [cbn; lia|].
  destruct (fails (fetch attempt)) eqn:F.
  - rewrite (attempts_failed fuel attempt lastError F). cbn [snd List.length].
    specialize (IH (S attempt) (Some (failureOf (fetch attempt)))). lia.
  - destruct (fetch attempt) as [status|error] eqn:E; [|discriminate F].
    rewrite (attempts_settled fuel attempt lastError status E F).
    cbn. lia.
Qed.

Lemma attempts_returned fuel : forall attempt lastError status,
  fst (attempts fetch maxRetries fuel attempt lastError) = Returned status ->
  fails (Responded status) = false /\
  exists k, (attempt <= k < attempt + fuel)%nat /\
            fetch k = Responded status.
Proof.
  induction fuel as [|fuel IH]; intros attempt lastError status H;
    [discriminate H|].
  destruct (fails (fetch attempt)) eqn:F.
  - rewrite (attempts_failed fuel attempt lastError F) in H. cbn [fst] in H.
    destruct (IH _ _ _ H) as [Hf [k [Hk Ek]]].
    split; [exact Hf|]. exists k. split; [lia | exact Ek].
  - destruct (fetch attempt) as [s|error] eqn:E; [|discriminate F].
    rewrite (attempts_settled fuel attempt lastError s E F) in H.
    injection H as <-. split; [exact F|].
    exists attempt. split; [lia | exact E].
Qed.

Lemma attempts_threw fuel : forall attempt lastError failure,
  fst (attempts fetch maxRetries fuel attempt lastError) = Threw failure ->
  (fuel = 0%nat /\ failure = lastError) \/
  exists k, (attempt <= k < attempt + fuel)%nat /\
            failure = Some (failureOf (fetch k)).
Proof.
  induction fuel as [|fuel IH]; intros attempt lastError failure H.
  - left. cbn in H. split; [reflexivity | now injection H].
  - right. destruct (fails (fetch attempt)) eqn:F.
    + rewrite (attempts_failed fuel attempt lastError F) in H.
      cbn [fst] in H. destruct (IH _ _ _ H) as [[_ ->]|[k [Hk Ek]]].
      * exists attempt. split; [lia | reflexivity].
      * exists k. split; [lia | exact Ek].
    + destruct (fetch attempt) as [s|error] eqn:E; [|discriminate F].
      rewrite (attempts_settled fuel attempt lastError s E F) in H.
      discriminate H.
Qed.

(** The first attempt that does not fail ends the loop. *)
Lemma attempts_first_settled k : forall fuel attempt lastError status,
  (k < fuel)%nat ->
  (forall j, (attempt <= j < attempt + k)%nat -> fails (fetch j) = true) ->
  fetch (attempt + k)%nat = Responded status ->
  fails (Responded status) = false ->
  (Z.of_nat (attempt + k) <= maxRetries)%Z ->
  fst (attempts fetch maxRetries fuel attempt lastError) = Returned status /\
  List.length (snd (attempts fetch maxRetries fuel attempt lastError))
  = S k /\
  totalDelay (snd (attempts fetch maxRetries fuel attempt lastError))
  = (500 * (2 ^ Z.of_nat (attempt + k) - 2 ^ Z.of_nat attempt))%Z.
Proof.
  induction k as [|k IH]; intros fuel attempt lastError status Hk Hf E Hs M;
    (destruct fuel as [|fuel]; [lia|]).
  - rewrite Nat.add_0_r in *.
    rewrite (attempts_settled fuel attempt lastError status E Hs).
    cbn [fst snd List.length totalDelay fold_right delayMs].
    repeat split. lia.
  - assert (F : fails (fetch attempt) = true) by (apply Hf; lia).
    rewrite (attempts_failed fuel attempt lastError F). cbn [fst snd].
    replace (attempt + S k)%nat with (S attempt + k)%nat in * by lia.
    destruct (IH fuel (S attempt) (Some (failureOf (fetch attempt))) status)
      as [R [L T]]; try assumption; try lia.
    { intros j Hj. apply Hf. lia. }
    split; [exact R|]. split; [cbn [List.length]; lia|].
    cbn [totalDelay fold_right] in *. unfold attemptAt at 1. cbn [delayMs].
    replace (Z.of_nat attempt <? maxRetries)%Z with true
      by (symmetry; apply Z.ltb_lt; lia).
    change (fold_right _ 0%Z ?l) with (totalDelay l). rewrite T.
    rewrite (pow2_succ attempt). lia.
Qed.

(** When every attempt fails, the last failure is thrown. *)
Lemma attempts_all_failed fuel : forall attempt lastError,
  (forall j, (attempt <= j < attempt + S fuel)%nat -> fails (fetch j) = true) ->
  Z.of_nat (attempt + fuel) = maxRetries ->
  fst (attempts fetch maxRetries (S fuel) attempt lastError)
  = Threw (Some (failureOf (fetch (attempt + fuel)%nat))) /\
  List.length (snd (attempts fetch maxRetries (S fuel) attempt lastError))
  = S fuel /\
  totalDelay (snd (attempts fetch maxRetries (S fuel) attempt lastError))
  = (500 * (2 ^ Z.of_nat (attempt + fuel) - 2 ^ Z.of_nat attempt))%Z.
Proof.
  induction fuel as [|fuel IH]; intros attempt lastError Hf M.
  - rewrite Nat.add_0_r in *.
    assert (F : fails (fetch attempt) = true) by (apply Hf; lia).
    rewrite (attempts_failed 0 attempt lastError F). cbn [attempts fst snd].
    split; [reflexivity|]. split; [reflexivity|].
    cbn [totalDelay fold_right]. unfold attemptAt. cbn [delayMs].
    replace (Z.of_nat attempt <? maxRetries)%Z with false
      by (symmetry; apply Z.ltb_ge; lia).
    lia.
  - assert (F : fails (fetch attempt) = true) by (apply Hf; lia).
    rewrite (attempts_failed (S fuel) attempt lastError F). cbn [fst snd].
    replace (attempt + S fuel)%nat with (S attempt + fuel)%nat in * by lia.
    destruct (IH (S attempt) (Some (failureOf (fetch attempt))))
      as [R [L T]]; [intros j Hj; apply Hf; lia | exact M |].
    split; [exact R|]. split; [cbn [List.length]; lia|].
    cbn [totalDelay fold_right] in *. unfold attemptAt at 1. cbn [delayMs].
    replace (Z.of_nat attempt <? maxRetries)%Z with true
      by (symmetry; apply Z.ltb_lt; lia).
    change (fold_right _ 0%Z ?l) with (totalDelay l). rewrite T.
    rewrite (pow2_succ attempt). lia.
Qed.

End ProxyRetry.

(** X27: fetchWithRetry makes at most maxRetries + 1 attempts.  A response it
    returns is one that some attempt received, and is either ok or neither
    a 5xx nor a 429: such responses are never handed back, not even from
    the last attempt.  What it throws is the failure of an attempt, unless
    maxRetries is negative and no attempt was made. *)
Theorem fetchWithRetry_outcome (fetch : nat -> Proxy.Outcome) (maxRetries : Z) :
  let r := Proxy.fetchWithRetry fetch maxRetries in
  (List.length (snd r) <= Z.to_nat (maxRetries + 1))%nat /\
  (forall status,
      fst r = Proxy.Returned status ->
      (Proxy.ok status = true \/ (status < 500 /\ status <> 429)%Z) /\
      exists k, (Z.of_nat k <= maxRetries)%Z /\
                fetch k = Proxy.Responded status) /\
  (forall failure,
      fst r = Proxy.Threw failure ->
      (failure = None /\ (maxRetries < 0)%Z) \/
      exists k, (Z.of_nat k <= maxRetries)%Z /\
                failure = Some (Proxy.failureOf (fetch k))).
Proof.
  cbv zeta. unfold Proxy.fetchWithRetry. split; [|split].
  - apply attempts_length.
  - intros status H. apply attempts_returned in H.
    destruct H as [F [k [Hk E]]]. split.
    + cbn [Proxy.fails] in F. unfold Proxy.retryable in F.
      destruct (Proxy.ok status); [now left | right].
      cbn [negb andb] in F. apply orb_false_iff in F. destruct F as [F1 F2].
      rewrite Z.geb_leb in F1. apply Z.leb_gt in F1. apply Z.eqb_neq in F2.
      split; assumption.
    + exists k. split; [lia | exact E].
  - intros failure H. apply attempts_threw in H.
    destruct H as [[H0 ->]|[k [Hk E]]].
    + left. split; [reflexivity | lia].
    + right. exists k. split; [lia | exact E].
Qed.

Lemma fetchWithRetry_outcome_witness :
  (Proxy.ok 200 = true \/ (200 < 500 /\ 200 <> 429)%Z) /\
  exists k, (Z.of_nat k <= 3)%Z /\ Proxy.flaky k = Proxy.Responded 200.
Proof.
  destruct (fetchWithRetry_outcome Proxy.flaky 3) as [_ [H _]].
  apply H. reflexivity.
Defined.

(** X28: The pauses double from 500 ms: if attempt number k is the first that
    does not fail, its response is returned after k + 1 attempts and
    500 * (2^k - 1) ms of pauses; if all maxRetries + 1 attempts fail, the
    failure of the last one is thrown after 500 * (2^maxRetries - 1) ms of
    pauses, none of them after the last attempt. *)
Theorem fetchWithRetry_backoff (fetch : nat -> Proxy.Outcome) (maxRetries : Z) :
  let r := Proxy.fetchWithRetry fetch maxRetries in
  (forall k status,
      (Z.of_nat k <= maxRetries)%Z ->
      (forall j, (j < k)%nat -> Proxy.fails (fetch j) = true) ->
      fetch k = Proxy.Responded status ->
      Proxy.fails (Proxy.Responded status) = false ->
      fst r = Proxy.Returned status /\
      List.length (snd r) = S k /\
      Proxy.totalDelay (snd r) = (500 * (2 ^ Z.of_nat k - 1))%Z) /\
  ((0 <= maxRetries)%Z ->
   (forall j, (Z.of_nat j <= maxRetries)%Z -> Proxy.fails (fetch j) = true) ->
   fst r = Proxy.Threw (Some (Proxy.failureOf (fetch (Z.to_nat maxRetries)))) /\
   List.length (snd r) = S (Z.to_nat maxRetries) /\
   Proxy.totalDelay (snd r) = (500 * (2 ^ maxRetries - 1))%Z).
Proof.
  cbv zeta. unfold Proxy.fetchWithRetry. split.
  - intros k status Hk Hf E S.
    destruct (attempts_first_settled fetch maxRetries k
                (Z.to_nat (maxRetries + 1)) 0 None status)
      as [R [L T]]; try assumption; try lia.
    { intros j Hj. apply Hf. lia. }
    split; [exact R|]. split; [exact L|].
    rewrite T. cbn [Nat.add Z.of_nat]. rewrite Z.pow_0_r. reflexivity.
  - intros H0 Hf.
    replace (Z.to_nat (maxRetries + 1)) with (S (Z.to_nat maxRetries)) by lia.
    destruct (attempts_all_failed fetch maxRetries (Z.to_nat maxRetries) 0 None)
      as [R [L T]].
    { intros j Hj. apply Hf. lia. }
    { cbn [Nat.add]. lia. }
    cbn [Nat.add] in *. split; [exact R|]. split; [exact L|].
    rewrite T. rewrite Z2Nat.id by exact H0. cbn [Z.of_nat].
    rewrite Z.pow_0_r. reflexivity.
Qed.

Lemma fetchWithRetry_backoff_witness :
  (fst (Proxy.fetchWithRetry Proxy.flaky 3) = Proxy.Returned 200 /\
   List.length (snd (Proxy.fetchWithRetry Proxy.flaky 3)) = 3%nat /\
   Proxy.totalDelay (snd (Proxy.fetchWithRetry Proxy.flaky 3)) = 1500%Z) /\
  Proxy.totalDelay (snd (Proxy.fetchWithRetry Proxy.unreachable 3)) = 3500%Z.
Proof.
  destruct (fetchWithRetry_backoff Proxy.flaky 3) as [Hfirst _].
  destruct (fetchWithRetry_backoff Proxy.unreachable 3) as [_ Hall].
  split.
  - apply (Hfirst 2%nat 200%Z).
    + lia.
    + intros [|[|j]] Hj; [reflexivity | reflexivity | lia].
    + reflexivity.
    + reflexivity.
  - apply Hall; [lia | reflexivity].
Defined.

(** ** The player's buffer size *)

Section PlayerBuffer.

Import Player.

Lemma baseSizeFor_range b : (512 <= baseSizeFor b <= 1536)%Z.
Proof.
  unfold baseSizeFor.
  destruct (JS.gtb b 10), (JS.gtb b 6), (JS.gtb b 3); lia.
Qed.

Lemma baseSizeFor_monotone b1 b2 :
  b1 <= b2 -> (baseSizeFor b1 <= baseSizeFor b2)%Z.
Proof.
  intro H. unfold baseSizeFor.
  destruct (JS.gtb b1 10) eqn:E1.
  { apply gtb_true in E1.
    replace (JS.gtb b2 10) with true by (symmetry; apply gtb_true; lra). lia. }
  destruct (JS.gtb b1 6) eqn:E2.
  { apply gtb_true in E2.
    replace (JS.gtb b2 6) with true by (symmetry; apply gtb_true; lra).
    destruct (JS.gtb b2 10); lia. }
  destruct (JS.gtb b1 3) eqn:E3.
  { apply gtb_true in E3.
    replace (JS.gtb b2 3) with true by (symmetry; apply gtb_true; lra).
    destruct (JS.gtb b2 10), (JS.gtb b2 6); lia. }
  destruct (JS.gtb b2 10), (JS.gtb b2 6), (JS.gtb b2 3); lia.
Qed.

Lemma getOptimalBufferSize_base a ns :
  getOptimalBufferSize a ns
  = match ns with
    | slow => JS.round (inject_Z (baseSizeFor (JS.or a 10)) * 0.7)
    | fast => JS.round (inject_Z (baseSizeFor (JS.or a 10)) * 1.3)
    | medium => baseSizeFor (JS.or a 10)
    end.
Proof.
  unfold getOptimalBufferSize, baseSizeFor. cbv zeta.
  destruct (JS.gtb (JS.or a 10) 10), (JS.gtb (JS.or a 10) 6),
    (JS.gtb (JS.or a 10) 3); reflexivity.
Qed.

Lemma round_monotone x y : x <= y -> (JS.round x <= JS.round y)%Z.
Proof.
  intro H. unfold JS.round. apply Qfloor_resp_le. lra.
Qed.

End PlayerBuffer.

(** X29: The buffer size is always between 358 and 1997; for one network speed
    it never shrinks when a positive bandwidth average grows; and an
    average of 0, which is what the bandwidth hook publishes before it has
    measured anything, is sized as 10 Mbps. *)
Theorem getOptimalBufferSize_range
    (averageBitrate : Q) (networkSpeed : Player.NetworkSpeed) :
  (358 <= Player.getOptimalBufferSize averageBitrate networkSpeed <= 1997)%Z /\
  (averageBitrate == 0 ->
   Player.getOptimalBufferSize averageBitrate networkSpeed
   = Player.getOptimalBufferSize 10 networkSpeed) /\
  (forall larger,
      0 < averageBitrate -> averageBitrate <= larger ->
      (Player.getOptimalBufferSize averageBitrate networkSpeed
       <= Player.getOptimalBufferSize larger networkSpeed)%Z).
Proof.
  split; [|split].
  - rewrite getOptimalBufferSize_base.
    pose proof (baseSizeFor_range (JS.or averageBitrate 10)) as [Lo Hi].
    rewrite Zle_Qle in Lo, Hi.
    change (inject_Z 512) with 512 in Lo. change (inject_Z 1536) with 1536 in Hi.
    destruct networkSpeed.
    + split.
      * transitivity (JS.round (512 * 1.3)); [vm_compute; discriminate|].
        apply round_monotone. lra.
      * transitivity (JS.round (1536 * 1.3)); [|vm_compute; discriminate].
        apply round_monotone. lra.
    + rewrite !Zle_Qle.
      change (inject_Z 358) with 358. change (inject_Z 1997) with 1997.
      split; lra.
    + split.
      * transitivity (JS.round (512 * 0.7)); [vm_compute; discriminate|].
        apply round_monotone. lra.
      * transitivity (JS.round (1536 * 0.7)); [|vm_compute; discriminate].
        apply round_monotone. lra.
  - intro H. unfold Player.getOptimalBufferSize, JS.or.
    replace (JS.truthy averageBitrate) with false.
    + reflexivity.
    + symmetry. unfold JS.truthy. apply negb_false_iff.
      now apply Qeq_bool_iff.
  - intros larger Hpos Hle. rewrite !getOptimalBufferSize_base.
    rewrite !truthy_or by lra.
    pose proof (baseSizeFor_monotone averageBitrate larger Hle) as M.
    destruct networkSpeed; [|exact M|]; apply round_monotone;
      rewrite Zle_Qle in M; nra.
Qed.

Lemma getOptimalBufferSize_range_witness :
  Player.getOptimalBufferSize 0 Player.slow
  = Player.getOptimalBufferSize 10 Player.slow /\
  (Player.getOptimalBufferSize 4 Player.fast
   <= Player.getOptimalBufferSize 12 Player.fast)%Z.
Proof.
  destruct (getOptimalBufferSize_range 0 Player.slow) as [_ [Hzero _]].
  destruct (getOptimalBufferSize_range 4 Player.fast) as [_ [_ Hmono]].
  split.
  - apply Hzero. reflexivity.
  - apply Hmono; vm_compute; congruence.
Defined.
